(** * NeuralNexus: the search-augmented answer pipeline

    A shallow embedding of [src/web_search.py], [src/llm_handler.py] and the
    evidence/parse/format code of [src/roles/fact_checker.py] and
    [src/roles/research_assistant.py], with the properties the design
    document states about them.

    Modelling conventions.
    - Python [str] is [string] (a sequence of 8-bit characters); the case
      conversions act on the ASCII letters.
    - Python [float] arithmetic is idealised: the rational operations
      (+, -, *, /, min, max) are exact in [Q]; the square root taken by
      [statistics.stdev] lives in [R].  What is kept of the floats is the
      [OverflowError] of an [int] that is divided or converted and does
      not fit one.
    - [dict] literals are [gmap]s (an association list where the code
      iterates in insertion order), [set]s of strings are [gset]s.
    - Clock readings, the process environment and the HTTP provider are
      explicit inputs of the functions that consult them. *)

From Stdlib Require Import ZArith QArith Qminmax Qreals Reals Psatz Lia List.
From Stdlib Require Import Ascii String DecimalString Sorted.
From stdpp Require Import base option list gmap strings.

Import ListNotations.
Local Open Scope string_scope.

(** ** Python string primitives *)

Module PyStr.

Definition nl : ascii := "010"%char.

(** [str.isspace] on one character: space, TAB, LF, VT, FF, CR and the
    four ASCII separators FS, GS, RS, US. *)
Definition isspace (c : ascii) : bool :=
  let n := nat_of_ascii c in
  (n =? 32)%nat || ((9 <=? n)%nat && (n <=? 13)%nat)
  || ((28 <=? n)%nat && (n <=? 31)%nat).

Definition lower_char (c : ascii) : ascii :=
  let n := nat_of_ascii c in
  if ((65 <=? n)%nat && (n <=? 90)%nat)%bool then ascii_of_nat (n + 32) else c.

Definition upper_char (c : ascii) : ascii :=
  let n := nat_of_ascii c in
  if ((97 <=? n)%nat && (n <=? 122)%nat)%bool then ascii_of_nat (n - 32) else c.

Fixpoint smap (f : ascii -> ascii) (s : string) : string :=
  match s with
  | EmptyString => EmptyString
  | String c r => String (f c) (smap f r)
  end.

(** [s.lower()], [s.upper()] *)
Definition lower : string -> string := smap lower_char.
Definition upper : string -> string := smap upper_char.

(** [s.startswith(p)] *)
Fixpoint startswith (p s : string) : bool :=
  match p, s with
  | EmptyString, _ => true
  | String a p', String b s' => Ascii.eqb a b && startswith p' s'
  | String _ _, EmptyString => false
  end.

(** [p in s] *)
Fixpoint contains (p s : string) : bool :=
  startswith p s ||
  match s with
  | EmptyString => false
  | String _ s' => contains p s'
  end.

(** [s.split(sep)] for a one-character separator: never empty. *)
Fixpoint split_on (sep : ascii) (s : string) : list string :=
  match s with
  | EmptyString => [EmptyString]
  | String c r =>
      if Ascii.eqb c sep then EmptyString :: split_on sep r
      else match split_on sep r with
           | h :: t => String c h :: t
           | [] => [String c EmptyString]
           end
  end.

(** [sep.join(parts)] *)
Fixpoint join (sep : string) (parts : list string) : string :=
  match parts with
  | [] => EmptyString
  | [p] => p
  | p :: rest => p ++ sep ++ join sep rest
  end.

(** [s.split()]: the maximal runs of non-blank characters. *)
Fixpoint words_aux (cur : string) (s : string) : list string :=
  let flush := match cur with EmptyString => [] | _ => [cur] end in
  match s with
  | EmptyString => flush
  | String c r =>
      if isspace c then flush ++ words_aux EmptyString r
      else words_aux (cur ++ String c EmptyString) r
  end.
Definition words (s : string) : list string := words_aux EmptyString s.

Fixpoint lstrip (s : string) : string :=
  match s with
  | String c r => if isspace c then lstrip r else s
  | EmptyString => EmptyString
  end.

Fixpoint rstrip (s : string) : string :=
  match s with
  | EmptyString => EmptyString
  | String c r =>
      match rstrip r with
      | EmptyString => if isspace c then EmptyString else String c EmptyString
      | r' => String c r'
      end
  end.

(** [s.strip()] *)
Definition strip (s : string) : string := rstrip (lstrip s).

Fixpoint drop (n : nat) (s : string) : string :=
  match n, s with
  | O, _ => s
  | S n', String _ r => drop n' r
  | S _, EmptyString => EmptyString
  end.

(** [s.replace(old, new)] for a non-empty [old]: leftmost occurrences,
    not overlapping.  The fuel is the length of [s]. *)
Fixpoint replace_aux (fuel : nat) (old new s : string) : string :=
  match fuel with
  | O => s
  | S fuel' =>
      match s with
      | EmptyString => EmptyString
      | String c r =>
          if startswith old s
          then new ++ replace_aux fuel' old new (drop (String.length old) s)
          else String c (replace_aux fuel' old new r)
      end
  end.
Definition replace (old new s : string) : string :=
  replace_aux (String.length s) old new s.

(** [str(n)] for a natural number *)
Definition of_nat (n : nat) : string := NilEmpty.string_of_uint (Nat.to_uint n).

(** [l[-1]] with a default for the empty list *)
Definition last_or (d : string) (l : list string) : string := List.last l d.

End PyStr.

(** ** Exceptions *)

(** The exception classes the modelled code raises or lets through; each
    carries what [str(e)] prints. *)
Inductive exn : Type :=
| KeyError (key : string)
| IndexError (msg : string)
| AttributeError (msg : string)
| ValueError (msg : string)
| TypeError (msg : string)
| StatisticsError (msg : string)
| OverflowError (msg : string)
| ZeroDivisionError (msg : string)
| TimeoutException (msg : string)
| OpenAIError (msg : string)
| HTTPStatusError (status_code : Z) (msg : string).

Definition str_exn (e : exn) : string :=
  match e with
  | KeyError key => "'" ++ key ++ "'"
  | IndexError msg | AttributeError msg | ValueError msg | TypeError msg
  | StatisticsError msg | OverflowError msg | ZeroDivisionError msg
  | TimeoutException msg | OpenAIError msg | HTTPStatusError _ msg => msg
  end.

(** Outcome of a call: a value, or an exception in flight. *)
Inductive res (A : Type) : Type :=
| Ok (a : A)
| Raise (e : exn).
Arguments Ok {A} a.
Arguments Raise {A} e.

Definition res_bind {A B} (k : A -> res B) (m : res A) : res B :=
  match m with
  | Ok a => k a
  | Raise e => Raise e
  end.

#[global] Instance res_mbind : MBind res := @res_bind.
#[global] Instance res_mret : MRet res := @Ok.

(** [d[key]] on a dictionary entry that may be missing *)
Definition subscript {A} (key : string) (entry : option A) : res A :=
  match entry with
  | Some v => Ok v
  | None => Raise (KeyError key)
  end.

(** ** The two regular expressions of [fact_checker.format_response] *)

Module Re.

(** Text up to, not including, the next line feed. *)
Fixpoint take_line (s : string) : string :=
  match s with
  | EmptyString => EmptyString
  | String c r => if Ascii.eqb c PyStr.nl then EmptyString else String c (take_line r)
  end.

(** [(.+?)(?=\n|$)] tried at the head of [s]: one character, which must
    not be a line feed unless [re.DOTALL] is set, then as few more as
    reach a line feed or the end. *)
Definition group_at (dotall : bool) (s : string) : option string :=
  match s with
  | EmptyString => None
  | String c r =>
      if (Ascii.eqb c PyStr.nl && negb dotall)%bool then None
      else Some (String c (take_line r))
  end.

(** [\s*(.+?)(?=\n|$)] at the head of [s]: the blank run is greedy and
    gives characters back one at a time until the group matches. *)
Fixpoint blanks_then_group (dotall : bool) (s : string) : option string :=
  match s with
  | EmptyString => None
  | String c r =>
      if PyStr.isspace c then
        match blanks_then_group dotall r with
        | Some g => Some g
        | None => group_at dotall s
        end
      else group_at dotall s
  end.

(** [re.search(header + r'\s*(.+?)(?=\n|$)', s)], leftmost match; the
    result is [group(1)]. *)
Fixpoint search_header (header : string) (dotall : bool) (s : string)
  : option string :=
  let here :=
    if PyStr.startswith header s
    then blanks_then_group dotall (PyStr.drop (String.length header) s)
    else None in
  match here with
  | Some g => Some g
  | None =>
      match s with
      | EmptyString => None
      | String _ r => search_header header dotall r
      end
  end.

(** The longest run of non-blank characters at the head of [s]. *)
Fixpoint take_nonspace (s : string) : string :=
  match s with
  | EmptyString => EmptyString
  | String c r => if PyStr.isspace c then EmptyString else String c (take_nonspace r)
  end.

Definition url_at (scheme : string) (s : string) : option string :=
  if PyStr.startswith ("- " ++ scheme) s then
    match take_nonspace (PyStr.drop (String.length ("- " ++ scheme)) s) with
    | EmptyString => None
    | rest => Some (scheme ++ rest)
    end
  else None.

(** [re.search(r'- (https?://\S+)', s)]; the result is [group(1)]. *)
Fixpoint search_url (s : string) : option string :=
  let here :=
    match url_at "https://" s with
    | Some u => Some u
    | None => url_at "http://" s
    end in
  match here with
  | Some u => Some u
  | None =>
      match s with
      | EmptyString => None
      | String _ r => search_url r
      end
  end.

End Re.

(** [[f(x) for x in xs]]: the first exception ends the comprehension. *)
Fixpoint comprehension {A B} (f : A -> res B) (xs : list A) : res (list B) :=
  match xs with
  | [] => Ok []
  | x :: rest => y ← f x; ys ← comprehension f rest; Ok (y :: ys)
  end.

(** ** Division of two [int]s *)

(** Quotients of this magnitude or more round past the largest [float]
    ([2^1024 - 2^971]): the bound is half a unit in the last place above
    it. *)
Definition float_limit : Z := 2 ^ 1024 - 2 ^ 970.

(** [n / d] on two [int]s.  The quotient is a [float]: the division
    raises [OverflowError] when the quotient is too large for one, and
    [ZeroDivisionError] when [d] is zero.  The rounding of a quotient that
    fits is idealised away, like that of the other operations. *)
Definition int_true_div (n d : Z) : res Q :=
  if (d =? 0)%Z then Raise (ZeroDivisionError "division by zero")
  else if (float_limit * Z.abs d <=? Z.abs n)%Z
  then Raise (OverflowError "integer division result too large for a float")
  else Ok (inject_Z n / inject_Z d)%Q.

(** [n / x] with [n] an [int] and [x] a [float] first converts [n]:
    [OverflowError] when it is too large for a [float]. *)
Definition int_to_float (n : Z) : res Q :=
  if (float_limit <=? Z.abs n)%Z
  then Raise (OverflowError "int too large to convert to float")
  else Ok (inject_Z n).

(** ** [statistics] *)

Module Statistics.
Local Open Scope R_scope.

(** [sum(xs)] *)
Definition sum (xs : list R) : R := fold_right Rplus 0 xs.

(** [statistics.mean] *)
Definition mean (xs : list R) : R := sum xs / INR (List.length xs).

(** [statistics.stdev]: the square root of the sample variance; fewer
    than two data points is a [StatisticsError]. *)
Definition stdev (xs : list R) : res R :=
  if (List.length xs <? 2)%nat
  then Raise (StatisticsError "stdev requires at least two data points")
  else
    let m := mean xs in
    let ss := sum (List.map (fun x => (x - m) * (x - m)) xs) in
    Ok (sqrt (ss / (INR (List.length xs) - 1))).

End Statistics.

(** * The search client, [src/web_search.py] *)

Module WebSearch.

(** ** Result Scorer: [WebSearch.assess_source_quality] *)

(** The [source] dictionaries built by [search]; a missing key is [None]
    and is read through [dict.get] with its default. *)
Record Source := mkSource {
  src_domain : option string;
  src_publication_year : option Z;
  src_type : option string
}.

Local Open Scope Q_scope.

Definition reputable_domains : gmap string Q :=
  <["edu" := 9#10]> (<["gov" := 9#10]> (<["org" := 7#10]> (<["com" := 5#10]> ∅))).

Definition source_types : gmap string Q :=
  <["academic" := 9#10]> (<["news" := 6#10]> (<["blog" := 4#10]> (<["forum" := 3#10]> ∅))).

(** [d.get(k, dflt)] *)
Definition dict_get {V} (d : gmap string V) (k : string) (dflt : V) : V :=
  default dflt (d !! k).

Section SourceQuality.

(** [datetime.now().year] *)
Variable current_year : Z.

(** [max(0, 1 - (years_old / 10))]: the years are [int]s, so the division
    is the one that may overflow. *)
Definition freshness_score (pub_year : Z) : res Q :=
  let years_old := (current_year - pub_year)%Z in
  tenths ← int_true_div years_old 10;
  Ok (Qmax 0 (1 - tenths)).

Definition assess_source_quality (source : Source) : res Q :=
  let quality_score := 0 in
  let domain := default ""%string (src_domain source) in
  let domain_ext := PyStr.last_or ""%string (PyStr.split_on "."%char domain) in
  let quality_score := quality_score + dict_get reputable_domains domain_ext (3#10) in
  let pub_year := default current_year (src_publication_year source) in
  freshness ← freshness_score pub_year;
  let quality_score := quality_score + freshness * (3#10) in
  let source_type := default "unknown"%string (src_type source) in
  let quality_score := quality_score + dict_get source_types source_type (2#10) in
  Ok (Qmin 1 (quality_score / 2)).

End SourceQuality.

(** ** Result Scorer: [WebSearch._calculate_relevance] *)

(** One element of the provider's [web.results] array. *)
Record RawResult := mkRawResult {
  r_title : option string;
  r_url : option string;
  r_description : option string;
  r_date_published : option Z
}.

Section Relevance.

(** The order in which Python iterates over a set of strings.  It
    depends on the per-process hash seed, so it is an input; all that
    is known is that every element is visited once. *)
Variable set_iter : gset string -> list string.

(** [{term.lower() for term in query_terms}] *)
Definition lower_terms (query_terms : gset string) : gset string :=
  set_map PyStr.lower query_terms.

(** [f"{result['title']} {result['description']}".lower()] *)
Definition relevance_text (title description : string) : string :=
  PyStr.lower (title ++ " " ++ description).

Definition _calculate_relevance (result : RawResult) (query_terms : gset string)
  : res Q :=
  title ← subscript "title" (r_title result);
  description ← subscript "description" (r_description result);
  let text := relevance_text title description in
  let query_terms_lower := lower_terms query_terms in
  let term_count :=
    List.length (List.filter (fun term => PyStr.contains term text)
                             (set_iter query_terms_lower)) in
  let relevance :=
    if bool_decide (query_terms_lower = ∅) then 0
    else inject_Z (Z.of_nat term_count)
         / inject_Z (Z.of_nat (size query_terms_lower)) in
  let relevance :=
    if PyStr.contains (PyStr.join " " (set_iter query_terms_lower)) text
    then relevance * (15#10) else relevance in
  Ok (Qmin relevance 1).

End Relevance.

(** ** Confidence Aggregator: [WebSearch.calculate_confidence] *)

Section Confidence.
Local Open Scope R_scope.

Variable current_year : Z.

(** [if cond: reasons.append(text)] *)
Definition reason_if {P Q : Prop} (cond : {P} + {Q}) (text : string) : list string :=
  if cond then [text] else [].

Definition calculate_confidence (sources : list Source) : res (R * list string) :=
  match sources with
  | [] => Ok (0, ["No sources found"%string])
  | _ =>
      scores ← comprehension (assess_source_quality current_year) sources;
      let source_scores := List.map Q2R scores in
      let avg_score := Statistics.sum source_scores / INR (List.length source_scores) in
      consistency ←
        (if (1 <? List.length source_scores)%nat
         then sd ← Statistics.stdev source_scores; Ok (1 - sd)
         else Ok (5 / 10));
      let num_sources_score := Rmin 1 (INR (List.length sources) / 5) in
      let confidence_score :=
        avg_score * (4 / 10) + consistency * (3 / 10) + num_sources_score * (3 / 10) in
      let reasons :=
        (reason_if (Rlt_dec (7 / 10) avg_score) "High-quality sources found"
         ++ reason_if (Rlt_dec (7 / 10) consistency)
                      "Consistent information across sources"
         ++ reason_if (Rlt_dec (6 / 10) num_sources_score)
              ("Multiple sources (" ++ PyStr.of_nat (List.length sources)
               ++ ") corroborate the information")%string)%list in
      Ok (confidence_score, reasons)
  end.

End Confidence.

(** [SearchResult] (a pydantic model) *)
Record SearchResult := mkSearchResult {
  sr_title : string;
  sr_url : string;
  sr_description : string;
  sr_query_time : Q;
  sr_relevance_score : Q
}.

(** ** Search Client: construction, retried request, [search] *)

(** [SearchMetrics] (a dataclass, mutated during one call of [search]) *)
Record SearchMetrics := mkSearchMetrics {
  total_time : Q;
  cache_hit : bool;
  results_count : nat;
  error : option string
}.

Definition set_total_time (v : Q) (m : SearchMetrics) : SearchMetrics :=
  mkSearchMetrics v (cache_hit m) (results_count m) (error m).
Definition set_cache_hit (v : bool) (m : SearchMetrics) : SearchMetrics :=
  mkSearchMetrics (total_time m) v (results_count m) (error m).
Definition set_results_count (v : nat) (m : SearchMetrics) : SearchMetrics :=
  mkSearchMetrics (total_time m) (cache_hit m) v (error m).
Definition set_error (v : option string) (m : SearchMetrics) : SearchMetrics :=
  mkSearchMetrics (total_time m) (cache_hit m) (results_count m) v.

(** The attributes [__init__] sets on a [WebSearch] object (the semaphore
    is represented by its limit). *)
Record Client := mkClient {
  brave_api_key : string;
  timeout : Q;
  max_retries : nat;
  concurrent_limit : nat
}.

(** [WebSearch.__init__]; [env] is the process environment read by
    [os.getenv].  [if not self.brave_api_key] is true of [None] and of the
    empty string. *)
Definition __init__ (env : gmap string string) : res Client :=
  let key := env !! "BRAVE_API_KEY"%string in
  match key with
  | Some (String c k) =>
      Ok {| brave_api_key := String c k; timeout := 10;
            max_retries := 2; concurrent_limit := 3 |}
  | Some EmptyString | None =>
      Raise (ValueError "BRAVE_API_KEY environment variable is required")
  end.

Definition _sanitize_query (query : string) : string :=
  PyStr.join " " (PyStr.words query).

(** [_get_cached_results]: the body returns [None]; the [lru_cache]
    wrapper can only hand back what the body returned. *)
Definition _get_cached_results (self : Client) (query : string)
  : option (list SearchResult) := None.

(** The [modifiers] dictionary, in insertion order. *)
Definition modifiers : list (string * list string) :=
  [ ("fact check", ["fact check"; "verify"; "evidence"]);
    ("research", ["research paper"; "academic"; "study"]);
    ("technical", ["technical documentation"; "api"; "implementation"]);
    ("news", ["news"; "recent"; "current events"]);
    ("analysis", ["analysis"; "insights"; "expert opinion"]) ]%string.

Definition _enhance_query (query role_context : string) : string :=
  let role_terms := PyStr.lower role_context in
  let query_modifiers :=
    flat_map (fun '(key, terms) =>
                if existsb (fun term => PyStr.contains term role_terms) terms
                then firstn 1 terms else [])
             modifiers in
  match query_modifiers with
  | [] => query
  | _ => (PyStr.join " " query_modifiers ++ " " ++ query)%string
  end.

(** *** What one call of [search] observes and does *)

(** The body of a successful provider response, as far as [search] reads
    it: [results.get('web', {}).get('results', [])]. *)
Record JsonBody := mkJsonBody { web_results : list RawResult }.

(** What the provider does with one request: [client.get] times out,
    [raise_for_status] raises an [HTTPStatusError] whose response has
    the given status code, or [response.json()] is returned. *)
Inductive Outcome : Type :=
| Responds (body : JsonBody)
| TimesOut (msg : string)
| StatusError (status_code : Z) (msg : string).

Inductive Event : Type :=
| Request (attempt : nat)
| Sleep (seconds : Z).

(** State of a call in progress: how many times the clock was read, the
    requests and sleeps so far, and the [metrics] object. *)
Record CallState := mkCallState {
  clock_reads : nat;
  log : list Event;
  metrics : SearchMetrics
}.

Definition M (A : Type) : Type := CallState -> res A * CallState.

Definition ret {A} (a : A) : M A := fun st => (Ok a, st).
Definition raise {A} (e : exn) : M A := fun st => (Raise e, st).
Definition lift {A} (r : res A) : M A := fun st => (r, st).
Definition bind {A B} (m : M A) (k : A -> M B) : M B :=
  fun st =>
    match m st with
    | (Ok a, st') => k a st'
    | (Raise e, st') => (Raise e, st')
    end.
(** [try: m  except Exception as e: h e] *)
Definition try_except {A} (m : M A) (h : exn -> M A) : M A :=
  fun st =>
    match m st with
    | (Ok a, st') => (Ok a, st')
    | (Raise e, st') => h e st'
    end.

Notation "'do' x <- m ; k" := (bind m (fun x => k))
  (at level 10, x name, m at level 100, k at level 200).
Notation "'do' ' pat <- m ; k" := (bind m (fun x => match x with pat => k end))
  (at level 10, pat pattern, m at level 100, k at level 200).

Definition emit (ev : Event) : M unit :=
  fun st => (Ok tt, mkCallState (clock_reads st) (log st ++ [ev])%list (metrics st)).

Definition update_metrics (f : SearchMetrics -> SearchMetrics) : M unit :=
  fun st => (Ok tt, mkCallState (clock_reads st) (log st) (f (metrics st))).

Definition get_metrics : M SearchMetrics := fun st => (Ok (metrics st), st).

Section Search.

(** [time.time()]: the value of the k-th reading within the call. *)
Variable clock : nat -> Q.
(** The provider's answer to the request of each attempt. *)
Variable http : nat -> Outcome.
(** [datetime.now().year] *)
Variable current_year : Z.
(** Iteration order of string sets. *)
Variable set_iter : gset string -> list string.

Definition time_time : M Q :=
  fun st => (Ok (clock (clock_reads st)),
             mkCallState (S (clock_reads st)) (log st) (metrics st)).

(** [await asyncio.sleep(seconds)] *)
Definition asyncio_sleep (seconds : Z) : M unit := emit (Sleep seconds).

(** The body of the inner [try]: [client.get], [raise_for_status],
    [response.json()]. *)
Definition client_get (attempt : nat) : M JsonBody :=
  do _ <- emit (Request attempt);
  match http attempt with
  | Responds body => ret body
  | TimesOut msg => raise (TimeoutException msg)
  | StatusError status_code msg => raise (HTTPStatusError status_code msg)
  end.

(** [for attempt in range(self.max_retries)], over the attempts still to
    run.  Reaching the end of the range ends the function: it returns
    [None]. *)
Fixpoint retry_loop (self : Client) (attempts : list nat) : M (option JsonBody) :=
  match attempts with
  | [] => ret None
  | attempt :: later =>
      try_except
        (do body <- client_get attempt; ret (Some body))
        (fun e =>
           match e with
           | TimeoutException _ =>
               if (Z.of_nat attempt =? Z.of_nat (max_retries self) - 1)%Z
               then raise e
               else do _ <- asyncio_sleep (1 * (Z.of_nat attempt + 1));
                    retry_loop self later
           | HTTPStatusError status_code _ =>
               if (status_code =? 429)%Z
               then do _ <- asyncio_sleep (2 * (Z.of_nat attempt + 1));
                    retry_loop self later
               else raise e
           | _ => raise e
           end)
  end.

Definition _make_request (self : Client) : M (option JsonBody) :=
  retry_loop self (seq 0 (max_retries self)).

(** [l[i]] *)
Definition list_index {A} (l : list A) (i : nat) : res A :=
  match nth_error l i with
  | Some x => Ok x
  | None => Raise (IndexError "list index out of range")
  end.

(** One turn of [for result in results...]: appends to [search_results]
    and to [sources]. *)
Definition process_result (start_time : Q) (query_terms : gset string)
    (acc : list SearchResult * list Source) (result : RawResult)
  : M (list SearchResult * list Source) :=
  let '(search_results, sources) := acc in
  do relevance <- lift (_calculate_relevance set_iter result query_terms);
  do title <- lift (subscript "title" (r_title result));
  do url <- lift (subscript "url" (r_url result));
  do description <- lift (subscript "description" (r_description result));
  do now <- time_time;
  let search_results :=
    (search_results
     ++ [mkSearchResult title url description (now - start_time) relevance])%list in
  do url <- lift (subscript "url" (r_url result));
  do domain <- lift (list_index (PyStr.split_on "/"%char url) 2);
  ret (search_results,
       (sources ++ [mkSource (Some domain)
                             (Some (default current_year (r_date_published result)))
                             (Some "unknown"%string)])%list).

Fixpoint process_results (start_time : Q) (query_terms : gset string)
    (acc : list SearchResult * list Source) (results : list RawResult)
  : M (list SearchResult * list Source) :=
  match results with
  | [] => ret acc
  | result :: rest =>
      do acc' <- process_result start_time query_terms acc result;
      process_results start_time query_terms acc' rest
  end.

(** [search_results.sort(key=lambda x: x.relevance_score, reverse=True)]:
    descending and stable. *)
Fixpoint insert_desc (x : SearchResult) (sorted : list SearchResult)
  : list SearchResult :=
  match sorted with
  | [] => [x]
  | y :: rest =>
      if Qlt_le_dec (sr_relevance_score x) (sr_relevance_score y)
      then y :: insert_desc x rest
      else x :: y :: rest
  end.
Definition sort_by_relevance (l : list SearchResult) : list SearchResult :=
  fold_right insert_desc [] l.

Definition SearchReturn : Type :=
  (list SearchResult * SearchMetrics * R * list string)%type.

(** The [try] block of [search]. *)
Definition search_try (self : Client) (query role_context : string)
    (start_time : Q) : M SearchReturn :=
  let cached_results := _get_cached_results self query in
  match cached_results with
  | Some (c :: cs) =>
      do _ <- update_metrics (set_cache_hit true);
      do now <- time_time;
      do _ <- update_metrics (set_total_time (now - start_time));
      do _ <- update_metrics (set_results_count (List.length (c :: cs)));
      do metrics <- get_metrics;
      ret (c :: cs, metrics, 0%R, ["No confidence assessment"%string])
  | _ =>
      let enhanced_query := _enhance_query query role_context in
      let sanitized_query := _sanitize_query enhanced_query in
      let query_terms : gset string := list_to_set (PyStr.words sanitized_query) in
      do results <- _make_request self;
      do body <-
        match results with
        | Some body => ret body
        | None => raise (AttributeError "'NoneType' object has no attribute 'get'")
        end;
      do '(search_results, sources) <-
        process_results start_time query_terms ([], []) (web_results body);
      let search_results := sort_by_relevance search_results in
      do now <- time_time;
      do _ <- update_metrics (set_total_time (now - start_time));
      do _ <- update_metrics (set_results_count (List.length search_results));
      do '(confidence_score, confidence_reasons) <-
        lift (calculate_confidence current_year sources);
      do metrics <- get_metrics;
      ret (search_results, metrics, confidence_score, confidence_reasons)
  end.

(** The [except Exception as e] clause of [search]. *)
Definition search_except (start_time : Q) (e : exn) : M SearchReturn :=
  do _ <- update_metrics (set_error (Some (str_exn e)));
  do now <- time_time;
  do _ <- update_metrics (set_total_time (now - start_time));
  do metrics <- get_metrics;
  ret ([], metrics, 0%R, ["No confidence assessment"%string]).

Definition search_call (self : Client) (query role_context : string)
  : M SearchReturn :=
  do start_time <- time_time;
  do _ <- update_metrics (fun _ => mkSearchMetrics 0 false 0 None);
  try_except (search_try self query role_context start_time)
             (search_except start_time).

(** A fresh call: nothing read, nothing logged. *)
Definition fresh : CallState :=
  mkCallState 0 [] (mkSearchMetrics 0 false 0 None).

(** [await self.search(query, role_context)]: what the caller gets. *)
Definition search (self : Client) (query role_context : string)
  : res SearchReturn :=
  fst (search_call self query role_context fresh).

End Search.

End WebSearch.

(** ** Completion Client: construction *)

Module LLMHandler.

(** The [OpenAIModel] wrapper: the model name and the client it was given. *)
Record Handler (OpenAIClient : Type) := mkHandler {
  client : OpenAIClient;
  model_name : string
}.
Arguments mkHandler {OpenAIClient} client model_name.
Arguments client {OpenAIClient} h.
Arguments model_name {OpenAIClient} h.

Section Init.

(** The provider library's client type and constructor
    [AsyncOpenAI(base_url=..., api_key=...)].  They are not code of this
    repository: the constructor is an input, applied to the environment,
    the base URL and the key that [os.getenv] returned. *)
Variable OpenAIClient : Type.
Variable AsyncOpenAI :
  gmap string string -> string -> option string -> res OpenAIClient.

(** [LLMHandler.__init__] *)
Definition __init__ (env : gmap string string) : res (Handler OpenAIClient) :=
  client ← AsyncOpenAI env "https://glhf.chat/api/openai/v1"
                       (env !! "GLHF_API_KEY"%string);
  let model :=
    mkHandler client
      (default "hf:meta-llama/Llama-3.3-70B-Instruct"%string
               (env !! "LLM_MODEL"%string)) in
  Ok model.

End Init.

(** A constructor that treats a missing key the way the provider library
    documents it: with [api_key=None] it falls back on the environment
    variable OPENAI_API_KEY, and raises only when that is missing too.
    The client is represented by the key it ends up with. *)
Definition openai_client_init (env : gmap string string) (base_url : string)
    (api_key : option string) : res string :=
  let api_key :=
    match api_key with
    | Some k => Some k
    | None => env !! "OPENAI_API_KEY"%string
    end in
  match api_key with
  | Some k => Ok k
  | None =>
      Raise (OpenAIError
        "The api_key client option must be set either by passing api_key to the client or by setting the OPENAI_API_KEY environment variable")
  end.

End LLMHandler.

(** ** The evidence list of a role *)

(** The dictionaries appended to [evidence_points]. *)
Record EvidencePoint := mkEvidencePoint {
  ev_title : string;
  ev_url : string;
  ev_description : string
}.

Module Roles.
Import WebSearch.

Definition NL : string := String PyStr.nl EmptyString.
Definition DQ : string := String (ascii_of_nat 34) EmptyString.

Definition evidence_point (result : SearchResult) : EvidencePoint :=
  let title := PyStr.replace " - Wikipedia" "" (sr_title result) in
  {| ev_title := title;
     ev_url := sr_url result;
     ev_description := sr_description result |}.

(** One turn of the loop [for result in search_results] over the pair
    ([seen_urls], [evidence_points]). *)
Definition evidence_step (st : gset string * list EvidencePoint)
    (result : SearchResult) : gset string * list EvidencePoint :=
  let '(seen_urls, evidence_points) := st in
  if decide (sr_url result ∈ seen_urls) then st
  else ({[ sr_url result ]} ∪ seen_urls,
        (evidence_points ++ [evidence_point result])%list).

Definition evidence_points (search_results : list SearchResult)
  : list EvidencePoint :=
  snd (fold_left evidence_step search_results (∅, [])).

(** [for i, point in enumerate(evidence_points, 1)] *)
Fixpoint render_evidence (i : nat) (points : list EvidencePoint) : string :=
  match points with
  | [] => ""
  | point :: rest =>
      (PyStr.of_nat i ++ ". **[" ++ ev_title point ++ "](" ++ ev_url point ++ ")**" ++ NL
       ++ "   _" ++ ev_description point ++ "_" ++ NL ++ NL)
      ++ render_evidence (S i) rest
  end.

(** What [fact_checker.process_query] returns as text, given the
    completion's raw text and the search results. *)
Definition fact_checker_display (query raw_response : string)
    (search_results : list SearchResult) : string :=
  NL ++ "# <span style='font-size: 2em'>Fact Check Results</span>" ++ NL ++ NL
  ++ "### Claim Evaluation" ++ NL
  ++ "**" ++ DQ ++ query ++ DQ ++ "**" ++ NL ++ NL
  ++ "### Verdict" ++ NL
  ++ raw_response ++ NL ++ NL
  ++ "### Key Evidence" ++ NL
  ++ render_evidence 1 (evidence_points search_results).

(** What [research_assistant.process_query] returns as text. *)
Definition research_assistant_display (raw_response : string)
    (search_results : list SearchResult) : string :=
  NL ++ "# <span style='font-size: 2em'>Research Results</span>" ++ NL ++ NL
  ++ raw_response ++ NL ++ NL
  ++ "### Sources Used" ++ NL
  ++ render_evidence 1 (evidence_points search_results).

End Roles.

(** ** [fact_checker]: response parser and formatter *)

Module FactChecker.
Import Roles.

(** The value bound to a parameter annotated [str]: a string, or
    something else, of which only [None] is modelled. *)
Inductive pyobj : Type :=
| PyStr (s : string)
| PyNone.

(** [f"{o}"] *)
Definition py_format (o : pyobj) : string :=
  match o with
  | PyStr s => s
  | PyNone => "None"
  end.

(** [re.search] and [str.split] want a string. *)
Definition the_str (o : pyobj) : res string :=
  match o with
  | PyStr s => Ok s
  | PyNone => Raise (TypeError "expected string or bytes-like object")
  end.

Definition re_search_header (header : string) (dotall : bool) (o : pyobj)
  : res (option string) :=
  s ← the_str o; Ok (Re.search_header header dotall s).

Definition WARN : string :=
  String (ascii_of_nat 226) (String (ascii_of_nat 154) (String (ascii_of_nat 160) "")).

Definition error_block (first_line : string) : string :=
  "<div class=" ++ DQ ++ "error-message" ++ DQ ++ " style=" ++ DQ
  ++ "display: flex; align-items: center; gap: 8px; margin-bottom: 16px;" ++ DQ
  ++ "><span style=" ++ DQ ++ "color: #FF4B4B; font-size: 24px;" ++ DQ ++ ">"
  ++ WARN ++ "</span><span style=" ++ DQ ++ "color: #FF4B4B;" ++ DQ ++ ">"
  ++ first_line ++ "</span></div>".

Definition verdict_block (verdict : string) : string :=
  "<div style=" ++ DQ ++ "margin: 16px 0;" ++ DQ ++ "><strong>" ++ verdict
  ++ "</strong></div>".

Definition heading (title : string) : string :=
  "<h2 style=" ++ DQ ++ "margin: 24px 0 16px;" ++ DQ ++ ">" ++ title ++ "</h2>".

Definition body_block (text : string) : string :=
  "<div style=" ++ DQ ++ "margin-bottom: 16px;" ++ DQ ++ ">" ++ text ++ "</div>".

(** One turn of [for i, ref in enumerate(references, 1)]. *)
Definition reference_line (i : nat) (ref : string) : list string :=
  let ref := PyStr.strip ref in
  if String.eqb ref "" then []
  else match Re.search_url ref with
       | Some url =>
           let source_name :=
             PyStr.strip (hd ""%string (PyStr.split_on "-"%char ref)) in
           [PyStr.of_nat i ++ ". " ++ source_name ++ " - <a href=" ++ DQ ++ url
            ++ DQ ++ " target=" ++ DQ ++ "_blank" ++ DQ ++ ">" ++ url ++ "</a><br>"]
       | None => [PyStr.of_nat i ++ ". " ++ ref ++ "<br>"]
       end.

Fixpoint reference_lines (i : nat) (references : list string) : list string :=
  match references with
  | [] => []
  | ref :: rest => (reference_line i ref ++ reference_lines (S i) rest)%list
  end.

(** The [try] block of [format_response]. *)
Definition format_response_try (raw_response : pyobj) : res string :=
  verdict_match ← re_search_header "VERDICT:" false raw_response;
  confidence_match ← re_search_header "CONFIDENCE LEVEL:" false raw_response;
  explanation_match ← re_search_header "EXPLANATION:" false raw_response;
  context_match ← re_search_header "CONTEXT:" false raw_response;
  references_match ← re_search_header "REFERENCES:" true raw_response;
  let verdict :=
    match verdict_match with
    | Some g => PyStr.strip g
    | None => "UNKNOWN"
    end in
  formatted_false ←
    (if String.eqb (PyStr.upper verdict) "FALSE"
     then s ← the_str raw_response;
          Ok [error_block (hd ""%string (PyStr.split_on PyStr.nl s))]
     else Ok []);
  let formatted_verdict := [verdict_block verdict] in
  let formatted_explanation :=
    match explanation_match with
    | Some g => [heading "Explanation"; body_block (PyStr.strip g)]
    | None => []
    end in
  let formatted_context :=
    match context_match with
    | Some g => [heading "Additional Context"; body_block (PyStr.strip g)]
    | None => []
    end in
  let formatted_references :=
    match references_match with
    | Some g =>
        let references := PyStr.split_on PyStr.nl (PyStr.strip g) in
        (heading "References" :: reference_lines 1 references)%list
    | None => []
    end in
  Ok (PyStr.join NL (formatted_false ++ formatted_verdict ++ formatted_explanation
                     ++ formatted_context ++ formatted_references)%list).

(** [format_response]: the [try] block, and the [except Exception]
    clause that wraps the raw argument. *)
Definition format_response (raw_response : pyobj) : string :=
  match format_response_try raw_response with
  | Ok html => html
  | Raise _ => "<pre>" ++ py_format raw_response ++ "</pre>"
  end.

(** *** [parse_llm_response] *)

Inductive section_key : Type :=
| verdict_key | explanation_key | context_key | references_key
| confidence_level_key | opinion_warning_key.

(** The [sections] dictionary. *)
Record Sections := mkSections {
  verdict : string;
  explanation : string;
  context : string;
  references : list string;
  confidence_level : string;
  opinion_warning : string
}.

(** The loop state.  [sections['references'] = section_content] stores
    the list object itself, so later [append]s to [section_content] show
    through [sections['references']] until [section_content] is bound to
    a fresh list: [refs_shared] records that the two names denote one
    object. *)
Record ParseState := mkParseState {
  sections : Sections;
  current_section : option section_key;
  section_content : list string;
  refs_shared : bool
}.

Definition set_verdict (v : string) (s : Sections) : Sections :=
  mkSections v (explanation s) (context s) (references s)
             (confidence_level s) (opinion_warning s).
Definition set_explanation (v : string) (s : Sections) : Sections :=
  mkSections (verdict s) v (context s) (references s)
             (confidence_level s) (opinion_warning s).
Definition set_context (v : string) (s : Sections) : Sections :=
  mkSections (verdict s) (explanation s) v (references s)
             (confidence_level s) (opinion_warning s).
Definition set_references (v : list string) (s : Sections) : Sections :=
  mkSections (verdict s) (explanation s) (context s) v
             (confidence_level s) (opinion_warning s).
Definition set_confidence_level (v : string) (s : Sections) : Sections :=
  mkSections (verdict s) (explanation s) (context s) (references s)
             v (opinion_warning s).
Definition set_opinion_warning (v : string) (s : Sections) : Sections :=
  mkSections (verdict s) (explanation s) (context s) (references s)
             (confidence_level s) v.

(** [current_section = key; sections[key] = line.replace(header, '').strip()] *)
Definition enter_inline (key : section_key) (value : string)
    (setter : string -> Sections -> Sections) (st : ParseState) : ParseState :=
  mkParseState (setter value (sections st)) (Some key)
               (section_content st) (refs_shared st).

(** [current_section = key; section_content = []] *)
Definition enter_block (key : section_key) (st : ParseState) : ParseState :=
  mkParseState (sections st) (Some key) [] false.

(** [section_content.append(line)] *)
Definition append_line (line : string) (st : ParseState) : ParseState :=
  let content := (section_content st ++ [line])%list in
  mkParseState
    (if refs_shared st then set_references content (sections st) else sections st)
    (current_section st) content (refs_shared st).

(** The header dispatch of one iteration (the [if]/[elif] chain). *)
Definition dispatch (line : string) (st : ParseState) : ParseState :=
  let inline header := PyStr.strip (PyStr.replace header "" line) in
  if PyStr.startswith "VERDICT:" line then
    enter_inline verdict_key (inline "VERDICT:") set_verdict st
  else if PyStr.startswith "EXPLANATION:" line then enter_block explanation_key st
  else if PyStr.startswith "CONTEXT:" line then enter_block context_key st
  else if PyStr.startswith "REFERENCES:" line then enter_block references_key st
  else if PyStr.startswith "CONFIDENCE LEVEL:" line then
    enter_inline confidence_level_key (inline "CONFIDENCE LEVEL:")
                 set_confidence_level st
  else if PyStr.startswith "OPINION WARNING:" line then
    enter_inline opinion_warning_key (inline "OPINION WARNING:")
                 set_opinion_warning st
  else match current_section st with
       | Some _ => append_line line st
       | None => st
       end.

(** The trailing [if section_content:] of one iteration. *)
Definition store_content (st : ParseState) : ParseState :=
  match section_content st with
  | [] => st
  | content =>
      match current_section st with
      | Some explanation_key =>
          mkParseState (set_explanation (PyStr.join NL content) (sections st))
                       (current_section st) content (refs_shared st)
      | Some context_key =>
          mkParseState (set_context (PyStr.join NL content) (sections st))
                       (current_section st) content (refs_shared st)
      | Some references_key =>
          mkParseState (set_references content (sections st))
                       (current_section st) content true
      | _ => st
      end
  end.

Definition parse_line (st : ParseState) (line : string) : ParseState :=
  let line := PyStr.strip line in
  if String.eqb line "" then st
  else store_content (dispatch line st).

Definition parse_llm_response (response : string) : Sections :=
  let init :=
    mkParseState (mkSections "" "" "" [] "" "") None [] false in
  sections (fold_left parse_line (PyStr.split_on PyStr.nl response) init).

End FactChecker.

(** * Vocabulary of the statements *)

Module Vocab.
Import WebSearch Roles FactChecker.

(** ** Evidence list *)

(** The loop, unrolled as a recursion on the results still to visit. *)
Fixpoint collect (seen : gset string) (results : list SearchResult)
  : list EvidencePoint :=
  match results with
  | [] => []
  | r :: rest =>
      if decide (sr_url r ∈ seen) then collect seen rest
      else evidence_point r :: collect ({[ sr_url r ]} ∪ seen) rest
  end.

Definition urls_of (points : list EvidencePoint) : list string :=
  List.map ev_url points.

(** Entry [p] was built from the result at position [i], and no earlier
    result carries the same URL. *)
Definition built_from_first (results : list SearchResult)
    (i : nat) (p : EvidencePoint) : Prop :=
  exists r, results !! i = Some r /\ p = evidence_point r /\
    forall j r', (j < i)%nat -> results !! j = Some r' -> sr_url r' <> sr_url r.

(** ** Formatter and parser inputs *)

(** The synthetic response of the design document's round-trip test. *)
Definition synthetic_response : string :=
  "VERDICT: TRUE" ++ NL ++ "EXPLANATION: because X" ++ NL ++ "CONTEXT: extra" ++ NL
  ++ "REFERENCES:" ++ NL ++ "- http://a.example" ++ NL ++ "- http://b.example".

(** No header of the formatter occurs in [s]. *)
Definition headerless (s : string) : Prop :=
  PyStr.contains "VERDICT:" s = false
  /\ PyStr.contains "EXPLANATION:" s = false
  /\ PyStr.contains "CONTEXT:" s = false
  /\ PyStr.contains "REFERENCES:" s = false.

(** ** Scores *)

Definition unit_interval (x : R) : Prop := (0 <= x <= 1)%R.

(** ** Calls of [search] *)

(** What every step of a call respects: clock readings are only added,
    the log is only extended, and [cache_hit] keeps its value. *)
Definition frame {A} (m : M A) : Prop :=
  forall st,
    (clock_reads st <= clock_reads (snd (m st)))%nat
    /\ (exists more, log (snd (m st)) = (log st ++ more)%list)
    /\ cache_hit (metrics (snd (m st))) = cache_hit (metrics st).

(** The state in which the [try] block of [search] is entered: the clock
    has been read once and [metrics] holds its defaults. *)
Definition at_try : CallState :=
  mkCallState 1 [] (mkSearchMetrics 0 false 0 None).

(** ** Inputs of the concrete runs *)

(** A clock that advances one second per reading. *)
Definition seconds (n : nat) : Q := inject_Z (Z.of_nat n).
(** A provider that answers every request alike. *)
Definition always (o : Outcome) : nat -> Outcome := fun _ => o.
(** The client [__init__] builds from the key "key". *)
Definition built_client : Client := mkClient "key" 10 2 3.

End Vocab.

(** * Further vocabulary *)

Module Notions.
Import WebSearch Roles.

(** No character of [s] is blank. *)
Fixpoint blankfree (s : string) : bool :=
  match s with
  | EmptyString => true
  | String c r => negb (PyStr.isspace c) && blankfree r
  end.

(** No character of [s] is a line feed. *)
Fixpoint linefree (s : string) : bool :=
  match s with
  | EmptyString => true
  | String c r => negb (Ascii.eqb c PyStr.nl) && linefree r
  end.

(** No blank at either end of [s]: [strip] has nothing to remove. *)
Definition trimmed (s : string) : Prop := PyStr.lstrip s = s /\ PyStr.rstrip s = s.

(** A word as [str.split()] produces them: not empty, no blank inside. *)
Definition is_word (w : string) : Prop := w <> EmptyString /\ blankfree w = true.

(** Number of requests in a trace. *)
Fixpoint count_requests (trace : list Event) : nat :=
  match trace with
  | [] => 0
  | Request _ :: rest => S (count_requests rest)
  | Sleep _ :: rest => count_requests rest
  end.

(** Seconds slept in a trace. *)
Fixpoint total_sleep (trace : list Event) : Z :=
  match trace with
  | [] => 0
  | Request _ :: rest => total_sleep rest
  | Sleep seconds :: rest => seconds + total_sleep rest
  end.

(** An outcome after which [_make_request] goes on to the next attempt
    when there is one: a timeout or a 429. *)
Definition retriable (o : Outcome) : Prop :=
  match o with
  | TimesOut _ => True
  | StatusError status_code _ => status_code = 429%Z
  | Responds _ => False
  end.

(** The call state after one more request. *)
Definition requested (attempt : nat) (st : CallState) : CallState :=
  mkCallState (clock_reads st) (log st ++ [Request attempt])%list (metrics st).

(** The call state after one more request and the sleep that followed. *)
Definition backed_off (attempt : nat) (seconds : Z) (st : CallState) : CallState :=
  mkCallState (clock_reads st) (log st ++ [Request attempt; Sleep seconds])%list
              (metrics st).

(** A result list ranked by relevance, best first. *)
Definition descending (results : list SearchResult) : Prop :=
  StronglySorted (fun x y => sr_relevance_score y <= sr_relevance_score x)%Q results.

(** The results whose relevance equals [v], in the order of the list. *)
Definition with_score (v : Q) (results : list SearchResult) : list SearchResult :=
  List.filter (fun r => Qeq_bool (sr_relevance_score r) v) results.

(** [r] is the [SearchResult] that [search] builds from the raw result
    [raw]: same title, URL and description, and the relevance of [raw]
    against the query terms. *)
Definition built_from (set_iter : gset string -> list string)
    (query_terms : gset string) (raw : RawResult) (r : SearchResult) : Prop :=
  r_title raw = Some (sr_title r)
  /\ r_url raw = Some (sr_url r)
  /\ r_description raw = Some (sr_description r)
  /\ _calculate_relevance set_iter raw query_terms = Ok (sr_relevance_score r).

(** [s] is the source signal that [search] derives from [raw]: type
    'unknown', the provider's year or the current one, and as domain the
    third '/'-separated piece of the URL. *)
Definition source_of (current_year : Z) (raw : RawResult) (s : Source) : Prop :=
  src_type s = Some "unknown"
  /\ src_publication_year s = Some (default current_year (r_date_published raw))
  /\ exists url domain,
       r_url raw = Some url
       /\ nth_error (PyStr.split_on "/"%char url) 2 = Some domain
       /\ src_domain s = Some domain.

(** The set of terms [search] scores the results against. *)
Definition query_terms_of (query role_context : string) : gset string :=
  list_to_set (PyStr.words (_sanitize_query (_enhance_query query role_context))).

(** A raw result from which [search] cannot build a [SearchResult] and a
    source signal. *)
Definition malformed (raw : RawResult) : Prop :=
  r_title raw = None \/ r_description raw = None \/ r_url raw = None
  \/ exists url, r_url raw = Some url
                 /\ nth_error (PyStr.split_on "/"%char url) 2 = None.

(** No search modifier term occurs in the lower-cased role context. *)
Definition no_modifier_term (role_context : string) : Prop :=
  forall key terms term,
    In (key, terms) modifiers -> In term terms ->
    PyStr.contains term (PyStr.lower role_context) = false.

(** The third reason of [calculate_confidence], for [n] sources. *)
Definition multiple_sources_reason (n : nat) : string :=
  "Multiple sources (" ++ PyStr.of_nat n ++ ") corroborate the information".

(** A raw result that is not dated after the current year and whose
    domain (the third '/'-separated piece of its URL) does not end in
    '.edu' or '.gov'. *)
Definition ordinary (current_year : Z) (raw : RawResult) : Prop :=
  (forall y, r_date_published raw = Some y -> (y <= current_year)%Z)
  /\ forall url domain,
       r_url raw = Some url ->
       nth_error (PyStr.split_on "/"%char url) 2 = Some domain ->
       let domain_ext := PyStr.last_or "" (PyStr.split_on "."%char domain) in
       domain_ext <> "edu" /\ domain_ext <> "gov".

(** Steps that leave the [metrics] object alone. *)
Definition quiet {A} (m : M A) : Prop :=
  forall st, metrics (snd (m st)) = metrics st.

End Notions.

(** * Roles: prompts, completion, query processing *)

(** ** [src/llm_handler.py]: [get_response] *)

Module Completion.
Import WebSearch Roles.

(** One entry of [messages]. *)
Record Message := mkMessage { msg_role : string; msg_content : string }.

(** What [get_response] reads of the provider's answer:
    [response.choices[i].message.content] and [response.usage.total_tokens]. *)
Record ChatCompletion := mkChatCompletion {
  choices : list string;
  total_tokens : Z
}.

(** [LLMResponse]; the type of [parsed_response] is the role's. *)
Record LLMResponse (P : Type) := mkLLMResponse {
  raw_response : string;
  parsed_response : P;
  processing_time : Q
}.
Arguments mkLLMResponse {P} raw_response parsed_response processing_time.
Arguments raw_response {P} l.
Arguments parsed_response {P} l.
Arguments processing_time {P} l.

(** [f"Source: {result.title}\nURL: {result.url}\n{result.description}\n"] *)
Definition format_result (result : SearchResult) : string :=
  "Source: " ++ sr_title result ++ NL ++ "URL: " ++ sr_url result ++ NL
  ++ sr_description result ++ NL.

Definition build_messages (current_time system_prompt user_query : string)
    (search_results : list SearchResult) : list Message :=
  let formatted_results := PyStr.join NL (List.map format_result search_results) in
  [ mkMessage "system" (system_prompt ++ NL ++ "Current time: " ++ current_time);
    mkMessage "user" ("Query: " ++ user_query ++ NL ++ NL ++ "Search Results:" ++ NL
                      ++ formatted_results) ].

Section GetResponse.

(** The provider library's client type, and
    [client.chat.completions.create(model=..., messages=...,
    temperature=0.7, max_tokens=1000)]: the provider, an input. *)
Variable OpenAIClient : Type.
Variable create : OpenAIClient -> string -> list Message -> res ChatCompletion.
(** [datetime.now().strftime("%Y-%m-%d %H:%M:%S")] *)
Variable current_time : string.

(** [LLMHandler.get_response].  Its [except Exception] clause logs and
    re-raises, so an exception of any step is the outcome of the call. *)
Definition get_response {P : Type} (self : LLMHandler.Handler OpenAIClient)
    (system_prompt user_query : string) (search_results : list SearchResult)
    (role_parser : string -> res P) : res (LLMResponse P) :=
  let messages := build_messages current_time system_prompt user_query search_results in
  response ← create (LLMHandler.client self) (LLMHandler.model_name self) messages;
  raw_response ←
    match choices response with
    | first :: _ => Ok first
    | [] => Raise (IndexError "list index out of range")
    end;
  parsed_response ← role_parser raw_response;
  tokens ← int_to_float (total_tokens response);
  Ok (mkLLMResponse raw_response parsed_response (tokens / 1000)%Q).

End GetResponse.

End Completion.

(** ** [src/roles/base_role.py] *)

Module BaseRole.

(** The attributes of a role object that the modelled methods read;
    [web_search] and [llm] are [None] until [initialize]. *)
Record Role (H : Type) := mkRole {
  role_name : string;
  system_prompt : string;
  web_search : option WebSearch.Client;
  llm : option H
}.
Arguments mkRole {H} role_name system_prompt web_search llm.
Arguments role_name {H} r.
Arguments system_prompt {H} r.
Arguments web_search {H} r.
Arguments llm {H} r.

(** [BaseRole.__init__], given the class name and what the class's
    [_get_system_prompt] returns. *)
Definition __init__ {H} (class_name prompt : string) : Role H :=
  mkRole class_name prompt None None.

(** [initialize(web_search, llm)] *)
Definition initialize {H} (self : Role H) (search_client : WebSearch.Client)
    (handler : H) : Role H :=
  mkRole (role_name self) (system_prompt self) (Some search_client) (Some handler).

Definition get_search_context {H} (self : Role H) : string := system_prompt self.

End BaseRole.

(** ** [src/roles/research_assistant.py] *)

Module ResearchAssistant.
Import Roles FactChecker.

(** [_get_system_prompt] *)
Definition _get_system_prompt : string :=
  "You are NeuralNexus's expert research assistant. Your role is to provide comprehensive, "
  ++ NL
  ++ "well-researched answers to questions using both search results and your knowledge."
  ++ NL ++ NL ++ "Structure your response exactly as follows:" ++ NL
  ++ "SUMMARY: [Brief, clear answer to the question]" ++ NL
  ++ "ANALYSIS: [Detailed explanation with multiple sections]" ++ NL
  ++ "KEY_POINTS: [Main takeaways, one per line with bullet points]" ++ NL
  ++ "SOURCES: [List of references used, one per line]".

Definition __init__ {H} : BaseRole.Role H :=
  BaseRole.__init__ "research_assistant" _get_system_prompt.

Inductive section_key : Type :=
| summary_key | analysis_key | key_points_key | sources_key.

(** The [sections] dictionary. *)
Record Sections := mkSections {
  summary : string;
  analysis : string;
  key_points : list string;
  sources : list string
}.

Definition set_summary (v : string) (s : Sections) : Sections :=
  mkSections v (analysis s) (key_points s) (sources s).
Definition set_analysis (v : string) (s : Sections) : Sections :=
  mkSections (summary s) v (key_points s) (sources s).
Definition set_key_points (v : list string) (s : Sections) : Sections :=
  mkSections (summary s) (analysis s) v (sources s).
Definition set_sources (v : list string) (s : Sections) : Sections :=
  mkSections (summary s) (analysis s) (key_points s) v.

(** [s[2:]] *)
Definition after_bullet (s : string) : string := PyStr.drop 2 s.

(** The branch [elif line.strip() and current_section]. *)
Definition content_line (line : string) (key : section_key) (s : Sections) : Sections :=
  match key with
  | analysis_key => set_analysis (analysis s ++ NL ++ line) s
  | key_points_key =>
      if PyStr.startswith "- " (PyStr.strip line)
      then set_key_points (key_points s ++ [after_bullet (PyStr.strip line)])%list s
      else s
  | sources_key =>
      if PyStr.startswith "- " (PyStr.strip line)
      then set_sources (sources s ++ [after_bullet (PyStr.strip line)])%list s
      else s
  | summary_key => s
  end.

(** One turn of [for line in response.split('\n')] over the pair
    ([sections], [current_section]). *)
Definition parse_line (st : Sections * option section_key) (line : string)
  : Sections * option section_key :=
  let '(sections, current_section) := st in
  if PyStr.startswith "SUMMARY:" line then
    (set_summary (PyStr.strip (PyStr.replace "SUMMARY:" "" line)) sections,
     Some summary_key)
  else if PyStr.startswith "ANALYSIS:" line then
    (set_analysis (PyStr.strip (PyStr.replace "ANALYSIS:" "" line)) sections,
     Some analysis_key)
  else if PyStr.startswith "KEY_POINTS:" line then (sections, Some key_points_key)
  else if PyStr.startswith "SOURCES:" line then (sections, Some sources_key)
  else
    match PyStr.strip line, current_section with
    | String _ _, Some key => (content_line line key sections, current_section)
    | _, _ => st
    end.

Definition parse_llm_response (response : string) : Sections :=
  fst (fold_left parse_line (PyStr.split_on PyStr.nl response)
                 (mkSections "" "" [] [], None)).

Definition summary_block (text : string) : string :=
  "<div style=" ++ DQ
  ++ "margin-bottom: 1.5rem; padding: 1rem; background-color: #f0f7ff; border-radius: 0.5rem;"
  ++ DQ ++ ">" ++ "<h2 style=" ++ DQ
  ++ "color: #1976D2; margin-bottom: 0.5rem;" ++ DQ ++ ">Summary</h2>"
  ++ "<div>" ++ text ++ "</div>" ++ "</div>".

Definition analysis_block (text : string) : string :=
  "<div style=" ++ DQ ++ "margin-bottom: 1.5rem;" ++ DQ ++ ">" ++ "<h2 style="
  ++ DQ ++ "color: #1976D2; margin-bottom: 0.5rem;" ++ DQ ++ ">Analysis</h2>"
  ++ "<div>" ++ text ++ "</div>" ++ "</div>".

Definition list_item (text : string) : string := "<li>" ++ text ++ "</li>".

Definition key_points_block (points : list string) : string :=
  fold_left (fun html point => html ++ list_item point) points
    ("<div style=" ++ DQ
     ++ "margin-bottom: 1.5rem; padding: 1rem; background-color: #f5f5f5; border-radius: 0.5rem;"
     ++ DQ ++ ">" ++ "<h2 style=" ++ DQ
     ++ "color: #1976D2; margin-bottom: 0.5rem;" ++ DQ ++ ">Key Points</h2>"
     ++ "<ul style=" ++ DQ ++ "margin: 0; padding-left: 1.5rem;" ++ DQ ++ ">")
  ++ "</ul></div>".

(** One turn of [for source in sections['sources']]. *)
Definition source_item (source : string) : string :=
  if (PyStr.startswith "http://" source || PyStr.startswith "https://" source)%bool
  then "<li><a href=" ++ DQ ++ source ++ DQ ++ " target=" ++ DQ ++ "_blank"
       ++ DQ ++ ">" ++ source ++ "</a></li>"
  else list_item source.

Definition sources_block (srcs : list string) : string :=
  fold_left (fun html source => html ++ source_item source) srcs
    ("<div style=" ++ DQ ++ "margin-bottom: 1.5rem;" ++ DQ ++ ">"
     ++ "<h2 style=" ++ DQ ++ "color: #1976D2; margin-bottom: 0.5rem;" ++ DQ
     ++ ">Sources</h2>" ++ "<ul style=" ++ DQ
     ++ "margin: 0; padding-left: 1.5rem;" ++ DQ ++ ">")
  ++ "</ul></div>".

(** [response.split] wants a string. *)
Definition splittable (o : pyobj) : res string :=
  match o with
  | PyStr s => Ok s
  | PyNone => Raise (AttributeError "'NoneType' object has no attribute 'split'")
  end.

(** The [try] block of [format_response]. *)
Definition format_response_try (raw_response : pyobj) : res string :=
  response ← splittable raw_response;
  let sections := parse_llm_response response in
  let html_summary :=
    match summary sections with
    | EmptyString => []
    | text => [summary_block text]
    end in
  let html_analysis :=
    match analysis sections with
    | EmptyString => []
    | text => [analysis_block text]
    end in
  let html_key_points :=
    match key_points sections with
    | [] => []
    | points => [key_points_block points]
    end in
  let html_sources :=
    match sources sections with
    | [] => []
    | srcs => [sources_block srcs]
    end in
  Ok (PyStr.join NL (html_summary ++ html_analysis ++ html_key_points
                     ++ html_sources)%list).

Definition format_response (raw_response : pyobj) : string :=
  match format_response_try raw_response with
  | Ok html => html
  | Raise _ => "<pre>" ++ py_format raw_response ++ "</pre>"
  end.

End ResearchAssistant.

(** ** [src/roles/fact_checker.py]: the rest of the role *)

Module FactCheckerRole.
Import Roles FactChecker.

(** The prompt [__init__] assigns to [self.system_prompt]. *)
Definition short_prompt : string :=
  "You are a Fact Checker AI assistant focused on:" ++ NL
  ++ "1. Evaluating claims with clear confidence levels" ++ NL
  ++ "2. Distinguishing between facts and opinions" ++ NL
  ++ "3. Providing evidence-based responses" ++ NL
  ++ "4. Cross-referencing multiple sources" ++ NL
  ++ "5. Highlighting potential misinformation" ++ NL ++ NL
  ++ "For opinion-based questions:" ++ NL
  ++ "- Clearly label them as subjective" ++ NL
  ++ "- Provide balanced perspectives from various sources" ++ NL
  ++ "- Explain why the topic is subjective" ++ NL
  ++ "- Still provide factual context where possible" ++ NL ++ NL ++ "Always:"
  ++ NL ++ "- State your confidence level and explain why" ++ NL
  ++ "- Cite sources when making claims" ++ NL
  ++ "- Be transparent about limitations" ++ NL
  ++ "- Correct misinformation when found".

(** [_get_system_prompt] *)
Definition _get_system_prompt : string :=
  "You are a Fact Checker AI assistant focused on:" ++ NL
  ++ "1. Evaluating claims with clear confidence levels" ++ NL
  ++ "2. Distinguishing between facts and opinions" ++ NL
  ++ "3. Providing evidence-based responses" ++ NL
  ++ "4. Cross-referencing multiple sources" ++ NL
  ++ "5. Highlighting potential misinformation" ++ NL ++ NL
  ++ "For opinion-based questions:" ++ NL
  ++ "- Clearly label them as subjective" ++ NL
  ++ "- Provide balanced perspectives from various sources" ++ NL
  ++ "- Explain why the topic is subjective" ++ NL
  ++ "- Still provide factual context where possible" ++ NL ++ NL ++ "Always:"
  ++ NL ++ "- State your confidence level and explain why" ++ NL
  ++ "- Cite sources when making claims" ++ NL
  ++ "- Be transparent about limitations" ++ NL
  ++ "- Correct misinformation when found" ++ NL ++ NL
  ++ "Structure your responses as follows:" ++ NL
  ++ "VERDICT: [TRUE/MOSTLY TRUE/MIXED/MOSTLY FALSE/FALSE]" ++ NL
  ++ "CONFIDENCE LEVEL: [Very High/High/Moderate/Low/Very Low]" ++ NL
  ++ "OPINION WARNING: [If applicable, explain why this is an opinion-based question]"
  ++ NL ++ "EXPLANATION: [Clear explanation of your verdict]" ++ NL
  ++ "CONTEXT: [Additional context or nuance]" ++ NL
  ++ "REFERENCES: [List of sources used, one per line]".

(** [fact_checker.__init__]: the base initialisation, then the assignment
    of the shorter prompt. *)
Definition __init__ {H} : BaseRole.Role H :=
  let self := BaseRole.__init__ "fact_checker" _get_system_prompt in
  BaseRole.mkRole (BaseRole.role_name self) short_prompt
                  (BaseRole.web_search self) (BaseRole.llm self).

End FactCheckerRole.

(** ** [process_query] of the two roles *)

Module ProcessQuery.
Import WebSearch Roles FactChecker.

Section Pipeline.

Variable clock : nat -> Q.
Variable http : nat -> Outcome.
Variable current_year : Z.
Variable set_iter : gset string -> list string.
Variable OpenAIClient : Type.
Variable create :
  OpenAIClient -> string -> list Completion.Message -> res Completion.ChatCompletion.
Variable current_time : string.

(** A role bound to the completion handler of [src/llm_handler.py]. *)
Definition Role : Type := BaseRole.Role (LLMHandler.Handler OpenAIClient).

(** [self.web_search.search] and [self.llm.get_response] on attributes
    that are [None] until [initialize]. *)
Definition the_search (self : Role) : res Client :=
  match BaseRole.web_search self with
  | Some c => Ok c
  | None => Raise (AttributeError "'NoneType' object has no attribute 'search'")
  end.

Definition the_llm (self : Role) : res (LLMHandler.Handler OpenAIClient) :=
  match BaseRole.llm self with
  | Some h => Ok h
  | None => Raise (AttributeError "'NoneType' object has no attribute 'get_response'")
  end.

(** The steps the two [process_query] methods share: the search, then
    (whatever the search returned) the completion.  The fact checker's
    local [prompt] is built and never used. *)
Definition search_then_complete {P : Type} (self : Role)
    (parser : string -> P) (query : string)
  : res (list SearchResult * SearchMetrics * Completion.LLMResponse P) :=
  search_client ← the_search self;
  '(search_results, metrics, confidence_score, confidence_reasons) ←
    search clock http current_year set_iter search_client query
           (BaseRole.get_search_context self);
  handler ← the_llm self;
  llm_response ←
    Completion.get_response OpenAIClient create current_time handler
      (BaseRole.system_prompt self) query search_results
      (fun raw => Ok (parser raw));
  Ok (search_results, metrics, llm_response).

(** [fact_checker.process_query] *)
Definition fact_checker_process_query (self : Role) (query : string)
  : res (string * SearchMetrics) :=
  '(search_results, metrics, llm_response) ←
    search_then_complete self FactChecker.parse_llm_response query;
  Ok (fact_checker_display query (Completion.raw_response llm_response) search_results,
      metrics).

(** [research_assistant.process_query] *)
Definition research_assistant_process_query (self : Role) (query : string)
  : res (string * SearchMetrics) :=
  '(search_results, metrics, llm_response) ←
    search_then_complete self ResearchAssistant.parse_llm_response query;
  Ok (research_assistant_display (Completion.raw_response llm_response) search_results,
      metrics).

End Pipeline.

End ProcessQuery.

(** * Vocabulary for the parsers *)

Module Layouts.
Import Roles Notions.

(** [line] starts with none of the six headers of the fact checker's
    parser. *)
Definition fc_headerfree (line : string) : bool :=
  negb (PyStr.startswith "VERDICT:" line)
  && negb (PyStr.startswith "EXPLANATION:" line)
  && negb (PyStr.startswith "CONTEXT:" line)
  && negb (PyStr.startswith "REFERENCES:" line)
  && negb (PyStr.startswith "CONFIDENCE LEVEL:" line)
  && negb (PyStr.startswith "OPINION WARNING:" line).

(** A line of content for the fact checker's parser: not empty, no blank
    at either end, no line feed, not a header. *)
Definition fc_content_line (l : string) : Prop :=
  l <> EmptyString /\ trimmed l /\ linefree l = true /\ fc_headerfree l = true.

(** A response laid out the way the fact checker's parser reads it back:
    the verdict on its header line, the other sections as lines under
    their headers. *)
Definition fc_document (verdict : string) (explanation context references : list string)
  : string :=
  PyStr.join NL
    ([("VERDICT: " ++ verdict)%string; "EXPLANATION:"] ++ explanation
     ++ ["CONTEXT:"] ++ context ++ ["REFERENCES:"] ++ references)%list.

(** [line] starts with none of the four headers of the research
    assistant's parser. *)
Definition ra_headerfree (line : string) : bool :=
  negb (PyStr.startswith "SUMMARY:" line)
  && negb (PyStr.startswith "ANALYSIS:" line)
  && negb (PyStr.startswith "KEY_POINTS:" line)
  && negb (PyStr.startswith "SOURCES:" line).

(** Text that can follow a header on its line and be read back: no blank
    at either end, no line feed, and the header does not occur in it. *)
Definition inline_text (header text : string) : Prop :=
  trimmed text /\ linefree text = true /\ PyStr.contains header text = false.

(** A further line of analysis: not blank, no line feed, not a header. *)
Definition ra_analysis_line (l : string) : Prop :=
  PyStr.strip l <> EmptyString /\ linefree l = true /\ ra_headerfree l = true.

(** The text of a bullet: not empty, no blank at its end, no line feed. *)
Definition bullet_text (k : string) : Prop :=
  k <> EmptyString /\ PyStr.rstrip k = k /\ linefree k = true.

Definition bullet (k : string) : string := "- " ++ k.

(** A response laid out the way the research assistant's parser reads it
    back. *)
Definition ra_document (summary analysis : string) (more_analysis : list string)
    (key_points sources : list string) : string :=
  PyStr.join NL
    ([("SUMMARY: " ++ summary)%string; ("ANALYSIS: " ++ analysis)%string]
     ++ more_analysis
     ++ ["KEY_POINTS:"] ++ List.map bullet key_points
     ++ ["SOURCES:"] ++ List.map bullet sources)%list.

End Layouts.

(** * Inputs of the further concrete runs *)

Module Samples.
Import WebSearch Vocab.

Definition tea_result : RawResult :=
  mkRawResult (Some "Tea prices") (Some "https://b.example.com/t") (Some "about tea") None.
Definition coffee_result : RawResult :=
  mkRawResult (Some "Coffee trade") (Some "https://a.example.org/x")
              (Some "fact check: coffee") (Some 2020%Z).
Definition untitled_result : RawResult :=
  mkRawResult None (Some "https://a.example.org/x") (Some "coffee") None.

(** A provider that answers every request with the same raw results. *)
Definition answers (results : list RawResult) : nat -> Outcome :=
  always (Responds (mkJsonBody results)).

(** A completion handler over a one-point client type, a provider of
    completions that answers every request alike, and one that is down. *)
Definition handler : LLMHandler.Handler unit :=
  LLMHandler.mkHandler tt "hf:meta-llama/Llama-3.3-70B-Instruct".
Definition completion : Completion.ChatCompletion :=
  Completion.mkChatCompletion ["VERDICT: TRUE"] 120.
Definition answering (_ : unit) (_ : string) (_ : list Completion.Message)
  : res Completion.ChatCompletion := Ok completion.
Definition down (_ : unit) (_ : string) (_ : list Completion.Message)
  : res Completion.ChatCompletion := Raise (OpenAIError "Connection error.").

Definition four_sources : list Source :=
  [ mkSource (Some "www.mit.edu") (Some 2024%Z) None;
    mkSource (Some "example.com") None None;
    mkSource (Some "example.org") None None;
    mkSource None (Some 1999%Z) None ].

End Samples.

(** * Properties *)

Import WebSearch Vocab.
Local Open Scope Q_scope.

(** ** Source quality *)

Lemma dict_get_bounds (d : gmap string Q) (lo hi : Q) k dflt :
  map_Forall (λ _ v, lo <= v <= hi) d -> lo <= dflt <= hi ->
  lo <= dict_get d k dflt <= hi.
Proof.
  intros Hd Hdf. unfold dict_get.
  destruct (d !! k) as [v|] eqn:E; simpl; [exact (Hd k v E) | exact Hdf].
Qed.

Lemma reputable_domains_bounds :
  map_Forall (λ _ v, 3#10 <= v <= 9#10) reputable_domains.
Proof.
  unfold reputable_domains.
  repeat (apply map_Forall_insert_2; [split; discriminate|]).
  apply map_Forall_empty.
Qed.

Lemma source_types_bounds :
  map_Forall (λ _ v, 2#10 <= v <= 9#10) source_types.
Proof.
  unfold source_types.
  repeat (apply map_Forall_insert_2; [split; discriminate|]).
  apply map_Forall_empty.
Qed.

(** The two outcomes of a division by a divisor that is not zero. *)
Lemma int_true_div_cases (n d : Z) :
  d <> 0%Z ->
  match int_true_div n d with
  | Ok q => q = inject_Z n / inject_Z d /\ (Z.abs n < float_limit * Z.abs d)%Z
  | Raise e =>
      e = OverflowError "integer division result too large for a float"
      /\ (float_limit * Z.abs d <= Z.abs n)%Z
  end.
Proof.
  intros Hd. unfold int_true_div.
  destruct (Z.eqb_spec d 0) as [E|_]; [contradiction|].
  destruct (Z.leb_spec (float_limit * Z.abs d) (Z.abs n)); split; auto.
Qed.

Lemma freshness_score_cases cy y :
  match freshness_score cy y with
  | Ok f => f = Qmax 0 (1 - inject_Z (cy - y) / 10)
            /\ (Z.abs (cy - y) < float_limit * 10)%Z
  | Raise e =>
      e = OverflowError "integer division result too large for a float"
      /\ (float_limit * 10 <= Z.abs (cy - y))%Z
  end.
Proof.
  unfold freshness_score. cbv zeta.
  pose proof (int_true_div_cases (cy - y) 10) as H.
  destruct (int_true_div (cy - y) 10) as [q|e]; simpl.
  - destruct H as [-> Hlt]; [discriminate|]. split; [reflexivity | exact Hlt].
  - apply H. discriminate.
Qed.

Lemma freshness_score_nonneg cy y f : freshness_score cy y = Ok f -> 0 <= f.
Proof.
  intros H. pose proof (freshness_score_cases cy y) as Hc. rewrite H in Hc.
  destruct Hc as [-> _]. apply Q.le_max_l.
Qed.

(** What [assess_source_quality] returns when the freshness is taken. *)
Lemma assess_source_quality_inv (current_year : Z) (source : Source) (q : Q) :
  assess_source_quality current_year source = Ok q ->
  exists f,
    freshness_score current_year (default current_year (src_publication_year source))
    = Ok f
    /\ q = Qmin 1
             ((0 + dict_get reputable_domains
                     (PyStr.last_or ""%string
                        (PyStr.split_on "."%char (default ""%string (src_domain source))))
                     (3#10)
               + f * (3#10)
               + dict_get source_types (default "unknown"%string (src_type source))
                          (2#10)) / 2).
Proof.
  unfold assess_source_quality. cbv zeta.
  destruct (freshness_score _ _) as [f|e]; simpl; intros H; [|discriminate H].
  exists f. split; [reflexivity|]. now injection H as <-.
Qed.

(** The only exception is the overflow of the division. *)
Lemma assess_source_quality_cases (current_year : Z) (source : Source) :
  let years_old :=
    (current_year - default current_year (src_publication_year source))%Z in
  match assess_source_quality current_year source with
  | Ok _ => (Z.abs years_old < float_limit * 10)%Z
  | Raise e =>
      e = OverflowError "integer division result too large for a float"
      /\ (float_limit * 10 <= Z.abs years_old)%Z
  end.
Proof.
  cbv zeta. unfold assess_source_quality. cbv zeta.
  pose proof (freshness_score_cases current_year
                (default current_year (src_publication_year source))) as H.
  destruct (freshness_score _ _) as [f|e]; simpl; [apply H | exact H].
Qed.

Lemma quality_bounds (current_year : Z) (source : Source) (q : Q) :
  assess_source_quality current_year source = Ok q -> 0 <= q <= 1.
Proof.
  intros H. apply assess_source_quality_inv in H as (f & Hfresh & ->).
  set (d := dict_get reputable_domains _ _).
  set (t := dict_get source_types _ _).
  assert (Hd : 3#10 <= d <= 9#10)
    by (apply dict_get_bounds; [apply reputable_domains_bounds | split; discriminate]).
  assert (Ht : 2#10 <= t <= 9#10)
    by (apply dict_get_bounds; [apply source_types_bounds | split; discriminate]).
  assert (Hf : 0 <= f) by (eapply freshness_score_nonneg; exact Hfresh).
  split.
  - apply Q.min_glb; [discriminate|].
    assert (0 <= f * (3#10)) by (apply Qmult_le_0_compat; [exact Hf | discriminate]).
    apply Qle_shift_div_l; [reflexivity|]. lra.
  - apply Q.le_min_l.
Qed.

(** C9.  The score is not returned for every integer publication year:
    for a source dated [10^400] the division [years_old / 10] raises
    [OverflowError], where the docstring promises a score between 0 and
    1. *)
Theorem assess_source_quality_overflow :
  assess_source_quality 2026
    (mkSource (Some "example.com"%string) (Some (10 ^ 400)%Z) (Some "news"%string))
  = Raise (OverflowError "integer division result too large for a float").
Proof. vm_compute. reflexivity. Qed.


(** ** Relevance *)

Section RelevanceFacts.

Variable set_iter : gset string -> list string.
Hypothesis set_iter_perm : forall s, set_iter s ≡ₚ elements s.

Lemma set_iter_elem (s : gset string) (x : string) : In x (set_iter s) -> x ∈ s.
Proof.
  intros Hin. apply elem_of_elements. rewrite <- (set_iter_perm s).
  now apply list_elem_of_In.
Qed.

Lemma lower_terms_elem (terms : gset string) (x : string) :
  x ∈ lower_terms terms -> exists t, x = PyStr.lower t /\ t ∈ terms.
Proof. unfold lower_terms. intros H. apply elem_of_map in H. exact H. Qed.

Lemma no_term_counted (terms : gset string) (text : string) :
  (forall t, t ∈ terms -> PyStr.contains (PyStr.lower t) text = false) ->
  List.filter (fun term => PyStr.contains term text)
              (set_iter (lower_terms terms)) = [].
Proof.
  intros Hno.
  assert (Hall : forall x, In x (set_iter (lower_terms terms)) ->
                           PyStr.contains x text = false).
  { intros x Hx. apply set_iter_elem in Hx.
    destruct (lower_terms_elem _ _ Hx) as (t & -> & Ht). now apply Hno. }
  induction (set_iter (lower_terms terms)) as [|x l IH]; [reflexivity|].
  simpl. rewrite (Hall x (or_introl eq_refl)). apply IH.
  intros y Hy. apply Hall. now right.
Qed.

Lemma relevance_zero
    (result : RawResult) (title description : string) (terms : gset string) :
  r_title result = Some title ->
  r_description result = Some description ->
  (forall t, t ∈ terms ->
     PyStr.contains (PyStr.lower t) (relevance_text title description) = false) ->
  exists q, _calculate_relevance set_iter result terms = Ok q /\ q == 0.
Proof.
  intros Ht Hd Hno. unfold _calculate_relevance. rewrite Ht, Hd. simpl.
  rewrite (no_term_counted _ _ Hno). simpl.
  eexists; split; [reflexivity|].
  assert (Hz : forall n : nat, inject_Z 0 / inject_Z (Z.of_nat n) == 0)
    by (intros n; unfold Qdiv; apply Qmult_0_l).
  specialize (Hz (size (lower_terms terms))).
  set (y := inject_Z (Z.of_nat 0) / _) in *. change (inject_Z 0 / _) with y in Hz.
  clearbody y.
  destruct (bool_decide _), (PyStr.contains _ _);
    match goal with |- Qmin ?x 1 == 0 =>
      assert (Hx : x == 0) by lra;
      destruct (Q.min_spec x 1) as [[_ ->]|[Hle _]]; [exact Hx | lra]
    end.
Qed.

(** C10, as the code has it.  When no query term, once lower-cased, is a
    substring of the lower-cased text [title ++ " " ++ description], the
    relevance is 0; the empty set of terms is the special case where the
    premise is vacuous. *)
Theorem calculate_relevance_no_match
    (result : RawResult) (title description : string) (terms : gset string) :
  r_title result = Some title ->
  r_description result = Some description ->
  (forall t, t ∈ terms ->
     PyStr.contains (PyStr.lower t) (relevance_text title description) = false) ->
  exists q, _calculate_relevance set_iter result terms = Ok q /\ q == 0.
Proof. apply relevance_zero. Qed.

(** No query terms at all: the relevance is 0. *)
Corollary calculate_relevance_no_terms
    (result : RawResult) (title description : string) :
  r_title result = Some title ->
  r_description result = Some description ->
  exists q, _calculate_relevance set_iter result ∅ = Ok q /\ q == 0.
Proof.
  intros Ht Hd. apply (relevance_zero result title description ∅ Ht Hd).
  intros t Hin. now apply not_elem_of_empty in Hin.
Qed.

End RelevanceFacts.

(** The premise of [calculate_relevance_no_match] holds, and the function is
    run, on a result and two terms that do not occur in it. *)
Lemma calculate_relevance_no_match_witness :
  exists q,
    _calculate_relevance elements
      (mkRawResult (Some "Coffee trade") (Some "http://a.example/x")
                   (Some "a commodity") None)
      {[ "Tea"; "sugar" ]} = Ok q /\ q == 0.
Proof.
  apply (calculate_relevance_no_match elements (fun s => reflexivity _)
           _ "Coffee trade" "a commodity"); [reflexivity | reflexivity |].
  intros t Ht.
  apply elem_of_union in Ht as [Ht|Ht]; apply elem_of_singleton in Ht; subst t;
    reflexivity.
Defined.

(** C10, as the design document words it, compares the terms as given with
    the lower-cased text.  The term "Foo" is not a substring of the text
    "foo ", yet the code lower-cases the term first and scores the result 1. *)
Lemma calculate_relevance_term_case_counterexample :
  let result := mkRawResult (Some "foo") (Some "http://a.example/x") (Some "") None in
  let terms : gset string := {[ "Foo" ]} in
  (forall t, t ∈ terms -> PyStr.contains t (relevance_text "foo" "") = false)
  /\ _calculate_relevance elements result terms = Ok 1
  /\ ~ (1 == 0).
Proof.
  cbv zeta. split; [|split].
  - intros t Ht. apply elem_of_singleton in Ht. subst t. reflexivity.
  - vm_compute. reflexivity.
  - discriminate.
Qed.

(** ** Evidence list: one entry per URL, first seen first *)

Module RolesFacts.
Import Roles.


Lemma fold_evidence_step results : forall seen acc,
  snd (fold_left evidence_step results (seen, acc)) = (acc ++ collect seen results)%list.
Proof.
  induction results as [|r rest IH]; intros seen acc; simpl.
  - now rewrite app_nil_r.
  - destruct (decide (sr_url r ∈ seen)); [apply IH|].
    rewrite IH, <- app_assoc. reflexivity.
Qed.

Lemma evidence_points_collect results :
  evidence_points results = collect ∅ results.
Proof. unfold evidence_points. now rewrite fold_evidence_step. Qed.


Lemma collect_avoids_seen results : forall seen u,
  u ∈ seen -> ~ In u (urls_of (collect seen results)).
Proof.
  induction results as [|r rest IH]; intros seen u Hu; simpl; [tauto|].
  destruct (decide (sr_url r ∈ seen)); simpl.
  - now apply IH.
  - intros [E|Hin].
    + subst u. contradiction.
    + revert Hin. apply IH. set_solver.
Qed.

Lemma collect_count results : forall seen u,
  u ∉ seen -> In u (List.map sr_url results) ->
  count_occ string_dec (urls_of (collect seen results)) u = 1%nat.
Proof.
  induction results as [|r rest IH]; intros seen u Hu Hin; simpl in *; [tauto|].
  destruct (decide (sr_url r ∈ seen)) as [Hseen|Hnew]; simpl.
  - destruct Hin as [E|Hin]; [subst u; contradiction | now apply IH].
  - destruct (string_dec (sr_url r) u) as [E|NE].
    + f_equal. apply count_occ_not_In, collect_avoids_seen.
      apply elem_of_union_l, elem_of_singleton. now symmetry.
    + destruct Hin as [E|Hin]; [contradiction|]. apply IH; [|exact Hin].
      intros Hu'. apply elem_of_union in Hu' as [Hu'|Hu']; [|contradiction].
      apply elem_of_singleton in Hu'. congruence.
Qed.


Lemma sorted_shift (idxs : list nat) :
  StronglySorted lt idxs -> StronglySorted lt (List.map S idxs).
Proof.
  induction 1 as [|a l _ IHs Hlt]; simpl; constructor; [exact IHs|].
  apply List.Forall_forall. intros x Hx.
  apply List.in_map_iff in Hx as (y & <- & Hy).
  rewrite List.Forall_forall in Hlt. specialize (Hlt y Hy). lia.
Qed.

Lemma collect_positions results : forall seen,
  exists idxs : list nat,
    StronglySorted lt idxs /\
    Forall2 (fun i p => built_from_first results i p /\ ev_url p ∉ seen)
            idxs (collect seen results).
Proof.
  induction results as [|r rest IH]; intros seen; simpl.
  - exists []. split; constructor.
  - destruct (decide (sr_url r ∈ seen)) as [Hseen|Hnew].
    + destruct (IH seen) as (idxs & Hsorted & Hall).
      exists (List.map S idxs). split.
      * now apply sorted_shift.
      * clear Hsorted. induction Hall as [|i p l l' [(r0 & Hi & Hp & Hfirst) Hns] _ IHa];
          simpl; constructor; [|exact IHa].
        split; [|exact Hns]. exists r0. split; [exact Hi|]. split; [exact Hp|].
        intros [|j] r' Hlt Hj; simpl in Hj.
        -- injection Hj as <-. intros E. subst p. simpl in Hns. congruence.
        -- apply (Hfirst j r'); [lia | exact Hj].
    + destruct (IH ({[ sr_url r ]} ∪ seen)) as (idxs & Hsorted & Hall).
      exists (0%nat :: List.map S idxs). split.
      * constructor.
        -- now apply sorted_shift.
        -- apply List.Forall_forall. intros x Hx.
           apply List.in_map_iff in Hx as (y & <- & _). lia.
      * constructor.
        -- split; [|exact Hnew]. exists r. split; [reflexivity|]. split; [reflexivity|].
           intros j r' Hlt. lia.
        -- clear Hsorted.
           induction Hall as [|i p l l' [(r0 & Hi & Hp & Hfirst) Hns] _ IHa];
             simpl; constructor; [|exact IHa].
           split; [|set_solver]. exists r0. split; [exact Hi|]. split; [exact Hp|].
           intros [|j] r' Hlt Hj; simpl in Hj.
           ++ injection Hj as <-. intros E. subst p. simpl in Hns. set_solver.
           ++ apply (Hfirst j r'); [lia | exact Hj].
Qed.

(** C8. Whatever the search results (and in particular when two of them
    share a URL), every URL of the results occurs exactly once among the
    evidence entries, and the entries are, in order, built from results
    at strictly increasing positions, each the first position to carry
    its URL. *)
Theorem evidence_points_dedup_first_seen (results : list SearchResult) :
  (forall u, In u (List.map sr_url results) ->
     count_occ string_dec (urls_of (evidence_points results)) u = 1%nat)
  /\ exists idxs : list nat,
       StronglySorted lt idxs /\
       Forall2 (built_from_first results) idxs (evidence_points results).
Proof.
  rewrite evidence_points_collect. split.
  - intros u Hu. apply collect_count; [set_solver | exact Hu].
  - destruct (collect_positions results ∅) as (idxs & Hs & Hall).
    exists idxs. split; [exact Hs|].
    eapply Forall2_impl; [exact Hall|]. intros i p [H _]. exact H.
Qed.

End RolesFacts.

(** ** [fact_checker]: parsing and formatting *)

Module FactCheckerFacts.
Import Roles FactChecker.


(** C2, as the code has it.  On the synthetic response the parser fills
    [verdict] with "TRUE" and [references] with the two lines that follow
    the REFERENCES header, as they stand (bullet markers kept). *)
Theorem parse_llm_response_synthetic :
  verdict (parse_llm_response synthetic_response) = "TRUE"
  /\ references (parse_llm_response synthetic_response)
     = ["- http://a.example"; "- http://b.example"].
Proof. split; vm_compute; reflexivity. Qed.

(** C2 as worded fails on the same input: the text that follows
    EXPLANATION: and CONTEXT: on the header line is dropped, and the
    reference lines keep their "- " prefix. *)
Lemma parse_llm_response_synthetic_counterexample :
  let parsed := parse_llm_response synthetic_response in
  explanation parsed = "" /\ context parsed = ""
  /\ ~ (verdict parsed = "TRUE" /\ explanation parsed = "because X"
        /\ context parsed = "extra"
        /\ references parsed = ["http://a.example"; "http://b.example"]).
Proof.
  cbv zeta. split; [vm_compute; reflexivity|]. split; [vm_compute; reflexivity|].
  intros (_ & He & _). vm_compute in He. discriminate He.
Qed.

(** A list bound to [sections['references']] keeps growing through
    [section_content] after another inline header. *)
Example parse_llm_response_shared_list :
  references (parse_llm_response
                ("REFERENCES:" ++ NL ++ "a" ++ NL ++ "VERDICT: x" ++ NL ++ "b"))
  = ["a"; "b"].
Proof. vm_compute. reflexivity. Qed.

Lemma search_header_absent header dotall s :
  PyStr.contains header s = false -> Re.search_header header dotall s = None.
Proof.
  induction s as [|c r IH]; simpl; intros H;
    apply orb_false_iff in H as [Hsw Hrest].
  - now rewrite Hsw.
  - rewrite Hsw. now apply IH.
Qed.


(** C7, as the code has it.  On every string the [try] block of
    [format_response] completes, so nothing is raised and the [<pre>]
    fallback is not taken; on a string without any header (the empty
    string included) the result is the single verdict block for
    "UNKNOWN". *)
Theorem format_response_str_completes (s : string) :
  exists html,
    format_response_try (PyStr s) = Ok html
    /\ format_response (PyStr s) = html
    /\ (headerless s -> html = verdict_block "UNKNOWN").
Proof.
  unfold format_response, format_response_try, re_search_header. simpl.
  destruct (String.eqb (PyStr.upper _) "FALSE") eqn:Hfalse; simpl.
  - eexists. split; [reflexivity|]. split; [reflexivity|].
    intros (Hv & _). rewrite (search_header_absent _ _ _ Hv) in Hfalse.
    vm_compute in Hfalse. discriminate Hfalse.
  - eexists. split; [reflexivity|]. split; [reflexivity|].
    intros (Hv & He & Hc & Hr).
    rewrite (search_header_absent _ _ _ Hv), (search_header_absent _ _ _ He),
      (search_header_absent _ _ _ Hc), (search_header_absent _ _ _ Hr).
    reflexivity.
Qed.

(** C7 as worded fails on the empty string (and on any headerless text):
    what comes back is the UNKNOWN verdict block, not the raw text
    wrapped in [<pre>]. *)
Lemma format_response_empty_counterexample :
  format_response (PyStr "") = verdict_block "UNKNOWN"
  /\ format_response (PyStr "") <> "<pre>" ++ "" ++ "</pre>"
  /\ format_response (PyStr "no headers here")
     <> "<pre>" ++ "no headers here" ++ "</pre>".
Proof. repeat split; vm_compute; (reflexivity || discriminate). Qed.

(** The fallback is what a non-string argument gets. *)
Example format_response_none : format_response PyNone = "<pre>None</pre>".
Proof. reflexivity. Qed.

End FactCheckerFacts.

(** ** Confidence score *)

Module StatisticsFacts.
Import Statistics.
Local Open Scope R_scope.

Lemma sum_bounds xs :
  Forall unit_interval xs -> 0 <= sum xs <= INR (List.length xs).
Proof.
  induction 1 as [|x l [Hx0 Hx1] _ IH]; simpl List.length; [simpl; lra|].
  rewrite S_INR. simpl. lra.
Qed.

Lemma sum_squares_le xs :
  Forall unit_interval xs -> sum (List.map (fun x => x * x) xs) <= sum xs.
Proof.
  induction 1 as [|x l [Hx0 Hx1] _ IH]; simpl; [lra|]. nra.
Qed.

(** Sum of squared deviations from any centre [c]. *)
Lemma sum_sq_dev xs c :
  sum (List.map (fun x => (x - c) * (x - c)) xs)
  = sum (List.map (fun x => x * x) xs) - 2 * c * sum xs
    + INR (List.length xs) * c * c.
Proof.
  induction xs as [|x l IH]; simpl List.length; [simpl; lra|].
  rewrite S_INR. simpl. rewrite IH. ring.
Qed.

(** The squared deviations from the mean of [n] values in [0,1] add up
    to at most [n/4]. *)
Lemma sum_sq_dev_mean_le xs :
  Forall unit_interval xs -> xs <> [] ->
  sum (List.map (fun x => (x - mean xs) * (x - mean xs)) xs)
  <= INR (List.length xs) / 4.
Proof.
  intros Hall Hne. rewrite sum_sq_dev.
  pose proof (sum_squares_le xs Hall) as Hsq.
  pose proof (sum_bounds xs Hall) as [Hs0 Hs1].
  assert (Hn : 0 < INR (List.length xs)).
  { apply lt_0_INR. destruct xs; [congruence | simpl; lia]. }
  unfold mean. set (n := INR (List.length xs)) in *. set (s := sum xs) in *.
  assert (E : n * (s / n) * (s / n) = s * (s / n)) by (field; lra).
  rewrite E.
  assert (E2 : 2 * (s / n) * s = 2 * (s * (s / n))) by ring. rewrite E2.
  assert (Hq : s * (s / n) = s * s / n) by (field; lra).
  rewrite Hq.
  assert (Hkey : s - s * s / n <= n / 4).
  { apply Rmult_le_reg_r with (r := n); [exact Hn|].
    assert (E3 : (s - s * s / n) * n = s * n - s * s) by (field; lra).
    rewrite E3. pose proof (Rle_0_sqr (n / 2 - s)) as Hhalf. unfold Rsqr in Hhalf.
    nra. }
  lra.
Qed.

Lemma stdev_unit_interval xs :
  Forall unit_interval xs -> (2 <= List.length xs)%nat ->
  exists sd, stdev xs = Ok sd /\ 0 <= sd <= 1.
Proof.
  intros Hall Hlen. unfold stdev. cbv zeta.
  destruct (Nat.ltb_spec (List.length xs) 2) as [Hlt|_]; [lia|].
  eexists; split; [reflexivity|]. split; [apply sqrt_pos|].
  apply Rle_trans with (sqrt 1); [apply sqrt_le_1_alt | rewrite sqrt_1; lra].
  assert (Hne : xs <> []) by (destruct xs; [simpl in Hlen; lia | congruence]).
  pose proof (sum_sq_dev_mean_le xs Hall Hne) as Hss.
  assert (Hn : 2 <= INR (List.length xs)) by (apply (le_INR 2); exact Hlen).
  set (n := INR (List.length xs)) in *.
  apply Rmult_le_reg_r with (r := n - 1); [lra|].
  assert (E : forall a, a / (n - 1) * (n - 1) = a) by (intros a; field; lra).
  rewrite E. lra.
Qed.

End StatisticsFacts.

Lemma comprehension_ok {A B} (f : A -> res B) (xs : list A) : forall ys,
  comprehension f xs = Ok ys -> Forall2 (fun x y => f x = Ok y) xs ys.
Proof.
  induction xs as [|x rest IH]; intros ys H; simpl in H.
  - injection H as <-. constructor.
  - destruct (f x) as [y|e] eqn:Hx; simpl in H; [|discriminate H].
    destruct (comprehension f rest) as [ys'|e] eqn:Hrest; simpl in H; [|discriminate H].
    injection H as <-. constructor; [exact Hx | now apply IH].
Qed.

Lemma comprehension_returns {A B} (f : A -> res B) (xs : list A) :
  Forall (fun x => exists y, f x = Ok y) xs -> exists ys, comprehension f xs = Ok ys.
Proof.
  induction 1 as [|x rest (y & Hy) _ (ys & Hys)]; [now exists []|].
  exists (y :: ys). simpl. now rewrite Hy, Hys.
Qed.

Lemma quality_unit_interval current_year (sources : list Source) (scores : list Q) :
  comprehension (assess_source_quality current_year) sources = Ok scores ->
  Forall unit_interval (List.map Q2R scores).
Proof.
  intros H. apply comprehension_ok in H.
  induction H as [|s q sources scores Hq _ IH]; [constructor|].
  simpl. constructor; [|exact IH].
  destruct (quality_bounds current_year s q Hq) as [H0 H1].
  apply Qle_Rle in H0, H1. unfold unit_interval.
  change (Q2R 0) with (0 * / 1)%R in H0. change (Q2R 1) with (1 * / 1)%R in H1.
  lra.
Qed.

(** C1. For every non-empty list of source signals with valid per-source
    quality scores (for each source [assess_source_quality] returns one)
    the confidence aggregation completes and its score lies between 0
    and 1. *)
Theorem calculate_confidence_score_range current_year (sources : list Source) :
  sources <> [] ->
  Forall (fun source => exists q, assess_source_quality current_year source = Ok q)
         sources ->
  exists score reasons,
    calculate_confidence current_year sources = Ok (score, reasons)
    /\ (0 <= score <= 1)%R.
Proof.
  intros Hne Hvalid. unfold calculate_confidence.
  destruct (comprehension_returns _ _ Hvalid) as (qs & Hqs).
  destruct sources as [|s0 rest]; [congruence|]. cbv beta iota.
  set (sources := s0 :: rest) in *.
  rewrite Hqs. cbn [mbind res_mbind res_bind]. cbv zeta.
  set (scores := List.map Q2R qs).
  pose proof (quality_unit_interval current_year sources qs Hqs) as Hall.
  fold scores in Hall.
  assert (Hlen : List.length scores = List.length sources).
  { unfold scores. rewrite List.length_map. symmetry.
    eapply Forall2_length, comprehension_ok, Hqs. }
  assert (Hpos : (0 < INR (List.length scores))%R)
    by (apply lt_0_INR; rewrite Hlen; simpl; lia).
  pose proof (StatisticsFacts.sum_bounds scores Hall) as [Hs0 Hs1].
  assert (Havg : (0 <= Statistics.sum scores / INR (List.length scores) <= 1)%R).
  { split.
    - apply Rmult_le_reg_r with (r := INR (List.length scores)); [exact Hpos|].
      replace (Statistics.sum scores / INR (List.length scores)
               * INR (List.length scores))%R with (Statistics.sum scores)
        by (field; lra). lra.
    - apply Rmult_le_reg_r with (r := INR (List.length scores)); [exact Hpos|].
      replace (Statistics.sum scores / INR (List.length scores)
               * INR (List.length scores))%R with (Statistics.sum scores)
        by (field; lra). lra. }
  assert (Hnum : (0 <= Rmin 1 (INR (List.length sources) / 5) <= 1)%R).
  { split; [|apply Rmin_l]. apply Rmin_glb; [lra|].
    rewrite <- Hlen. lra. }
  assert (Hcons : exists c,
    (if (1 <? List.length scores)%nat
     then sd ← Statistics.stdev scores; Ok (1 - sd)%R
     else Ok (5 / 10)%R) = Ok c /\ (0 <= c <= 1)%R).
  { destruct (Nat.ltb_spec 1 (List.length scores)) as [H2|_].
    - destruct (StatisticsFacts.stdev_unit_interval scores Hall H2) as (sd & -> & Hsd).
      unfold mbind, res_mbind, res_bind. eexists; split; [reflexivity|]. lra.
    - eexists; split; [reflexivity|]. lra. }
  destruct Hcons as (c & -> & Hc). unfold mbind, res_mbind, res_bind.
  eexists _, _. split; [reflexivity|]. lra.
Qed.

(** ** Construction of the two clients *)

(** C4, as the code has it.  [WebSearch.__init__] raises [ValueError] at
    once when BRAVE_API_KEY is absent from the environment or empty in it.
    [LLMHandler.__init__] has no check of its own: when GLHF_API_KEY is
    absent it calls the provider's client constructor with [None] for the
    key, and raises exactly when that constructor does. *)
Theorem construction_missing_key (env : gmap string string) :
  (env !! "BRAVE_API_KEY"%string = None
   \/ env !! "BRAVE_API_KEY"%string = Some ""%string ->
     WebSearch.__init__ env
     = Raise (ValueError "BRAVE_API_KEY environment variable is required"))
  /\ (env !! "GLHF_API_KEY"%string = None ->
      forall (OpenAIClient : Type)
             (AsyncOpenAI : gmap string string -> string -> option string
                            -> res OpenAIClient) (e : exn),
        LLMHandler.__init__ OpenAIClient AsyncOpenAI env = Raise e
        <-> AsyncOpenAI env "https://glhf.chat/api/openai/v1"%string None = Raise e).
Proof.
  split.
  - intros [H|H]; unfold WebSearch.__init__; now rewrite H.
  - intros H OpenAIClient AsyncOpenAI e. unfold LLMHandler.__init__. rewrite H.
    destruct (AsyncOpenAI env _ None) as [c|e']; simpl; split; congruence.
Qed.

(** Both hypotheses of [construction_missing_key] hold of the empty
    environment, where both constructions fail. *)
Lemma construction_missing_key_witness :
  WebSearch.__init__ ∅
  = Raise (ValueError "BRAVE_API_KEY environment variable is required")
  /\ exists e, LLMHandler.__init__ string LLMHandler.openai_client_init ∅ = Raise e.
Proof.
  destruct (construction_missing_key ∅) as [Hweb Hllm]. split.
  - apply Hweb. left. reflexivity.
  - eexists. apply Hllm; reflexivity.
Defined.

(** C4 as worded fails for the completion client: with GLHF_API_KEY absent
    and the provider library's own variable OPENAI_API_KEY present, the
    construction succeeds. *)
Lemma llm_handler_missing_key_counterexample :
  let env : gmap string string := {[ "OPENAI_API_KEY"%string := "sk-test"%string ]} in
  env !! "GLHF_API_KEY"%string = None
  /\ LLMHandler.__init__ string LLMHandler.openai_client_init env
     = Ok (LLMHandler.mkHandler "sk-test"%string
             "hf:meta-llama/Llama-3.3-70B-Instruct"%string).
Proof. cbv zeta. split; vm_compute; reflexivity. Qed.

(** ** The search client's call *)

Module SearchFacts.

Lemma bind_ok_inv {A B} (m : M A) (k : A -> M B) st b st' :
  bind m k st = (Ok b, st') ->
  exists a st1, m st = (Ok a, st1) /\ k a st1 = (Ok b, st').
Proof.
  unfold bind. destruct (m st) as [[a|e] st1]; intros H; [eauto | discriminate].
Qed.


Lemma frame_same {A} (m : M A) : (forall st, snd (m st) = st) -> frame m.
Proof.
  intros H st. rewrite H. split; [lia|]. split; [|reflexivity].
  exists []. now rewrite app_nil_r.
Qed.

Lemma frame_ret {A} (a : A) : frame (ret a).
Proof. now apply frame_same. Qed.

Lemma frame_raise {A} (e : exn) : frame (@raise A e).
Proof. now apply frame_same. Qed.

Lemma frame_lift {A} (r : res A) : frame (lift r).
Proof. now apply frame_same. Qed.

Lemma frame_get_metrics : frame get_metrics.
Proof. now apply frame_same. Qed.

Lemma frame_seq st1 st2 st3 :
  ((clock_reads st1 <= clock_reads st2)%nat
   /\ (exists more, log st2 = (log st1 ++ more)%list)
   /\ cache_hit (metrics st2) = cache_hit (metrics st1)) ->
  ((clock_reads st2 <= clock_reads st3)%nat
   /\ (exists more, log st3 = (log st2 ++ more)%list)
   /\ cache_hit (metrics st3) = cache_hit (metrics st2)) ->
  (clock_reads st1 <= clock_reads st3)%nat
  /\ (exists more, log st3 = (log st1 ++ more)%list)
  /\ cache_hit (metrics st3) = cache_hit (metrics st1).
Proof.
  intros (Hc1 & (m1 & Hl1) & Hh1) (Hc2 & (m2 & Hl2) & Hh2).
  split; [lia|]. split; [|congruence].
  exists (m1 ++ m2)%list. rewrite Hl2, Hl1. now rewrite app_assoc.
Qed.

Lemma frame_bind {A B} (m : M A) (k : A -> M B) :
  frame m -> (forall a, frame (k a)) -> frame (bind m k).
Proof.
  intros Hm Hk st. specialize (Hm st). unfold bind.
  destruct (m st) as [[a|e] st1]; simpl in *; [|exact Hm].
  eapply frame_seq; [exact Hm | apply Hk].
Qed.

Lemma frame_try_except {A} (m : M A) (h : exn -> M A) :
  frame m -> (forall e, frame (h e)) -> frame (try_except m h).
Proof.
  intros Hm Hh st. specialize (Hm st). unfold try_except.
  destruct (m st) as [[a|e] st1]; simpl in *; [exact Hm|].
  eapply frame_seq; [exact Hm | apply Hh].
Qed.

Lemma frame_emit ev : frame (emit ev).
Proof.
  intros st. simpl. split; [lia|]. split; [|reflexivity]. now exists [ev].
Qed.

Lemma frame_update_metrics f :
  (forall m, cache_hit (f m) = cache_hit m) -> frame (update_metrics f).
Proof.
  intros Hf st. simpl. split; [lia|]. split; [|apply Hf].
  exists []. now rewrite app_nil_r.
Qed.

Create HintDb frame.
#[local] Hint Resolve frame_ret frame_raise frame_lift frame_get_metrics
  frame_emit : frame.

Ltac frame_steps :=
  repeat first
    [ apply frame_bind; [|intros ?]
    | apply frame_try_except; [|intros ?]
    | solve [auto with frame]
    | apply frame_update_metrics; intros []; reflexivity ].

Section Call.

Variable clock : nat -> Q.
Variable http : nat -> Outcome.
Variable current_year : Z.
Variable set_iter : gset string -> list string.

Lemma frame_time_time : frame (time_time clock).
Proof.
  intros st. simpl. split; [lia|]. split; [|reflexivity].
  exists []. now rewrite app_nil_r.
Qed.

Lemma frame_client_get attempt : frame (client_get http attempt).
Proof.
  unfold client_get. frame_steps. destruct (http attempt); auto with frame.
Qed.

Lemma frame_retry_loop self attempts : frame (retry_loop http self attempts).
Proof.
  induction attempts as [|attempt later IH]; simpl; [auto with frame|].
  apply frame_try_except.
  - apply frame_bind; [apply frame_client_get | auto with frame].
  - intros e. unfold asyncio_sleep.
    destruct e; auto with frame;
      match goal with |- frame (if ?c then _ else _) => destruct c end;
      frame_steps; exact IH.
Qed.

Lemma frame_process_result start_time query_terms acc result :
  frame (process_result clock current_year set_iter start_time query_terms acc result).
Proof.
  unfold process_result. destruct acc as [search_results sources].
  frame_steps. apply frame_time_time.
Qed.

Lemma frame_process_results start_time query_terms results : forall acc,
  frame (process_results clock current_year set_iter start_time query_terms acc results).
Proof.
  induction results as [|r rest IH]; intros acc; simpl; [auto with frame|].
  apply frame_bind; [apply frame_process_result | intros acc'; apply IH].
Qed.

Lemma frame_search_try self query role_context start_time :
  frame (search_try clock http current_year set_iter self query role_context start_time).
Proof.
  unfold search_try, _get_cached_results, _make_request.
  apply frame_bind; [apply frame_retry_loop | intros results].
  apply frame_bind; [destruct results; auto with frame | intros body].
  apply frame_bind; [apply frame_process_results | intros [search_results sources]].
  apply frame_bind; [apply frame_time_time | intros now].
  frame_steps. destruct a1. frame_steps.
Qed.


Lemma search_unfold self query role_context :
  search clock http current_year set_iter self query role_context
  = fst (try_except
           (search_try clock http current_year set_iter self query role_context (clock 0))
           (search_except clock (clock 0)) at_try).
Proof. reflexivity. Qed.

(** When the [try] block completes, the metrics it returns are those of
    the final state. *)
Lemma search_try_ok_metrics self query role_context start_time st r m c rs st' :
  search_try clock http current_year set_iter self query role_context start_time st
  = (Ok (r, m, c, rs), st') ->
  m = metrics st'.
Proof.
  unfold search_try, _get_cached_results. intros H.
  apply bind_ok_inv in H as (results & s1 & _ & H).
  apply bind_ok_inv in H as (body & s2 & _ & H).
  apply bind_ok_inv in H as ([search_results sources] & s3 & _ & H).
  apply bind_ok_inv in H as (now & s4 & _ & H).
  apply bind_ok_inv in H as (u1 & s5 & _ & H).
  apply bind_ok_inv in H as (u2 & s6 & _ & H).
  apply bind_ok_inv in H as ([score reasons] & s7 & _ & H).
  apply bind_ok_inv in H as (m' & s8 & Hget & H).
  unfold get_metrics in Hget. unfold ret in H. congruence.
Qed.

(** The caller of [search] always gets a tuple back. *)
Lemma search_total self query role_context :
  exists r, search clock http current_year set_iter self query role_context = Ok r.
Proof.
  rewrite search_unfold. unfold try_except.
  destruct (search_try _ _ _ _ _ _ _ _ _) as [[r|e] st']; simpl; eauto.
Qed.

(** An exception of the retried request leaves the [try] block as it is. *)
Lemma make_request_failure_propagates self query role_context start_time st e st' :
  _make_request http self st = (Raise e, st') ->
  search_try clock http current_year set_iter self query role_context start_time st
  = (Raise e, st').
Proof.
  intros H. unfold search_try, _get_cached_results.
  unfold bind at 1. now rewrite H.
Qed.

(** A timeout before the last attempt: a sleep of [attempt + 1] seconds,
    then the rest of the loop; on the last attempt it is raised again. *)
Lemma retry_loop_timeout self attempt later st msg :
  http attempt = TimesOut msg ->
  retry_loop http self (attempt :: later) st
  = if (Z.of_nat attempt =? Z.of_nat (max_retries self) - 1)%Z
    then (Raise (TimeoutException msg),
          mkCallState (clock_reads st) (log st ++ [Request attempt])%list (metrics st))
    else retry_loop http self later
           (mkCallState (clock_reads st)
              (log st ++ [Request attempt; Sleep (1 * (Z.of_nat attempt + 1))])%list
              (metrics st)).
Proof.
  intros H. simpl. unfold try_except, bind, client_get, bind, emit. simpl.
  rewrite H. simpl.
  destruct (Z.of_nat attempt =? _)%Z; [reflexivity|].
  unfold asyncio_sleep, emit. simpl. now rewrite <- app_assoc.
Qed.

(** Retries exhausted: when every remaining attempt times out, the loop
    ends by re-raising the timeout of the last attempt. *)
Lemma retry_loop_timeouts self msg : forall k a st,
  (a + S k = max_retries self)%nat ->
  (forall attempt, (attempt < max_retries self)%nat ->
     http attempt = TimesOut (msg attempt)) ->
  exists st',
    retry_loop http self (seq a (S k)) st
    = (Raise (TimeoutException (msg (max_retries self - 1)%nat)), st').
Proof.
  induction k as [|k IH]; intros a st Hlen Hall.
  - change (seq a 1) with [a]. rewrite (retry_loop_timeout _ _ _ _ _ (Hall a ltac:(lia))).
    destruct (Z.eqb_spec (Z.of_nat a) (Z.of_nat (max_retries self) - 1)) as [_|Hne];
      [|lia].
    replace (max_retries self - 1)%nat with a by lia. eauto.
  - change (seq a (S (S k))) with (a :: seq (S a) (S k)).
    rewrite (retry_loop_timeout _ _ _ _ _ (Hall a ltac:(lia))).
    destruct (Z.eqb_spec (Z.of_nat a) (Z.of_nat (max_retries self) - 1)) as [He|_];
      [lia|].
    apply IH; [lia | exact Hall].
Qed.

Lemma make_request_timeouts_exhausted self msg st :
  (0 < max_retries self)%nat ->
  (forall attempt, (attempt < max_retries self)%nat ->
     http attempt = TimesOut (msg attempt)) ->
  exists st',
    _make_request http self st
    = (Raise (TimeoutException (msg (max_retries self - 1)%nat)), st').
Proof.
  intros Hpos Hall. unfold _make_request.
  destruct (retry_loop_timeouts self msg (max_retries self - 1) 0 st) as (st' & H);
    [lia | exact Hall |].
  replace (S (max_retries self - 1)) with (max_retries self) in H by lia. eauto.
Qed.

(** C6. [_get_cached_results] returns [None] whatever the query, so
    [search] never takes its cache-hit branch: the metrics of every call
    have [cache_hit] false. *)
Theorem search_never_cache_hit self query role_context :
  _get_cached_results self query = None
  /\ exists results m score reasons,
       search clock http current_year set_iter self query role_context
       = Ok (results, m, score, reasons)
       /\ cache_hit m = false.
Proof.
  split; [reflexivity|].
  rewrite search_unfold. unfold try_except.
  pose proof (frame_search_try self query role_context (clock 0) at_try)
    as (_ & _ & Hhit).
  destruct (search_try _ _ _ _ _ _ _ _ _) as [[[[[r m] c] rs]|e] st'] eqn:Htry.
  - simpl. exists r, m, c, rs. split; [reflexivity|].
    rewrite (search_try_ok_metrics _ _ _ _ _ _ _ _ _ _ Htry). exact Hhit.
  - simpl. eexists _, _, _, _. split; [reflexivity|]. simpl. exact Hhit.
Qed.


(** C3, as the code has it.  A 429 at attempt [attempt] is followed by a
    sleep of [2 * (attempt + 1)] seconds, never by a raise, whatever the
    number of attempts left; what follows the sleep is the rest of the
    [for] loop over [range(max_retries)], so the next request is made when
    the range has a next attempt.  Any other HTTP status error is raised
    at once, with no sleep and no retry. *)
Theorem make_request_status_errors self attempt later st :
  (forall msg, http attempt = StatusError 429 msg ->
     let slept :=
       mkCallState (clock_reads st)
         (log st ++ [Request attempt; Sleep (2 * (Z.of_nat attempt + 1))])%list
         (metrics st) in
     retry_loop http self (attempt :: later) st = retry_loop http self later slept
     /\ forall next rest, later = next :: rest ->
          exists more,
            log (snd (retry_loop http self later slept))
            = (log slept ++ Request next :: more)%list)
  /\ (forall status_code msg,
        status_code <> 429%Z -> http attempt = StatusError status_code msg ->
        retry_loop http self (attempt :: later) st
        = (Raise (HTTPStatusError status_code msg),
           mkCallState (clock_reads st) (log st ++ [Request attempt])%list (metrics st))).
Proof.
  split.
  - intros msg H429. cbv zeta. split.
    + simpl. unfold try_except, bind, client_get, bind, emit. simpl.
      rewrite H429. simpl. unfold asyncio_sleep, emit. simpl.
      now rewrite <- app_assoc.
    + intros next rest ->.
      set (slept := mkCallState _ _ _).
      change (retry_loop http self (next :: rest) slept)
        with (try_except
                (bind (client_get http next) (fun body => ret (Some body)))
                (fun e =>
                   match e with
                   | TimeoutException _ =>
                       if (Z.of_nat next =? Z.of_nat (max_retries self) - 1)%Z
                       then raise e
                       else bind (asyncio_sleep (1 * (Z.of_nat next + 1)))
                                 (fun _ => retry_loop http self rest)
                   | HTTPStatusError status_code _ =>
                       if (status_code =? 429)%Z
                       then bind (asyncio_sleep (2 * (Z.of_nat next + 1)))
                                 (fun _ => retry_loop http self rest)
                       else raise e
                   | _ => raise e
                   end) slept).
      unfold try_except, bind, client_get, bind, emit. simpl.
      destruct (http next) as [body|m|code m]; simpl.
      * now exists [].
      * destruct (Z.of_nat next =? _)%Z; simpl; [now exists []|].
        destruct (frame_retry_loop self rest
                    (mkCallState (clock_reads st)
                       ((log slept ++ [Request next]) ++ [Sleep (1 * (Z.of_nat next + 1))])%list
                       (metrics st))) as (_ & (more & Hmore) & _).
        simpl in Hmore. unfold asyncio_sleep, emit. simpl.
        exists (Sleep (1 * (Z.of_nat next + 1)) :: more).
        rewrite Hmore. now rewrite <- !app_assoc.
      * destruct (code =? 429)%Z; simpl; [|now exists []].
        destruct (frame_retry_loop self rest
                    (mkCallState (clock_reads st)
                       ((log slept ++ [Request next]) ++ [Sleep (2 * (Z.of_nat next + 1))])%list
                       (metrics st))) as (_ & (more & Hmore) & _).
        simpl in Hmore. unfold asyncio_sleep, emit. simpl.
        exists (Sleep (2 * (Z.of_nat next + 1)) :: more).
        rewrite Hmore. now rewrite <- !app_assoc.
  - intros code msg Hne Hhttp. simpl.
    unfold try_except, bind, client_get, bind, emit. simpl. rewrite Hhttp. simpl.
    destruct (Z.eqb_spec code 429); [contradiction | reflexivity].
Qed.

End Call.

End SearchFacts.

(** ** Runs on concrete inputs *)

Module Runs.
Import SearchFacts.


Example init_with_key :
  WebSearch.__init__ {[ "BRAVE_API_KEY"%string := "key"%string ]} = Ok built_client.
Proof. vm_compute. reflexivity. Qed.

(** C3 as worded fails on the last attempt.  With the built_client that
    [__init__] builds ([max_retries] is 2) and a provider that answers
    429 to every request, attempt 1 is answered 429 and followed by a
    sleep of 4 seconds, but by no third request: the call returns [None]. *)
Lemma make_request_429_last_attempt_counterexample :
  let http := always (StatusError 429 "Too Many Requests") in
  let trace := [Request 0; Sleep 2; Request 1; Sleep 4] in
  _make_request http built_client fresh
  = (Ok None, mkCallState 0 trace (metrics fresh))
  /\ In (Request 1) trace
  /\ http 1%nat = StatusError 429 "Too Many Requests"
  /\ ~ In (Request 2) trace.
Proof.
  cbv zeta. split; [vm_compute; reflexivity|]. split; [simpl; tauto|].
  split; [reflexivity|]. simpl. intros [H|[H|[H|[H|[]]]]]; discriminate H.
Qed.

(** A 429 on the first attempt and an answer on the second: one sleep of
    2 seconds, then the body. *)
Example make_request_429_then_success :
  let body := mkJsonBody [] in
  _make_request
    (fun attempt => match attempt with
                    | O => StatusError 429 "Too Many Requests"
                    | _ => Responds body
                    end) built_client fresh
  = (Ok (Some body), mkCallState 0 [Request 0; Sleep 2; Request 1] (metrics fresh)).
Proof. vm_compute. reflexivity. Qed.

(** Any other status is raised on the attempt that meets it. *)
Example make_request_500 :
  _make_request (always (StatusError 500 "Server error")) built_client fresh
  = (Raise (HTTPStatusError 500 "Server error"),
     mkCallState 0 [Request 0] (metrics fresh)).
Proof. vm_compute. reflexivity. Qed.


(** The provider's [None] after a 429 on the last attempt also ends in
    the error tuple. *)
Example search_after_429s :
  search seconds (always (StatusError 429 "Too Many Requests")) 2026 elements built_client
         "coffee trade" "fact check"
  = Ok ([], mkSearchMetrics (seconds 1 - seconds 0) false 0
              (Some "'NoneType' object has no attribute 'get'"%string),
        0%R, ["No confidence assessment"%string]).
Proof. reflexivity. Qed.

(** A 429 on the first attempt and an answer on the second: the results
    come back ranked, and no error is recorded. *)
Example search_429_then_success :
  let body :=
    mkJsonBody
      [ mkRawResult (Some "Tea prices") (Some "https://b.example.com/t")
                    (Some "about tea") None;
        mkRawResult (Some "Coffee trade") (Some "https://a.example.org/x")
                    (Some "fact check: coffee") None ] in
  let http attempt :=
    match attempt with
    | O => StatusError 429 "Too Many Requests"
    | _ => Responds body
    end in
  exists results m score reasons,
    search seconds http 2026 elements built_client "coffee" "fact check"
    = Ok (results, m, score, reasons)
    /\ List.map sr_url results = ["https://a.example.org/x"; "https://b.example.com/t"]%string
    /\ List.map sr_relevance_score results = [3 # 3; 0 # 3]
    /\ error m = None /\ results_count m = 2%nat /\ cache_hit m = false
    /\ total_time m = seconds 3 - seconds 0.
Proof.
  cbv zeta. eexists _, _, _, _. split; [reflexivity|].
  repeat split; vm_compute; reflexivity.
Qed.

(** Three sources: the aggregation completes with a score in range. *)
Lemma calculate_confidence_score_range_witness :
  exists score reasons,
    calculate_confidence 2026
      [ mkSource (Some "www.mit.edu"%string) (Some 2024%Z) (Some "academic"%string);
        mkSource (Some "example.com"%string) None None;
        mkSource None (Some 1999%Z) (Some "forum"%string) ]
    = Ok (score, reasons)
    /\ (0 <= score <= 1)%R.
Proof.
  apply calculate_confidence_score_range; [discriminate|].
  repeat constructor; eexists; vm_compute; reflexivity.
Defined.

Example calculate_confidence_empty :
  calculate_confidence 2026 [] = Ok (0%R, ["No sources found"%string]).
Proof. reflexivity. Qed.

Example assess_source_quality_defaults :
  exists q,
    assess_source_quality 2026
      (mkSource (Some "localhost"%string) None (Some "wiki"%string)) = Ok q
    /\ q == 4 # 10.
Proof. eexists. split; [reflexivity|]. vm_compute. reflexivity. Qed.

(** Two results share a URL: the later one leaves no entry. *)
Example evidence_points_shared_url :
  let a := mkSearchResult "Coffee - Wikipedia" "http://a.example/x" "first" 0 1 in
  let b := mkSearchResult "Tea" "http://b.example/y" "second" 0 1 in
  let a' := mkSearchResult "Coffee again" "http://a.example/x" "third" 0 (1#2) in
  Roles.evidence_points [a; b; a']
  = [ mkEvidencePoint "Coffee" "http://a.example/x" "first";
      mkEvidencePoint "Tea" "http://b.example/y" "second" ].
Proof. vm_compute. reflexivity. Qed.

End Runs.


(** * Further properties of the modelled code *)

Import Notions.

(** ** Strings *)

Module PyStrFacts.

Lemma append_nil_l (s : string) : ("" ++ s)%string = s.
Proof. reflexivity. Qed.

Lemma append_cons c (r s : string) : (String c r ++ s)%string = String c (r ++ s).
Proof. reflexivity. Qed.

Lemma append_nil_r (s : string) : (s ++ "")%string = s.
Proof.
  induction s as [|c r IH]; [reflexivity|]. now rewrite append_cons, IH.
Qed.

Lemma append_assoc (a b c : string) : ((a ++ b) ++ c = a ++ (b ++ c))%string.
Proof.
  induction a as [|x r IH]; [reflexivity|]. now rewrite !append_cons, IH.
Qed.

Lemma blankfree_app a b :
  blankfree (a ++ b) = (blankfree a && blankfree b)%bool.
Proof.
  induction a as [|c r IH]; [reflexivity|].
  rewrite append_cons. simpl. rewrite IH. now rewrite andb_assoc.
Qed.

(** Reading a blank-free run of characters extends the word in progress. *)
Lemma words_aux_run w : forall cur s,
  blankfree w = true ->
  PyStr.words_aux cur (w ++ s) = PyStr.words_aux (cur ++ w) s.
Proof.
  induction w as [|c r IH]; intros cur s Hw.
  - now rewrite append_nil_r.
  - simpl in Hw. apply andb_true_iff in Hw as [Hc Hr].
    apply negb_true_iff in Hc. rewrite append_cons. simpl. rewrite Hc.
    rewrite (IH _ _ Hr). now rewrite append_assoc.
Qed.

Lemma words_aux_end cur :
  cur <> EmptyString -> PyStr.words_aux cur "" = [cur].
Proof. destruct cur; [congruence | reflexivity]. Qed.

Lemma words_aux_space cur s :
  cur <> EmptyString ->
  PyStr.words_aux cur (" " ++ s) = cur :: PyStr.words_aux "" s.
Proof. destruct cur; [congruence | reflexivity]. Qed.

(** Every string [str.split()] returns is a word. *)
Lemma words_aux_words s : forall cur,
  blankfree cur = true -> Forall is_word (PyStr.words_aux cur s).
Proof.
  induction s as [|c r IH]; intros cur Hcur; simpl.
  - destruct cur; constructor; [|constructor]. split; [discriminate | exact Hcur].
  - destruct (PyStr.isspace c) eqn:Hc.
    + apply Forall_app. split; [|now apply IH].
      destruct cur; constructor; [|constructor]. split; [discriminate | exact Hcur].
    + apply IH. rewrite blankfree_app, Hcur. simpl. now rewrite Hc.
Qed.

Lemma words_are_words s : Forall is_word (PyStr.words s).
Proof. now apply words_aux_words. Qed.

(** Splitting what was joined with single spaces gives the words back. *)
Lemma words_join ws :
  Forall is_word ws -> PyStr.words (PyStr.join " " ws) = ws.
Proof.
  unfold PyStr.words. induction 1 as [|w rest [Hne Hbf] Hrest IH]; [reflexivity|].
  destruct rest as [|w' rest'].
  - simpl. rewrite <- (append_nil_r w) at 1.
    rewrite (words_aux_run w "" "" Hbf). rewrite append_nil_l. now apply words_aux_end.
  - change (PyStr.join " " (w :: w' :: rest'))
      with (w ++ " " ++ PyStr.join " " (w' :: rest'))%string.
    rewrite (words_aux_run w "" _ Hbf). rewrite append_nil_l.
    rewrite (words_aux_space w _ Hne). now rewrite IH.
Qed.

End PyStrFacts.

(** ** Query preparation *)

(** X1. [_sanitize_query] keeps the words of the query and is idempotent:
    sanitising a sanitised query changes nothing. *)
Theorem sanitize_query_idempotent (query : string) :
  PyStr.words (_sanitize_query query) = PyStr.words query
  /\ _sanitize_query (_sanitize_query query) = _sanitize_query query.
Proof.
  assert (H : PyStr.words (_sanitize_query query) = PyStr.words query)
    by (unfold _sanitize_query; apply PyStrFacts.words_join, PyStrFacts.words_are_words).
  split; [exact H|]. unfold _sanitize_query at 1. now rewrite H.
Qed.

(** ** Scoring *)

Section RelevanceRange.

Variable set_iter : gset string -> list string.

Lemma relevance_cases (result : RawResult) (terms : gset string) :
  match _calculate_relevance set_iter result terms with
  | Ok q => 0 <= q <= 1 /\ r_title result <> None /\ r_description result <> None
  | Raise e =>
      (r_title result = None /\ e = KeyError "title")
      \/ (r_title result <> None /\ r_description result = None
          /\ e = KeyError "description")
  end.
Proof.
  unfold _calculate_relevance.
  destruct (r_title result) as [title|]; simpl; [|now left].
  destruct (r_description result) as [description|]; simpl;
    [|right; repeat split; congruence].
  split; [|split; congruence].
  set (count := List.length _). set (n := size _).
  assert (Hq : 0 <= inject_Z (Z.of_nat count) / inject_Z (Z.of_nat n)).
  { unfold Qdiv. apply Qmult_le_0_compat.
    - change 0 with (inject_Z 0). rewrite <- Zle_Qle. lia.
    - apply Qinv_le_0_compat. change 0 with (inject_Z 0). rewrite <- Zle_Qle. lia. }
  set (y := inject_Z (Z.of_nat count) / _) in *. clearbody y.
  split; [|apply Q.le_min_r].
  apply Q.min_glb; [|discriminate].
  destruct (bool_decide _), (PyStr.contains _ _); lra.
Qed.

(** X2. [_calculate_relevance] either returns a score between 0 and 1, or
    raises the [KeyError] of the first of 'title', 'description' that the
    result lacks. *)
Theorem calculate_relevance_range (result : RawResult) (terms : gset string) :
  match _calculate_relevance set_iter result terms with
  | Ok q => 0 <= q <= 1 /\ r_title result <> None /\ r_description result <> None
  | Raise e =>
      (r_title result = None /\ e = KeyError "title")
      \/ (r_title result <> None /\ r_description result = None
          /\ e = KeyError "description")
  end.
Proof. apply relevance_cases. Qed.

Hypothesis set_iter_perm : forall s, set_iter s ≡ₚ elements s.

(** X3. When the set of terms is not empty and every term, lower-cased,
    occurs in the lower-cased text, the relevance is 1. *)
Theorem calculate_relevance_all_terms
    (result : RawResult) (title description : string) (terms : gset string) :
  r_title result = Some title ->
  r_description result = Some description ->
  terms <> ∅ ->
  (forall t, t ∈ terms ->
     PyStr.contains (PyStr.lower t) (relevance_text title description) = true) ->
  exists q, _calculate_relevance set_iter result terms = Ok q /\ q == 1.
Proof.
  intros Ht Hd Hne Hall. unfold _calculate_relevance. rewrite Ht, Hd. simpl.
  eexists; split; [reflexivity|].
  assert (Hfilter :
    List.filter (fun term => PyStr.contains term (relevance_text title description))
                (set_iter (lower_terms terms)) = set_iter (lower_terms terms)).
  { assert (Hin : forall x, In x (set_iter (lower_terms terms)) ->
                            PyStr.contains x (relevance_text title description) = true).
    { intros x Hx. apply (set_iter_elem set_iter set_iter_perm) in Hx.
      destruct (lower_terms_elem _ _ Hx) as (t & -> & Hin). now apply Hall. }
    induction (set_iter (lower_terms terms)) as [|x l IH]; [reflexivity|].
    simpl. rewrite (Hin x (or_introl eq_refl)). f_equal. apply IH.
    intros y Hy. apply Hin. now right. }
  rewrite Hfilter.
  assert (Hlen : List.length (set_iter (lower_terms terms)) = size (lower_terms terms)).
  { rewrite (Permutation_length (set_iter_perm (lower_terms terms))). reflexivity. }
  rewrite Hlen.
  assert (Hne' : lower_terms terms <> ∅).
  { intros E. apply Hne. apply set_eq. intros x. split; [|intros Hx; now apply not_elem_of_empty in Hx].
    intros Hx. exfalso.
    assert (PyStr.lower x ∈ lower_terms terms) by (unfold lower_terms; apply elem_of_map; eauto).
    rewrite E in H. now apply not_elem_of_empty in H. }
  rewrite bool_decide_eq_false_2 by exact Hne'.
  assert (Hpos : (0 < size (lower_terms terms))%nat).
  { destruct (size (lower_terms terms)) eqn:Hs; [|lia].
    apply size_empty_inv in Hs. exfalso. apply Hne'. now apply leibniz_equiv. }
  set (n := inject_Z (Z.of_nat (size (lower_terms terms)))).
  assert (Hn : 0 < n).
  { unfold n. change 0 with (inject_Z 0). rewrite <- Zlt_Qlt. lia. }
  assert (Hone : n / n == 1) by (field; lra).
  set (y := n / n) in *. clearbody y.
  destruct (PyStr.contains _ _);
    match goal with |- Qmin ?x 1 == 1 =>
      destruct (Q.min_spec x 1) as [[Hlt ->]|[_ ->]]; [lra | reflexivity]
    end.
Qed.

End RelevanceRange.

(** All terms occur, one of them in another case than in the text. *)
Lemma calculate_relevance_all_terms_witness :
  exists q,
    _calculate_relevance elements
      (mkRawResult (Some "Coffee Trade") (Some "http://a.example/x")
                   (Some "the commodity") None)
      {[ "coffee"; "COMMODITY" ]} = Ok q /\ q == 1.
Proof.
  apply (calculate_relevance_all_terms elements (fun s => reflexivity _)
           _ "Coffee Trade" "the commodity"); [reflexivity | reflexivity | |].
  - intros E. assert (H : ("coffee" : string) ∈ (∅ : gset string)).
    { rewrite <- E. apply elem_of_union_l, elem_of_singleton. reflexivity. }
    now apply not_elem_of_empty in H.
  - intros t Ht.
    apply elem_of_union in Ht as [Ht|Ht]; apply elem_of_singleton in Ht; subst t;
      reflexivity.
Defined.

(** X4. A later publication year never lowers the quality score of a
    source (same domain, same type): of two scores that are returned, the
    one for the later year is at least the other. *)
Theorem assess_source_quality_monotone (current_year : Z)
    (domain type_ : option string) (year1 year2 : Z) (q1 q2 : Q) :
  (year1 <= year2)%Z ->
  assess_source_quality current_year (mkSource domain (Some year1) type_) = Ok q1 ->
  assess_source_quality current_year (mkSource domain (Some year2) type_) = Ok q2 ->
  q1 <= q2.
Proof.
  intros Hy H1 H2.
  apply assess_source_quality_inv in H1 as (f1 & Hf1 & ->).
  apply assess_source_quality_inv in H2 as (f2 & Hf2 & ->).
  cbn [src_domain src_publication_year src_type] in *.
  change (default current_year (Some year1)) with year1 in Hf1.
  change (default current_year (Some year2)) with year2 in Hf2.
  apply Q.min_le_compat_l.
  set (d := dict_get reputable_domains _ _). set (t := dict_get source_types _ _).
  assert (Hf : f1 <= f2).
  { pose proof (freshness_score_cases current_year year1) as C1.
    pose proof (freshness_score_cases current_year year2) as C2.
    rewrite Hf1 in C1. rewrite Hf2 in C2.
    destruct C1 as [-> _]. destruct C2 as [-> _].
    apply Q.max_le_compat_l.
    assert (H : inject_Z (current_year - year2) <= inject_Z (current_year - year1))
      by (rewrite <- Zle_Qle; lia).
    set (a := inject_Z (current_year - year1)) in *.
    set (b := inject_Z (current_year - year2)) in *. clearbody a b.
    assert (Hd : b / 10 <= a / 10)
      by (unfold Qdiv; apply Qmult_le_compat_r; [exact H | discriminate]).
    set (x := a / 10) in *. set (y := b / 10) in *. lra. }
  unfold Qdiv. apply Qmult_le_compat_r; [lra | discriminate].
Qed.

Lemma assess_source_quality_monotone_witness :
  exists q1 q2,
    assess_source_quality 2026 (mkSource (Some "mit.edu") (Some 2019%Z) None) = Ok q1
    /\ assess_source_quality 2026 (mkSource (Some "mit.edu") (Some 2024%Z) None) = Ok q2
    /\ q1 <= q2.
Proof.
  eexists _, _. split; [reflexivity|]. split; [reflexivity|].
  apply (assess_source_quality_monotone 2026 (Some "mit.edu") None 2019 2024);
    [lia | reflexivity | reflexivity].
Defined.

(** ** The retried request *)

Module RetryFacts.
Import SearchFacts.

Section Retry.

Variable http : nat -> Outcome.

(** One turn of the loop of [_make_request], by outcome of the request. *)
Lemma retry_loop_step self attempt later st :
  retry_loop http self (attempt :: later) st
  = match http attempt with
    | Responds body => (Ok (Some body), requested attempt st)
    | TimesOut msg =>
        if (Z.of_nat attempt =? Z.of_nat (max_retries self) - 1)%Z
        then (Raise (TimeoutException msg), requested attempt st)
        else retry_loop http self later
               (backed_off attempt (1 * (Z.of_nat attempt + 1)) st)
    | StatusError status_code msg =>
        if (status_code =? 429)%Z
        then retry_loop http self later
               (backed_off attempt (2 * (Z.of_nat attempt + 1)) st)
        else (Raise (HTTPStatusError status_code msg), requested attempt st)
    end.
Proof.
  simpl. unfold try_except, bind, client_get, bind, emit. simpl.
  destruct (http attempt) as [body|msg|code msg]; simpl; [reflexivity| |].
  - destruct (Z.of_nat attempt =? _)%Z; [reflexivity|].
    unfold asyncio_sleep, emit, backed_off. simpl. now rewrite <- app_assoc.
  - destruct (code =? 429)%Z; [|reflexivity].
    unfold asyncio_sleep, emit, backed_off. simpl. now rewrite <- app_assoc.
Qed.

Lemma count_requests_app a b :
  count_requests (a ++ b) = (count_requests a + count_requests b)%nat.
Proof. induction a as [|[n|s] r IH]; simpl; lia. Qed.

Lemma total_sleep_app a b :
  total_sleep (a ++ b) = (total_sleep a + total_sleep b)%Z.
Proof. induction a as [|[n|s] r IH]; simpl; lia. Qed.

Lemma retry_loop_bounded self : forall k a st,
  exists more,
    log (snd (retry_loop http self (seq a k) st)) = (log st ++ more)%list
    /\ (count_requests more <= k)%nat
    /\ (0 <= total_sleep more <= Z.of_nat k * (2 * Z.of_nat a + Z.of_nat k + 1))%Z.
Proof.
  induction k as [|k IH]; intros a st.
  - exists []. simpl. rewrite app_nil_r. repeat split; lia.
  - change (seq a (S k)) with (a :: seq (S a) k). rewrite retry_loop_step.
    assert (Hone : exists more,
      log (requested a st) = (log st ++ more)%list
      /\ (count_requests more <= S k)%nat
      /\ (0 <= total_sleep more
          <= Z.of_nat (S k) * (2 * Z.of_nat a + Z.of_nat (S k) + 1))%Z).
    { exists [Request a]. simpl. repeat split; nia. }
    assert (Hnext : forall secs, (0 <= secs <= 2 * (Z.of_nat a + 1))%Z ->
      exists more,
        log (snd (retry_loop http self (seq (S a) k) (backed_off a secs st)))
        = (log st ++ more)%list
        /\ (count_requests more <= S k)%nat
        /\ (0 <= total_sleep more
            <= Z.of_nat (S k) * (2 * Z.of_nat a + Z.of_nat (S k) + 1))%Z).
    { intros secs Hsecs.
      destruct (IH (S a) (backed_off a secs st)) as (more & Hlog & Hcount & Hsleep).
      exists ([Request a; Sleep secs] ++ more)%list. split; [|split].
      - rewrite Hlog. simpl. now rewrite <- app_assoc.
      - rewrite count_requests_app. simpl. lia.
      - rewrite total_sleep_app. simpl. nia. }
    destruct (http a) as [body|msg|code msg]; simpl.
    + exact Hone.
    + destruct (Z.of_nat a =? _)%Z; [exact Hone | apply Hnext; lia].
    + destruct (code =? 429)%Z; [apply Hnext; lia | exact Hone].
Qed.

(** X5. Whatever the provider answers, one call of [_make_request] issues
    at most [max_retries] requests and sleeps at most
    [max_retries * (max_retries + 1)] seconds in all. *)
Theorem make_request_bounded self st :
  exists more,
    log (snd (_make_request http self st)) = (log st ++ more)%list
    /\ (count_requests more <= max_retries self)%nat
    /\ (0 <= total_sleep more
        <= Z.of_nat (max_retries self) * (Z.of_nat (max_retries self) + 1))%Z.
Proof.
  destruct (retry_loop_bounded self (max_retries self) 0 st)
    as (more & Hlog & Hcount & Hsleep).
  exists more. unfold _make_request. repeat split; try tauto; lia.
Qed.

Lemma retry_loop_first_success self body : forall n a k st,
  (a <= k < a + n)%nat -> (k < max_retries self)%nat ->
  (forall i, (a <= i < k)%nat -> retriable (http i)) ->
  http k = Responds body ->
  exists st',
    retry_loop http self (seq a n) st = (Ok (Some body), st')
    /\ exists more, log st' = (log st ++ more)%list
                    /\ count_requests more = (k - a + 1)%nat.
Proof.
  induction n as [|n IH]; intros a k st Hk Hmax Hretry Hbody; [lia|].
  change (seq a (S n)) with (a :: seq (S a) n). rewrite retry_loop_step.
  destruct (Nat.eq_dec a k) as [->|Hne].
  - rewrite Hbody. eexists; split; [reflexivity|].
    exists [Request k]. simpl. split; [reflexivity | lia].
  - assert (Hnext : forall secs, exists st',
      retry_loop http self (seq (S a) n) (backed_off a secs st) = (Ok (Some body), st')
      /\ exists more, log st' = (log st ++ more)%list
                      /\ count_requests more = (k - a + 1)%nat).
    { intros secs.
      destruct (IH (S a) k (backed_off a secs st)) as (st' & Hrun & more & Hlog & Hcount);
        [lia | exact Hmax | intros i Hi; apply Hretry; lia | exact Hbody |].
      exists st'. split; [exact Hrun|].
      exists ([Request a; Sleep secs] ++ more)%list. split.
      - rewrite Hlog. simpl. now rewrite <- app_assoc.
      - rewrite count_requests_app. simpl. lia. }
    specialize (Hretry a ltac:(lia)).
    destruct (http a) as [b|msg|code msg]; simpl in Hretry; [contradiction| |].
    + destruct (Z.eqb_spec (Z.of_nat a) (Z.of_nat (max_retries self) - 1)); [lia|].
      apply Hnext.
    + subst code. simpl. apply Hnext.
Qed.

(** X6. When attempt [k] (one of the [max_retries]) is answered and every
    earlier attempt timed out or met a 429, [_make_request] returns the
    body of attempt [k], after exactly [k + 1] requests. *)
Theorem make_request_first_success self (k : nat) (body : JsonBody) st :
  (k < max_retries self)%nat ->
  (forall i, (i < k)%nat -> retriable (http i)) ->
  http k = Responds body ->
  exists st',
    _make_request http self st = (Ok (Some body), st')
    /\ exists more, log st' = (log st ++ more)%list
                    /\ count_requests more = (k + 1)%nat.
Proof.
  intros Hk Hretry Hbody. unfold _make_request.
  destruct (retry_loop_first_success self body (max_retries self) 0 k st)
    as (st' & Hrun & more & Hlog & Hcount);
    [lia | exact Hk | intros i Hi; apply Hretry; lia | exact Hbody |].
  exists st'. split; [exact Hrun|]. exists more. split; [exact Hlog | lia].
Qed.

Lemma retry_loop_all_429 self : forall n a st,
  (forall i, (a <= i < a + n)%nat -> exists msg, http i = StatusError 429 msg) ->
  exists st', retry_loop http self (seq a n) st = (Ok None, st').
Proof.
  induction n as [|n IH]; intros a st Hall; [simpl; eauto|].
  change (seq a (S n)) with (a :: seq (S a) n). rewrite retry_loop_step.
  destruct (Hall a ltac:(lia)) as (msg & ->). simpl.
  apply IH. intros i Hi. apply Hall. lia.
Qed.

End Retry.

End RetryFacts.

Lemma make_request_first_success_witness :
  exists st',
    _make_request
      (fun attempt => match attempt with
                      | O => TimesOut "timed out"
                      | _ => Responds (mkJsonBody [])
                      end) built_client fresh
    = (Ok (Some (mkJsonBody [])), st')
    /\ exists more, log st' = (log fresh ++ more)%list
                    /\ count_requests more = 2%nat.
Proof.
  apply (RetryFacts.make_request_first_success _ built_client 1%nat).
  - simpl. lia.
  - intros i Hi. assert (i = 0%nat) as -> by lia. exact I.
  - reflexivity.
Defined.

(** ** The call of [search], step by step *)

Module SearchMore.
Import SearchFacts.

Lemma quiet_same {A} (m : M A) : (forall st, snd (m st) = st) -> quiet m.
Proof. intros H st. now rewrite H. Qed.

Lemma quiet_bind {A B} (m : M A) (k : A -> M B) :
  quiet m -> (forall a, quiet (k a)) -> quiet (bind m k).
Proof.
  intros Hm Hk st. specialize (Hm st). unfold bind.
  destruct (m st) as [[a|e] st1]; simpl in *; [|exact Hm].
  now rewrite Hk.
Qed.

Lemma quiet_try_except {A} (m : M A) (h : exn -> M A) :
  quiet m -> (forall e, quiet (h e)) -> quiet (try_except m h).
Proof.
  intros Hm Hh st. specialize (Hm st). unfold try_except.
  destruct (m st) as [[a|e] st1]; simpl in *; [exact Hm|].
  now rewrite Hh.
Qed.

Lemma quiet_ret {A} (a : A) : quiet (ret a).
Proof. now apply quiet_same. Qed.
Lemma quiet_raise {A} (e : exn) : quiet (@raise A e).
Proof. now apply quiet_same. Qed.
Lemma quiet_lift {A} (r : res A) : quiet (lift r).
Proof. now apply quiet_same. Qed.
Lemma quiet_emit ev : quiet (emit ev).
Proof. intros st. reflexivity. Qed.

Section Call.

Variable clock : nat -> Q.
Variable http : nat -> Outcome.
Variable current_year : Z.
Variable set_iter : gset string -> list string.

Lemma quiet_time_time : quiet (time_time clock).
Proof. intros st. reflexivity. Qed.

Lemma quiet_retry_loop self attempts : quiet (retry_loop http self attempts).
Proof.
  induction attempts as [|attempt later IH]; intros st.
  - reflexivity.
  - rewrite RetryFacts.retry_loop_step.
    destruct (http attempt) as [body|msg|code msg]; simpl; [reflexivity| |].
    + destruct (Z.of_nat attempt =? _)%Z; [reflexivity | now rewrite IH].
    + destruct (code =? 429)%Z; [now rewrite IH | reflexivity].
Qed.

Lemma quiet_process_result start_time query_terms acc result :
  quiet (process_result clock current_year set_iter start_time query_terms acc result).
Proof.
  unfold process_result. destruct acc as [search_results sources].
  repeat (apply quiet_bind; [first [apply quiet_lift | apply quiet_time_time]|intros ?]).
  apply quiet_ret.
Qed.

Lemma quiet_process_results start_time query_terms results : forall acc,
  quiet (process_results clock current_year set_iter start_time query_terms acc results).
Proof.
  induction results as [|r rest IH]; intros acc; simpl; [apply quiet_ret|].
  apply quiet_bind; [apply quiet_process_result | intros acc'; apply IH].
Qed.

(** A body that [_make_request] returns is the answer to one of the
    attempts. *)
Lemma retry_loop_body self attempts : forall st body st',
  retry_loop http self attempts st = (Ok (Some body), st') ->
  exists attempt, In attempt attempts /\ http attempt = Responds body.
Proof.
  induction attempts as [|attempt later IH]; intros st body st' H.
  - discriminate H.
  - rewrite RetryFacts.retry_loop_step in H.
    destruct (http attempt) as [b|msg|code msg] eqn:Hhttp.
    + injection H as -> _. exists attempt. split; [now left | exact Hhttp].
    + destruct (Z.of_nat attempt =? _)%Z; [discriminate H|].
      destruct (IH _ _ _ H) as (a & Hin & Ha). exists a. split; [now right | exact Ha].
    + destruct (code =? 429)%Z; [|discriminate H].
      destruct (IH _ _ _ H) as (a & Hin & Ha). exists a. split; [now right | exact Ha].
Qed.

(** What a completed pass over the raw results has built. *)
Lemma process_results_ok start_time query_terms results :
  forall acc st search_results sources st',
    process_results clock current_year set_iter start_time query_terms acc results st
    = (Ok (search_results, sources), st') ->
    exists built srcs,
      search_results = (fst acc ++ built)%list
      /\ sources = (snd acc ++ srcs)%list
      /\ Forall2 (built_from set_iter query_terms) results built
      /\ Forall2 (source_of current_year) results srcs.
Proof.
  induction results as [|raw rest IH]; intros [sr0 so0] st sr so st' H.
  - injection H as <- <- _. exists [], []. simpl. rewrite !app_nil_r.
    repeat split; constructor.
  - simpl in H. apply bind_ok_inv in H as ([sr1 so1] & st1 & Hone & Hrest).
    unfold process_result in Hone.
    apply bind_ok_inv in Hone as (relevance & s1 & Hrel & Hone).
    apply bind_ok_inv in Hone as (title & s2 & Htitle & Hone).
    apply bind_ok_inv in Hone as (url & s3 & Hurl & Hone).
    apply bind_ok_inv in Hone as (description & s4 & Hdesc & Hone).
    apply bind_ok_inv in Hone as (now & s5 & Hnow & Hone).
    apply bind_ok_inv in Hone as (url' & s6 & Hurl' & Hone).
    apply bind_ok_inv in Hone as (domain & s7 & Hdomain & Hone).
    unfold lift in *. unfold ret in Hone.
    injection Hone as <- <- _.
    injection Hrel as Hrel _. injection Htitle as Htitle _.
    injection Hurl as Hurl _. injection Hdesc as Hdesc _.
    injection Hurl' as Hurl' _. injection Hdomain as Hdomain _.
    destruct (r_title raw) as [t|] eqn:Et; [|discriminate Htitle].
    destruct (r_url raw) as [u|] eqn:Eu; [|discriminate Hurl].
    destruct (r_description raw) as [d|] eqn:Ed; [|discriminate Hdesc].
    simpl in Htitle, Hurl, Hdesc, Hurl'.
    injection Htitle as <-. injection Hurl as <-. injection Hdesc as <-.
    injection Hurl' as <-.
    unfold list_index in Hdomain.
    destruct (nth_error (PyStr.split_on "/" u) 2) as [dom|] eqn:Edom;
      [|discriminate Hdomain].
    injection Hdomain as <-.
    destruct (IH _ _ _ _ _ Hrest) as (built & srcs & -> & -> & Hb & Hs).
    simpl. eexists (_ :: built), (_ :: srcs).
    split; [now rewrite <- app_assoc|]. split; [now rewrite <- app_assoc|].
    split; constructor; try assumption.
    + repeat split; simpl; try reflexivity; try assumption.
    + split; [reflexivity|]. split; [reflexivity|].
      exists u, dom. repeat split; assumption.
Qed.

(** A completed [try] block, taken apart. *)
Lemma search_try_ok_inv self query role_context start_time st r m c rs st' :
  search_try clock http current_year set_iter self query role_context start_time st
  = (Ok (r, m, c, rs), st') ->
  exists body st1 built sources st2,
    _make_request http self st = (Ok (Some body), st1)
    /\ process_results clock current_year set_iter start_time
         (query_terms_of query role_context) ([], []) (web_results body) st1
       = (Ok (built, sources), st2)
    /\ r = sort_by_relevance built
    /\ calculate_confidence current_year sources = Ok (c, rs)
    /\ m = set_results_count (List.length r)
             (set_total_time (clock (clock_reads st2) - start_time) (metrics st)).
Proof.
  unfold search_try, _get_cached_results. intros H.
  apply bind_ok_inv in H as (results & s1 & Hreq & H).
  apply bind_ok_inv in H as (body & s2 & Hbody & H).
  apply bind_ok_inv in H as ([search_results sources] & s3 & Hloop & H).
  apply bind_ok_inv in H as (now & s4 & Hnow & H).
  apply bind_ok_inv in H as (u1 & s5 & Hu1 & H).
  apply bind_ok_inv in H as (u2 & s6 & Hu2 & H).
  apply bind_ok_inv in H as ([score reasons] & s7 & Hconf & H).
  apply bind_ok_inv in H as (m' & s8 & Hget & H).
  destruct results as [b|]; [|discriminate Hbody].
  unfold ret in Hbody. injection Hbody as <- <-.
  unfold time_time in Hnow. injection Hnow as <- <-.
  unfold update_metrics in Hu1, Hu2. injection Hu1 as _ <-. injection Hu2 as _ <-.
  unfold lift in Hconf. injection Hconf as Hconf <-.
  unfold get_metrics in Hget. injection Hget as <- <-.
  unfold ret in H. injection H as <- <- <- <- _.
  exists b, s1, search_results, sources, s3.
  split; [exact Hreq|]. split; [exact Hloop|]. split; [reflexivity|].
  split; [exact Hconf|]. simpl.
  pose proof (quiet_process_results start_time (query_terms_of query role_context)
                (web_results b) ([], []) s1) as Hq1.
  unfold query_terms_of in Hq1. rewrite Hloop in Hq1. simpl in Hq1.
  pose proof (quiet_retry_loop self (seq 0 (max_retries self)) st) as Hq2.
  unfold _make_request in Hreq. rewrite Hreq in Hq2. simpl in Hq2.
  rewrite Hq1, Hq2. reflexivity.
Qed.

(** What the caller gets when the [try] block raises. *)
Lemma search_failure_result self query role_context e st' :
  search_try clock http current_year set_iter self query role_context (clock 0) at_try
  = (Raise e, st') ->
  search clock http current_year set_iter self query role_context
  = Ok ([], set_total_time (clock (clock_reads st') - clock 0)
              (set_error (Some (str_exn e)) (metrics st')),
        0%R, ["No confidence assessment"%string]).
Proof.
  intros H. rewrite search_unfold. unfold try_except. now rewrite H.
Qed.

(** The two ways a call of [search] ends: the [try] block completed and
    no error is recorded, or it raised and the error tuple comes back. *)
Lemma search_cases self query role_context r m c rs :
  search clock http current_year set_iter self query role_context = Ok (r, m, c, rs) ->
  (error m = None
   /\ exists st', search_try clock http current_year set_iter self query role_context
                    (clock 0) at_try = (Ok (r, m, c, rs), st'))
  \/ (r = [] /\ c = 0%R /\ rs = ["No confidence assessment"%string]
      /\ exists e st',
           search_try clock http current_year set_iter self query role_context
             (clock 0) at_try = (Raise e, st')
           /\ error m = Some (str_exn e)).
Proof.
  intros H.
  destruct (search_try clock http current_year set_iter self query role_context
              (clock 0) at_try) as [[[[[r' m'] c'] rs']|e] st'] eqn:Htry.
  - left. rewrite search_unfold in H. unfold try_except in H. rewrite Htry in H.
    simpl in H. injection H as Hr Hm Hc Hrs. subst r' m' c' rs'.
    split; [|eauto].
    destruct (search_try_ok_inv _ _ _ _ _ _ _ _ _ _ Htry)
      as (b & s1 & built & sources & s2 & _ & _ & _ & _ & Hm').
    rewrite Hm'. reflexivity.
  - right. rewrite (search_failure_result _ _ _ _ _ Htry) in H.
    injection H as Hr Hm Hc Hrs. subst r m c rs.
    repeat split. exists e, st'. split; reflexivity.
Qed.

End Call.

End SearchMore.

(** ** Ranking *)

Module SortFacts.

Lemma insert_desc_perm x l : Permutation (x :: l) (insert_desc x l).
Proof.
  induction l as [|y rest IH]; simpl; [reflexivity|].
  destruct (Qlt_le_dec _ _); [|reflexivity].
  rewrite perm_swap. now apply perm_skip.
Qed.

Lemma sort_perm l : Permutation l (sort_by_relevance l).
Proof.
  induction l as [|x rest IH]; simpl; [reflexivity|].
  rewrite <- insert_desc_perm. now apply perm_skip.
Qed.

Lemma insert_desc_sorted x l : descending l -> descending (insert_desc x l).
Proof.
  unfold descending. induction 1 as [|y rest Hrest IH Hy]; simpl.
  - constructor; constructor.
  - destruct (Qlt_le_dec (sr_relevance_score x) (sr_relevance_score y)) as [Hlt|Hle].
    + constructor; [exact IH|].
      apply (Permutation_Forall (insert_desc_perm x rest)).
      constructor; [now apply Qlt_le_weak | exact Hy].
    + constructor; [now constructor|].
      constructor; [exact Hle|].
      eapply List.Forall_impl; [|exact Hy]. intros z Hz. simpl in Hz.
      now apply Qle_trans with (sr_relevance_score y).
Qed.

Lemma sort_sorted l : descending (sort_by_relevance l).
Proof.
  induction l as [|x rest IH]; simpl; [constructor | now apply insert_desc_sorted].
Qed.

Lemma with_score_insert v x l :
  with_score v (insert_desc x l) = with_score v (x :: l).
Proof.
  unfold with_score. induction l as [|y rest IH]; simpl; [reflexivity|].
  destruct (Qlt_le_dec (sr_relevance_score x) (sr_relevance_score y)) as [Hlt|Hle];
    [|reflexivity].
  simpl. rewrite IH. simpl.
  destruct (Qeq_bool (sr_relevance_score x) v) eqn:Ex; [|reflexivity].
  destruct (Qeq_bool (sr_relevance_score y) v) eqn:Ey; [|reflexivity].
  apply Qeq_bool_iff in Ex, Ey. exfalso.
  rewrite Ex, Ey in Hlt. now apply Qlt_irrefl in Hlt.
Qed.

Lemma with_score_sort v l : with_score v (sort_by_relevance l) = with_score v l.
Proof.
  induction l as [|x rest IH]; simpl; [reflexivity|].
  rewrite with_score_insert. unfold with_score in *. simpl. now rewrite IH.
Qed.

End SortFacts.

(** A quality that is returned is at least 0.25: the two defaults,
    halved. *)
Lemma quality_lower (current_year : Z) (source : Source) (q : Q) :
  assess_source_quality current_year source = Ok q -> 1 # 4 <= q.
Proof.
  intros H. apply assess_source_quality_inv in H as (f & Hfresh & ->).
  set (d := dict_get reputable_domains _ _).
  set (t := dict_get source_types _ _).
  assert (Hd : 3#10 <= d <= 9#10)
    by (apply dict_get_bounds; [apply reputable_domains_bounds | split; discriminate]).
  assert (Ht : 2#10 <= t <= 9#10)
    by (apply dict_get_bounds; [apply source_types_bounds | split; discriminate]).
  assert (Hf : 0 <= f) by (eapply freshness_score_nonneg; exact Hfresh).
  apply Q.min_glb; [discriminate|].
  apply Qle_shift_div_l; [reflexivity|]. lra.
Qed.

(** ** Confidence reasons *)

Module ConfidenceFacts.
Import Statistics StatisticsFacts.

Lemma in_reason_if {P Q : Prop} (cond : {P} + {Q}) (text x : string) :
  In x (reason_if cond text) <-> (exists p, cond = left p) /\ x = text.
Proof.
  unfold reason_if. destruct cond as [p|q]; simpl.
  - split; [intros [<-|[]]; eauto | intros (_ & ->); now left].
  - split; [tauto | intros ((p & Hp) & _); discriminate Hp].
Qed.

Lemma high_ne_multiple n : "High-quality sources found"%string <> multiple_sources_reason n.
Proof. unfold multiple_sources_reason. intros E. inversion E. Qed.

Lemma consistent_ne_multiple n :
  "Consistent information across sources"%string <> multiple_sources_reason n.
Proof. unfold multiple_sources_reason. intros E. inversion E. Qed.

(** The aggregation of a non-empty list, taken apart. *)
Lemma calculate_confidence_inv current_year s rest c rs :
  calculate_confidence current_year (s :: rest) = Ok (c, rs) ->
  let sources := s :: rest in
  exists qs consistency,
    comprehension (assess_source_quality current_year) sources = Ok qs
    /\ let scores := List.map Q2R qs in
       let avg := (sum scores / INR (List.length scores))%R in
       let num := Rmin 1 (INR (List.length sources) / 5) in
       (if (1 <? List.length scores)%nat
        then sd ← stdev scores; Ok (1 - sd)%R else Ok (5 / 10)%R) = Ok consistency
       /\ c = (avg * (4 / 10) + consistency * (3 / 10) + num * (3 / 10))%R
       /\ rs = (reason_if (Rlt_dec (7 / 10) avg) "High-quality sources found"
                ++ reason_if (Rlt_dec (7 / 10) consistency)
                             "Consistent information across sources"
                ++ reason_if (Rlt_dec (6 / 10) num)
                             (multiple_sources_reason (List.length sources)))%list.
Proof.
  intros H. cbv zeta. unfold calculate_confidence in H. cbv beta iota zeta in H.
  destruct (comprehension _ _) as [qs|e] eqn:Hqs; [|discriminate H].
  cbn [mbind res_mbind res_bind] in H.
  destruct (if (1 <? _)%nat then _ else _) as [consistency|e] eqn:Hcons;
    [|discriminate H].
  exists qs, consistency. split; [reflexivity|]. split; [exact Hcons|].
  cbn [mbind res_mbind res_bind] in H. injection H as <- <-.
  split; reflexivity.
Qed.

Lemma num_sources_score_high (n : nat) :
  (6 / 10 < Rmin 1 (INR n / 5))%R <-> (4 <= n)%nat.
Proof.
  split.
  - intros Hlt. assert (Hn : (3 < INR n)%R).
    { pose proof (Rmin_r 1 (INR n / 5)). lra. }
    replace 3%R with (INR 3) in Hn by (simpl; lra).
    apply INR_lt in Hn. lia.
  - intros Hn. apply le_INR in Hn.
    replace (INR 4) with 4%R in Hn by (simpl; lra).
    apply Rmin_glb_lt; lra.
Qed.

(** X7. The reason "Multiple sources (n) corroborate the information"
    is given exactly when there are at least four sources. *)
Theorem confidence_multiple_sources_reason current_year sources c rs :
  calculate_confidence current_year sources = Ok (c, rs) ->
  In (multiple_sources_reason (List.length sources)) rs
  <-> (4 <= List.length sources)%nat.
Proof.
  intros H. destruct sources as [|s rest].
  - injection H as _ <-. simpl. split; [|lia].
    intros [E|[]]. unfold multiple_sources_reason in E. inversion E.
  - destruct (calculate_confidence_inv _ _ _ _ _ H) as (qs & consistency & _ & _ & _ & ->).
    set (n := List.length (s :: rest)).
    rewrite !in_app_iff, !in_reason_if.
    pose proof (num_sources_score_high n) as Hnum.
    split.
    + intros [(_ & E)|[(_ & E)|((p & _) & _)]].
      * symmetry in E. now apply high_ne_multiple in E.
      * symmetry in E. now apply consistent_ne_multiple in E.
      * now apply Hnum.
    + intros Hn. right. right. split; [|reflexivity].
      apply Hnum in Hn.
      destruct (Rlt_dec (6 / 10) (Rmin 1 (INR n / 5))) as [p|np];
        [eauto | exfalso; exact (np Hn)].
Qed.

(** X8. For a single source the aggregation returns whenever the
    quality of the source is returned (no deviation is taken); the only
    reason that can be given is "High-quality sources found", and the
    score stays between 0.31 and 0.61.  When the quality overflows, its
    exception is that of the aggregation. *)
Theorem confidence_single_source current_year (s : Source) :
  match assess_source_quality current_year s with
  | Ok _ =>
      exists c rs,
        calculate_confidence current_year [s] = Ok (c, rs)
        /\ (31 / 100 <= c <= 61 / 100)%R
        /\ (rs = [] \/ rs = ["High-quality sources found"%string])
  | Raise e =>
      calculate_confidence current_year [s] = Raise e
      /\ e = OverflowError "integer division result too large for a float"
  end.
Proof.
  pose proof (assess_source_quality_cases current_year s) as Hcases. cbv zeta in Hcases.
  unfold calculate_confidence. cbv beta iota zeta. cbn [comprehension].
  destruct (assess_source_quality current_year s) as [q|e] eqn:Hq;
    cbn [mbind res_mbind res_bind].
  2: { split; [reflexivity | apply Hcases]. }
  simpl List.length. simpl Nat.ltb. cbn [mbind res_mbind res_bind].
  eexists _, _. split; [reflexivity|].
  split.
  - pose proof (quality_lower current_year s q Hq) as Hlo.
    destruct (quality_bounds current_year s q Hq) as [_ Hhi].
    apply Qle_Rle in Hlo, Hhi.
    change (Q2R (1 # 4)) with (1 * / 4)%R in Hlo. change (Q2R 1) with (1 * / 1)%R in Hhi.
    unfold sum. simpl. rewrite Rmin_right by lra.
    set (x := Q2R q) in *. lra.
  - destruct (Rlt_dec (7 / 10) (5 / 10)) as [Hbad|Hc]; [lra|].
    destruct (Rlt_dec (6 / 10) (Rmin 1 (INR 1 / 5))) as [Hbad|Hn].
    { exfalso. assert (Hb := Hbad).
      rewrite Rmin_right in Hb by (simpl; lra). simpl in Hb. lra. }
    destruct (Rlt_dec _ _); simpl; [now right | now left].
Qed.

Lemma sum_le_scaled (xs : list R) (b : R) :
  Forall (fun x => x <= b)%R xs -> (sum xs <= b * INR (List.length xs))%R.
Proof.
  induction 1 as [|x l Hx _ IH]; simpl List.length; [simpl; lra|].
  rewrite S_INR. simpl. lra.
Qed.

(** A source of type 'unknown', not dated in the future, whose domain does
    not end in 'edu' or 'gov', has a quality of at most 0.6. *)
Lemma ordinary_quality_cap current_year (s : Source) (year : Z) (domain : string)
    (q : Q) :
  src_type s = Some "unknown"%string ->
  src_publication_year s = Some year ->
  src_domain s = Some domain ->
  (year <= current_year)%Z ->
  (let domain_ext := PyStr.last_or "" (PyStr.split_on "."%char domain) in
   domain_ext <> "edu"%string /\ domain_ext <> "gov"%string) ->
  assess_source_quality current_year s = Ok q ->
  q <= 6 # 10.
Proof.
  intros Hty Hyear Hdom Hle [Hedu Hgov] Hq.
  apply assess_source_quality_inv in Hq as (f & Hfresh & ->).
  rewrite Hty, Hdom. rewrite Hyear in Hfresh.
  change (default current_year (Some year)) with year in Hfresh.
  change (default "unknown"%string (Some "unknown"%string)) with "unknown"%string.
  change (default ""%string (Some domain)) with domain.
  eapply Qle_trans; [apply Q.le_min_r|].
  set (ext := PyStr.last_or "" _) in *.
  assert (Hd : 0 <= dict_get reputable_domains ext (3 # 10) <= 7 # 10).
  { unfold dict_get, reputable_domains.
    rewrite lookup_insert_ne by congruence. rewrite lookup_insert_ne by congruence.
    change (0 <= dict_get (<["org" := 7 # 10]> (<["com" := 5 # 10]> ∅)) ext (3 # 10)
            <= 7 # 10).
    apply dict_get_bounds; [|split; discriminate].
    repeat (apply map_Forall_insert_2; [split; discriminate|]).
    apply map_Forall_empty. }
  set (d := dict_get reputable_domains _ _) in *.
  change (dict_get source_types "unknown" (2 # 10)) with (2 # 10).
  assert (Hf : f <= 1).
  { pose proof (freshness_score_cases current_year year) as C.
    rewrite Hfresh in C. destruct C as [-> _].
    apply Q.max_lub; [discriminate|].
    assert (H : 0 <= inject_Z (current_year - year))
      by (change 0 with (inject_Z 0); rewrite <- Zle_Qle; lia).
    assert (Hd10 : 0 <= inject_Z (current_year - year) / 10)
      by (unfold Qdiv; apply Qmult_le_0_compat; [exact H | discriminate]).
    set (y := inject_Z (current_year - year) / 10) in *. lra. }
  apply Qle_shift_div_r; [reflexivity|]. lra.
Qed.

(** Sources capped at 0.6 never earn the first reason. *)
Lemma no_high_quality_reason current_year sources c rs :
  calculate_confidence current_year sources = Ok (c, rs) ->
  Forall (fun s => forall q, assess_source_quality current_year s = Ok q -> q <= 6 # 10)
         sources ->
  ~ In "High-quality sources found"%string rs.
Proof.
  intros H Hcap. destruct sources as [|s rest].
  - injection H as _ <-. intros [E|[]]. discriminate E.
  - destruct (calculate_confidence_inv _ _ _ _ _ H)
      as (qs & consistency & Hqs & _ & _ & ->).
    set (scores := List.map Q2R qs).
    apply comprehension_ok in Hqs.
    assert (Hall : Forall (fun x => x <= 6 / 10)%R scores).
    { unfold scores. clear H. revert Hcap.
      induction Hqs as [|src q srcs qs' Hq _ IH]; intros Hcap; [constructor|].
      apply Forall_cons in Hcap as [Hsrc Hrest]. simpl. constructor; [|now apply IH].
      specialize (Hsrc q Hq).
      apply Qle_Rle in Hsrc. change (Q2R (6 # 10)) with (6 * / 10)%R in Hsrc. lra. }
    pose proof (sum_le_scaled scores (6 / 10) Hall) as Hsum.
    assert (Hpos : (0 < INR (List.length scores))%R).
    { apply lt_0_INR. unfold scores. rewrite List.length_map.
      rewrite <- (Forall2_length _ _ _ Hqs). simpl. lia. }
    assert (Havg : (sum scores / INR (List.length scores) <= 6 / 10)%R).
    { apply Rmult_le_reg_r with (r := INR (List.length scores)); [exact Hpos|].
      replace (sum scores / INR (List.length scores) * INR (List.length scores))%R
        with (sum scores) by (field; lra). lra. }
    rewrite !in_app_iff, !in_reason_if.
    intros [((p & _) & _)|[(_ & E)|(_ & E)]].
    + lra.
    + discriminate E.
    + now apply high_ne_multiple in E.
Qed.

End ConfidenceFacts.

Module SearchOutcome.
Import SearchFacts SearchMore.

Section Call.

Variable clock : nat -> Q.
Variable http : nat -> Outcome.
Variable current_year : Z.
Variable set_iter : gset string -> list string.

(** A completed call, as far as the extras below need it. *)
Lemma search_success self query role_context r m c rs :
  search clock http current_year set_iter self query role_context = Ok (r, m, c, rs) ->
  error m = None ->
  exists attempt body built sources,
    (attempt < max_retries self)%nat
    /\ http attempt = Responds body
    /\ Forall2 (built_from set_iter (query_terms_of query role_context))
               (web_results body) built
    /\ Forall2 (source_of current_year) (web_results body) sources
    /\ r = sort_by_relevance built
    /\ calculate_confidence current_year sources = Ok (c, rs)
    /\ results_count m = List.length r.
Proof.
  intros H Herr.
  destruct (search_cases _ _ _ _ _ _ _ _ _ _ _ H) as [(_ & st' & Htry)|(_ & _ & _ & e & st' & _ & He)];
    [|congruence].
  destruct (search_try_ok_inv _ _ _ _ _ _ _ _ _ _ _ _ _ _ Htry)
    as (body & s1 & built & sources & s2 & Hreq & Hloop & Hr & Hconf & Hm).
  destruct (retry_loop_body http self _ _ _ _ Hreq) as (attempt & Hin & Hbody).
  apply in_seq in Hin.
  destruct (process_results_ok _ _ _ _ _ _ _ _ _ _ _ Hloop)
    as (built' & srcs & Hb & Hs & HF & HS).
  simpl in Hb, Hs. subst built' srcs.
  exists attempt, body, built, sources.
  split; [lia|]. split; [exact Hbody|]. split; [exact HF|]. split; [exact HS|].
  split; [exact Hr|]. split; [exact Hconf|]. rewrite Hm. reflexivity.
Qed.

(** X9. When [search] returns without an error, its results are the
    results built from the body of one answered request, one per raw result,
    ranked by relevance, best first, with equally relevant results in the
    provider's order. *)
Theorem search_results_ranked self query role_context r m c rs :
  search clock http current_year set_iter self query role_context = Ok (r, m, c, rs) ->
  error m = None ->
  exists attempt body built,
    (attempt < max_retries self)%nat
    /\ http attempt = Responds body
    /\ Forall2 (built_from set_iter (query_terms_of query role_context))
               (web_results body) built
    /\ Permutation built r
    /\ descending r
    /\ forall v, with_score v r = with_score v built.
Proof.
  intros H Herr.
  destruct (search_success _ _ _ _ _ _ _ H Herr)
    as (attempt & body & built & sources & Hlt & Hbody & HF & _ & -> & _ & _).
  exists attempt, body, built.
  split; [exact Hlt|]. split; [exact Hbody|]. split; [exact HF|].
  split; [apply SortFacts.sort_perm|]. split; [apply SortFacts.sort_sorted|].
  intros v. apply SortFacts.with_score_sort.
Qed.

(** X10. When [search] returns without an error, [results_count] is the
    number of results returned, which is the number of raw results of the
    answered request, and every relevance score lies between 0 and 1. *)
Theorem search_success_metrics self query role_context r m c rs :
  search clock http current_year set_iter self query role_context = Ok (r, m, c, rs) ->
  error m = None ->
  results_count m = List.length r
  /\ (exists attempt body,
        http attempt = Responds body
        /\ List.length r = List.length (web_results body))
  /\ Forall (fun x => 0 <= sr_relevance_score x <= 1) r.
Proof.
  intros H Herr.
  destruct (search_success _ _ _ _ _ _ _ H Herr)
    as (attempt & body & built & sources & Hlt & Hbody & HF & _ & -> & _ & Hcount).
  split; [exact Hcount|]. split.
  - exists attempt, body. split; [exact Hbody|].
    rewrite <- (Permutation_length (SortFacts.sort_perm built)).
    symmetry. exact (Forall2_length _ _ _ HF).
  - apply (Permutation_Forall (SortFacts.sort_perm built)).
    clear -HF. induction HF as [|raw x raws xs (_ & _ & _ & Hrel) _ IH]; constructor;
      [|exact IH].
    pose proof (relevance_cases set_iter raw (query_terms_of query role_context)) as Hc.
    rewrite Hrel in Hc. tauto.
Qed.

(** X11. [search] reports "High-quality sources found" only if some raw
    result is dated in the future or comes from a '.edu' or '.gov' domain:
    the type of every source it builds is 'unknown', so the quality of the
    other sources is at most 0.6. *)
Theorem search_high_quality_needs_reputable self query role_context r m c rs :
  search clock http current_year set_iter self query role_context = Ok (r, m, c, rs) ->
  (forall attempt body, http attempt = Responds body ->
     Forall (ordinary current_year) (web_results body)) ->
  ~ In "High-quality sources found"%string rs.
Proof.
  intros H Hord.
  destruct (search_cases _ _ _ _ _ _ _ _ _ _ _ H)
    as [(Herr & _)|(_ & _ & -> & _)];
    [|intros [E|[]]; discriminate E].
  destruct (search_success _ _ _ _ _ _ _ H Herr)
    as (attempt & body & built & sources & _ & Hbody & _ & HS & _ & Hconf & _).
  apply (ConfidenceFacts.no_high_quality_reason current_year sources c rs Hconf).
  specialize (Hord attempt body Hbody).
  clear -HS Hord.
  induction HS as [|raw s raws ss (Hty & Hyear & url & dom & Hurl & Hnth & Hdom) _ IH];
    constructor.
  - inversion Hord as [|? ? (Hdate & Hext) _]; subst.
    intros q Hq.
    apply ConfidenceFacts.ordinary_quality_cap with
      (current_year := current_year) (s := s)
      (year := default current_year (r_date_published raw)) (domain := dom);
      [exact Hty | exact Hyear | exact Hdom | | exact (Hext url dom Hurl Hnth)
       | exact Hq].
    destruct (r_date_published raw) as [y|]; simpl; [now apply Hdate | lia].
  - apply IH. now inversion Hord.
Qed.

(** A pass over raw results one of which is malformed does not complete. *)
Lemma process_results_malformed start_time query_terms results acc st :
  Exists malformed results ->
  exists e st',
    process_results clock current_year set_iter start_time query_terms acc results st
    = (Raise e, st').
Proof.
  intros Hex.
  destruct (process_results clock current_year set_iter start_time query_terms acc
              results st) as [[[sr so]|e] st'] eqn:Hrun; [|eauto].
  exfalso.
  destruct (process_results_ok _ _ _ _ _ _ _ _ _ _ _ Hrun)
    as (built & srcs & _ & _ & HF & HS).
  clear -Hex HF HS. revert srcs HS.
  induction HF as [|raw x raws xs (Ht & Hu & Hd & _) _ IH]; intros srcs HS.
  - inversion Hex.
  - inversion HS as [|? s ? ss (_ & _ & url & dom & Hurl & Hnth & _) HS']; subst.
    inversion Hex as [? ? Hbad|? ? Hrest]; subst; [|now apply (IH Hrest ss)].
    destruct Hbad as [Hbad|[Hbad|[Hbad|(url' & Hurl' & Hnth')]]]; congruence.
Qed.

(** X12. One malformed raw result (no title, no description, no URL, or a
    URL with fewer than three '/'-separated pieces) in the body that
    [_make_request] returns makes the whole call fail: the caller gets no
    results at all, and an error is recorded. *)
Theorem search_malformed_result self query role_context (k : nat) (body : JsonBody) :
  (k < max_retries self)%nat ->
  (forall i, (i < k)%nat -> retriable (http i)) ->
  http k = Responds body ->
  Exists malformed (web_results body) ->
  exists m,
    search clock http current_year set_iter self query role_context
    = Ok ([], m, 0%R, ["No confidence assessment"%string])
    /\ error m <> None.
Proof.
  intros Hk Hretry Hbody Hbad.
  destruct (RetryFacts.retry_loop_first_success http self body (max_retries self) 0 k
              at_try) as (st1 & Hreq & _);
    [lia | exact Hk | intros i Hi; apply Hretry; lia | exact Hbody |].
  destruct (process_results_malformed (clock 0) (query_terms_of query role_context)
              (web_results body) ([], []) st1 Hbad) as (e & st' & Hloop).
  assert (Htry :
    search_try clock http current_year set_iter self query role_context (clock 0) at_try
    = (Raise e, st')).
  { unfold search_try, _get_cached_results, _make_request.
    unfold bind at 1. rewrite Hreq. unfold bind at 1. unfold ret at 1.
    unfold bind at 1. unfold query_terms_of in Hloop. now rewrite Hloop. }
  rewrite (search_failure_result _ _ _ _ _ _ _ _ _ Htry).
  eexists. split; [reflexivity|]. discriminate.
Qed.

(** X13. When every attempt times out, the caller of [search] gets the
    empty result with the message of the last timeout as the error. *)
Theorem search_timeouts_exhausted self query role_context (msg : nat -> string) :
  (0 < max_retries self)%nat ->
  (forall attempt, (attempt < max_retries self)%nat ->
     http attempt = TimesOut (msg attempt)) ->
  exists m,
    search clock http current_year set_iter self query role_context
    = Ok ([], m, 0%R, ["No confidence assessment"%string])
    /\ error m = Some (msg (max_retries self - 1)%nat).
Proof.
  intros Hpos Hall.
  destruct (make_request_timeouts_exhausted http self msg at_try Hpos Hall)
    as (st' & Hreq).
  pose proof (make_request_failure_propagates clock http current_year set_iter
                self query role_context (clock 0) at_try _ _ Hreq) as Htry.
  rewrite (search_failure_result _ _ _ _ _ _ _ _ _ Htry).
  eexists. split; reflexivity.
Qed.

(** X14. When every attempt is answered 429, [_make_request] returns
    [None] after the last sleep, and the error the caller of [search] sees
    is the attribute error on [None], not the rate limit. *)
Theorem search_rate_limited_throughout self query role_context :
  (forall attempt, (attempt < max_retries self)%nat ->
     exists msg, http attempt = StatusError 429 msg) ->
  fst (_make_request http self at_try) = Ok None
  /\ exists m,
       search clock http current_year set_iter self query role_context
       = Ok ([], m, 0%R, ["No confidence assessment"%string])
       /\ error m = Some "'NoneType' object has no attribute 'get'"%string.
Proof.
  intros Hall.
  destruct (RetryFacts.retry_loop_all_429 http self (max_retries self) 0 at_try)
    as (st' & Hreq); [intros i Hi; apply Hall; lia|].
  fold (_make_request http self at_try) in Hreq.
  split; [now rewrite Hreq|].
  assert (Htry :
    search_try clock http current_year set_iter self query role_context (clock 0) at_try
    = (Raise (AttributeError "'NoneType' object has no attribute 'get'"), st')).
  { unfold search_try, _get_cached_results.
    unfold bind at 1. rewrite Hreq. reflexivity. }
  rewrite (search_failure_result _ _ _ _ _ _ _ _ _ Htry).
  eexists. split; reflexivity.
Qed.

End Call.

End SearchOutcome.

(** ** Query enhancement *)

Lemma enhance_query_modifiers query role_context :
  _enhance_query query role_context
  = match flat_map (fun '(key, terms) =>
                      if existsb (fun term =>
                                    PyStr.contains term (PyStr.lower role_context)) terms
                      then firstn 1 terms else [])
                   modifiers with
    | [] => query
    | ms => (PyStr.join " " ms ++ " " ++ query)%string
    end.
Proof. unfold _enhance_query. cbv zeta. now destruct (flat_map _ _). Qed.

(** X15. [_enhance_query] only ever puts a prefix in front of the query,
    and the prefix is decided by the role context alone; when no modifier
    term occurs in the lower-cased context the query comes back as it is. *)
Theorem enhance_query_prefix (role_context : string) :
  (exists prefix, forall query,
     _enhance_query query role_context = (prefix ++ query)%string)
  /\ (no_modifier_term role_context ->
      forall query, _enhance_query query role_context = query).
Proof.
  split.
  - destruct (flat_map (fun '(key, terms) =>
                if existsb (fun term =>
                              PyStr.contains term (PyStr.lower role_context)) terms
                then firstn 1 terms else []) modifiers) as [|m ms] eqn:E.
    + exists ""%string. intros query. rewrite enhance_query_modifiers, E. reflexivity.
    + exists (PyStr.join " " (m :: ms) ++ " ")%string. intros query.
      rewrite enhance_query_modifiers, E. now rewrite PyStrFacts.append_assoc.
  - intros Hno query. rewrite enhance_query_modifiers.
    assert (E : flat_map (fun '(key, terms) =>
                if existsb (fun term =>
                              PyStr.contains term (PyStr.lower role_context)) terms
                then firstn 1 terms else []) modifiers = []).
    { unfold no_modifier_term in Hno. revert Hno.
      generalize modifiers as table.
      induction table as [|[key terms] rest IH]; intros Hno; [reflexivity|].
      simpl. rewrite IH by (intros k ts t Hin; apply (Hno k ts t); now right).
      assert (Hex : existsb (fun term =>
                 PyStr.contains term (PyStr.lower role_context)) terms = false).
      { apply not_true_is_false. intros Hex.
        apply existsb_exists in Hex as (t & Hin & Ht).
        rewrite (Hno key terms t (or_introl eq_refl) Hin) in Ht. discriminate Ht. }
      now rewrite Hex. }
    now rewrite E.
Qed.

(** X16. With the search context of the fact checker every query is
    searched as "fact check " followed by the query; with that of the
    research assistant, whose prompt contains none of the research terms,
    as "analysis " followed by the query. *)
Theorem enhance_query_of_roles (H : Type) (query : string) :
  _enhance_query query (BaseRole.get_search_context (@FactCheckerRole.__init__ H))
  = ("fact check " ++ query)%string
  /\ _enhance_query query (BaseRole.get_search_context (@ResearchAssistant.__init__ H))
     = ("analysis " ++ query)%string.
Proof.
  split; rewrite enhance_query_modifiers;
    match goal with |- match ?f with _ => _ end = _ =>
      let v := eval vm_compute in f in change f with v
    end; reflexivity.
Qed.

(** ** Evidence list, once more *)

Lemma collect_distinct results : forall seen,
  List.NoDup (List.map sr_url results) ->
  (forall u, In u (List.map sr_url results) -> u ∉ seen) ->
  collect seen results = List.map Roles.evidence_point results.
Proof.
  induction results as [|r rest IH]; intros seen Hnd Hfresh; [reflexivity|].
  simpl in *. apply NoDup_cons_iff in Hnd as [Hnotin Hnd].
  destruct (decide (sr_url r ∈ seen)) as [Hin|_].
  - exfalso. exact (Hfresh _ (or_introl eq_refl) Hin).
  - f_equal. apply IH; [exact Hnd|].
    intros u Hu Hseen. apply elem_of_union in Hseen as [Hseen|Hseen].
    + apply elem_of_singleton in Hseen. subst u. contradiction.
    + exact (Hfresh u (or_intror Hu) Hseen).
Qed.

Lemma collect_length results : forall seen,
  (List.length (collect seen results) <= List.length results)%nat.
Proof.
  induction results as [|r rest IH]; intros seen; simpl; [lia|].
  destruct (decide _); simpl; [specialize (IH seen) | specialize (IH ({[sr_url r]} ∪ seen))];
    lia.
Qed.

(** X17. The evidence list never has more entries than there are results,
    and when the results have pairwise different URLs nothing is dropped:
    it has one entry per result, in the order of the results. *)
Theorem evidence_points_lossless (results : list SearchResult) :
  (List.length (Roles.evidence_points results) <= List.length results)%nat
  /\ (List.NoDup (List.map sr_url results) ->
      Roles.evidence_points results = List.map Roles.evidence_point results).
Proof.
  rewrite RolesFacts.evidence_points_collect. split; [apply collect_length|].
  intros Hnd. apply collect_distinct; [exact Hnd|].
  intros u _ Hin. now apply not_elem_of_empty in Hin.
Qed.

(** ** Substrings *)

Module ContainsFacts.
Import PyStrFacts.

Lemma startswith_app p s : PyStr.startswith p (p ++ s) = true.
Proof.
  induction p as [|c r IH]; [reflexivity|].
  rewrite append_cons. simpl. now rewrite Ascii.eqb_refl, IH.
Qed.

Lemma startswith_app_l p s b :
  PyStr.startswith p s = true -> PyStr.startswith p (s ++ b) = true.
Proof.
  revert s. induction p as [|c r IH]; intros s H; [reflexivity|].
  destruct s as [|d s']; [discriminate H|].
  rewrite append_cons. simpl in *. apply andb_true_iff in H as [Hc Hr].
  now rewrite Hc, (IH _ Hr).
Qed.

Lemma contains_startswith p s :
  PyStr.startswith p s = true -> PyStr.contains p s = true.
Proof. intros H. destruct s; simpl; now rewrite H. Qed.

Lemma contains_app_r p a s :
  PyStr.contains p s = true -> PyStr.contains p (a ++ s) = true.
Proof.
  intros H. induction a as [|c r IH]; [exact H|].
  rewrite append_cons. simpl. rewrite IH. apply orb_true_r.
Qed.

Lemma contains_app_l p s b :
  PyStr.contains p s = true -> PyStr.contains p (s ++ b) = true.
Proof.
  induction s as [|c r IH]; intros H.
  - simpl in H. rewrite orb_false_r in H. apply contains_startswith.
    now apply (startswith_app_l p "" b).
  - rewrite append_cons. simpl in *. apply orb_true_iff in H as [H|H].
    + apply (startswith_app_l p (String c r) b) in H. rewrite append_cons in H.
      now rewrite H.
    + rewrite (IH H). apply orb_true_r.
Qed.

Lemma contains_refl p : PyStr.contains p p = true.
Proof.
  apply contains_startswith. rewrite <- (append_nil_r p) at 2. apply startswith_app.
Qed.

Lemma contains_join sep x l : In x l -> PyStr.contains x (PyStr.join sep l) = true.
Proof.
  induction l as [|y rest IH]; intros Hin; [contradiction|].
  destruct rest as [|z rest'].
  - destruct Hin as [->|[]]. apply contains_refl.
  - change (PyStr.join sep (y :: z :: rest'))
      with (y ++ sep ++ PyStr.join sep (z :: rest'))%string.
    destruct Hin as [->|Hin].
    + apply contains_app_l, contains_refl.
    + apply contains_app_r, contains_app_r, IH, Hin.
Qed.

End ContainsFacts.

(** ** The completion request *)

(** X18. [get_response] sends the provider a system message and a user
    message; the user message contains the query and, for every search
    result, its block of title, URL and description. *)
Theorem prompt_carries_results (current_time system_prompt user_query : string)
    (search_results : list SearchResult) :
  exists system user,
    Completion.build_messages current_time system_prompt user_query search_results
    = [system; user]
    /\ Completion.msg_role system = "system"%string
    /\ Completion.msg_role user = "user"%string
    /\ PyStr.contains user_query (Completion.msg_content user) = true
    /\ forall result, In result search_results ->
         PyStr.contains (Completion.format_result result) (Completion.msg_content user)
         = true.
Proof.
  eexists _, _. split; [reflexivity|]. split; [reflexivity|]. split; [reflexivity|].
  cbn [Completion.msg_content]. split.
  - apply ContainsFacts.contains_app_r, ContainsFacts.contains_app_l,
      ContainsFacts.contains_refl.
  - intros result Hin.
    do 5 apply ContainsFacts.contains_app_r.
    apply ContainsFacts.contains_join. now apply List.in_map.
Qed.

(** ** A query through a role *)

Module ProcessQueryFacts.
Import ProcessQuery SearchFacts SearchMore.

Section Pipeline.

Variable clock : nat -> Q.
Variable http : nat -> Outcome.
Variable current_year : Z.
Variable set_iter : gset string -> list string.
Variable OpenAIClient : Type.
Variable create :
  OpenAIClient -> string -> list Completion.Message -> res Completion.ChatCompletion.
Variable current_time : string.

Lemma search_then_complete_run {P : Type} (self : Role OpenAIClient)
    (parser : string -> P) query c h r m score rs response raw rest :
  BaseRole.web_search self = Some c ->
  BaseRole.llm self = Some h ->
  search clock http current_year set_iter c query (BaseRole.get_search_context self)
  = Ok (r, m, score, rs) ->
  create (LLMHandler.client h) (LLMHandler.model_name h)
         (Completion.build_messages current_time (BaseRole.system_prompt self) query r)
  = Ok response ->
  Completion.choices response = raw :: rest ->
  (Z.abs (Completion.total_tokens response) < float_limit)%Z ->
  search_then_complete clock http current_year set_iter OpenAIClient create current_time
    self parser query
  = Ok (r, m, Completion.mkLLMResponse raw (parser raw)
                (inject_Z (Completion.total_tokens response) / 1000)).
Proof.
  intros Hc Hh Hsearch Hcreate Hchoices Htokens.
  unfold search_then_complete, the_search, the_llm. rewrite Hc, Hh.
  cbn [mbind res_mbind res_bind].
  rewrite Hsearch. cbn [mbind res_mbind res_bind].
  unfold Completion.get_response. rewrite Hcreate. cbn [mbind res_mbind res_bind].
  rewrite Hchoices. cbn [mbind res_mbind res_bind].
  unfold int_to_float.
  destruct (Z.leb_spec float_limit (Z.abs (Completion.total_tokens response)));
    [lia | reflexivity].
Qed.

(** X19. A failed search does not stop a role: when the [try] block of
    [search] raises [e] and the provider of completions answers the
    request that lists no search results (with a token count that fits a
    float, which [get_response] divides by 1000.0), [process_query] of
    either role returns the display text built around that answer, with no
    evidence entry, together with metrics whose [error] is [str(e)]. *)
Theorem process_query_after_failed_search (self : Role OpenAIClient) query c h e st'
    response raw rest :
  BaseRole.web_search self = Some c ->
  BaseRole.llm self = Some h ->
  search_try clock http current_year set_iter c query
    (BaseRole.get_search_context self) (clock 0) at_try = (Raise e, st') ->
  create (LLMHandler.client h) (LLMHandler.model_name h)
         (Completion.build_messages current_time (BaseRole.system_prompt self) query [])
  = Ok response ->
  Completion.choices response = raw :: rest ->
  (Z.abs (Completion.total_tokens response) < float_limit)%Z ->
  exists m,
    error m = Some (str_exn e)
    /\ fact_checker_process_query clock http current_year set_iter OpenAIClient create
         current_time self query
       = Ok (Roles.fact_checker_display query raw [], m)
    /\ research_assistant_process_query clock http current_year set_iter OpenAIClient
         create current_time self query
       = Ok (Roles.research_assistant_display raw [], m).
Proof.
  intros Hc Hh Htry Hcreate Hchoices Htokens.
  pose proof (search_failure_result _ _ _ _ _ _ _ _ _ Htry) as Hsearch.
  eexists. split; [|split].
  2: { unfold fact_checker_process_query.
       rewrite (search_then_complete_run self FactChecker.parse_llm_response
                  _ _ _ _ _ _ _ _ _ _ Hc Hh Hsearch Hcreate Hchoices Htokens).
       reflexivity. }
  2: { unfold research_assistant_process_query.
       rewrite (search_then_complete_run self ResearchAssistant.parse_llm_response
                  _ _ _ _ _ _ _ _ _ _ Hc Hh Hsearch Hcreate Hchoices Htokens).
       reflexivity. }
  reflexivity.
Qed.

(** X20. A failed completion does stop a role: when the provider of
    completions raises [e] on every request, [process_query] of either
    role raises [e], whatever the search returned; and for a role that was
    not initialised either [process_query] raises the attribute error on
    [None] before any search. *)
Theorem process_query_completion_failure (self : Role OpenAIClient) query e :
  (forall c h,
     BaseRole.web_search self = Some c ->
     BaseRole.llm self = Some h ->
     (forall messages,
        create (LLMHandler.client h) (LLMHandler.model_name h) messages = Raise e) ->
     fact_checker_process_query clock http current_year set_iter OpenAIClient create
       current_time self query = Raise e
     /\ research_assistant_process_query clock http current_year set_iter OpenAIClient
          create current_time self query = Raise e)
  /\ (BaseRole.web_search self = None ->
      fact_checker_process_query clock http current_year set_iter OpenAIClient create
        current_time self query
      = Raise (AttributeError "'NoneType' object has no attribute 'search'")
      /\ research_assistant_process_query clock http current_year set_iter OpenAIClient
           create current_time self query
         = Raise (AttributeError "'NoneType' object has no attribute 'search'")).
Proof.
  split.
  - intros c h Hc Hh Hcreate.
    destruct (search_total clock http current_year set_iter c query
                (BaseRole.get_search_context self)) as ([[[r m] score] rs] & Hsearch).
    split.
    + unfold fact_checker_process_query, search_then_complete, the_search, the_llm.
      rewrite Hc, Hh. simpl. rewrite Hsearch. simpl.
      unfold Completion.get_response. now rewrite Hcreate.
    + unfold research_assistant_process_query, search_then_complete, the_search, the_llm.
      rewrite Hc, Hh. simpl. rewrite Hsearch. simpl.
      unfold Completion.get_response. now rewrite Hcreate.
  - intros Hnone.
    unfold fact_checker_process_query, research_assistant_process_query,
      search_then_complete, the_search.
    now rewrite Hnone.
Qed.

End Pipeline.

End ProcessQueryFacts.

(** ** Lines *)

Module LineFacts.
Import PyStrFacts.

Lemma linefree_app a b : linefree (a ++ b) = linefree a && linefree b.
Proof.
  induction a as [|c a IH]; [now rewrite append_nil_l|].
  rewrite append_cons. simpl. rewrite IH. now rewrite andb_assoc.
Qed.

Lemma split_on_line l : linefree l = true -> PyStr.split_on PyStr.nl l = [l].
Proof.
  induction l as [|c r IH]; intros H; [reflexivity|].
  simpl in *. apply andb_true_iff in H as [Hc Hr]. apply negb_true_iff in Hc.
  rewrite Hc, (IH Hr). reflexivity.
Qed.

Lemma split_on_cons_line l rest :
  linefree l = true ->
  PyStr.split_on PyStr.nl (l ++ Roles.NL ++ rest) = l :: PyStr.split_on PyStr.nl rest.
Proof.
  induction l as [|c r IH]; intros H.
  - reflexivity.
  - simpl in H. apply andb_true_iff in H as [Hc Hr]. apply negb_true_iff in Hc.
    rewrite append_cons. simpl. rewrite Hc, (IH Hr). reflexivity.
Qed.

(** [text.split('\n')] undoes ['\n'.join(lines)] when no line holds a line
    feed. *)
Lemma split_join lines :
  lines <> [] -> Forall (fun l => linefree l = true) lines ->
  PyStr.split_on PyStr.nl (PyStr.join Roles.NL lines) = lines.
Proof.
  intros Hne Hall. induction Hall as [|l rest Hl Hrest IH]; [congruence|].
  destruct rest as [|l' rest'].
  - now apply split_on_line.
  - change (PyStr.join Roles.NL (l :: l' :: rest'))
      with (l ++ Roles.NL ++ PyStr.join Roles.NL (l' :: rest'))%string.
    rewrite (split_on_cons_line _ _ Hl). f_equal. apply IH. discriminate.
Qed.

Lemma rstrip_app x v :
  v <> EmptyString -> PyStr.rstrip v = v -> PyStr.rstrip (x ++ v) = (x ++ v)%string.
Proof.
  intros Hne Hv. induction x as [|c r IH]; [exact Hv|].
  rewrite append_cons. simpl. rewrite IH.
  destruct (r ++ v)%string eqn:E; [|reflexivity].
  destruct r; [|discriminate E]. rewrite append_nil_l in E. congruence.
Qed.

Lemma strip_trimmed v : trimmed v -> PyStr.strip v = v.
Proof. intros [Hl Hr]. unfold PyStr.strip. now rewrite Hl, Hr. Qed.

(** A text that begins with a character that is not blank and ends with a
    trimmed, non-empty one is trimmed. *)
Lemma strip_headed c x v :
  PyStr.isspace c = false -> v <> EmptyString -> PyStr.rstrip v = v ->
  PyStr.strip (String c x ++ v) = (String c x ++ v)%string.
Proof.
  intros Hc Hne Hv. unfold PyStr.strip.
  rewrite append_cons. simpl PyStr.lstrip. rewrite Hc.
  rewrite <- append_cons. now apply rstrip_app.
Qed.

Lemma replace_aux_absent old new : forall fuel s,
  PyStr.contains old s = false -> PyStr.replace_aux fuel old new s = s.
Proof.
  induction fuel as [|fuel IH]; intros s H; [reflexivity|].
  destruct s as [|c r]; [reflexivity|].
  simpl in *. apply orb_false_iff in H as [Hsw Hrest].
  rewrite Hsw. now rewrite (IH r Hrest).
Qed.

Lemma drop_app p s : PyStr.drop (String.length p) (p ++ s) = s.
Proof. induction p as [|c r IH]; [reflexivity|]. rewrite append_cons. simpl. exact IH. Qed.

(** Removing a header that occurs once, at the front. *)
Lemma replace_header c h rest :
  PyStr.contains (String c h) rest = false ->
  PyStr.replace (String c h) "" (String c h ++ rest) = rest.
Proof.
  intros H. unfold PyStr.replace.
  rewrite append_cons. simpl String.length. cbn [PyStr.replace_aux].
  rewrite <- append_cons. rewrite ContainsFacts.startswith_app.
  rewrite drop_app. rewrite append_nil_l. now apply replace_aux_absent.
Qed.

End LineFacts.

(** ** The fact checker's parser *)

Module FactCheckerParse.
Import Roles FactChecker Layouts PyStrFacts LineFacts.

Lemma parse_content_line st l key :
  fc_content_line l -> current_section st = Some key ->
  parse_line st l = store_content (append_line l st).
Proof.
  intros (Hne & Htrim & _ & Hfree) Hcur. unfold parse_line.
  rewrite (strip_trimmed _ Htrim).
  destruct l as [|c r]; [congruence|]. cbn [String.eqb].
  unfold dispatch. unfold fc_headerfree in Hfree.
  repeat (apply andb_true_iff in Hfree as [Hfree ?]).
  repeat match goal with H : negb _ = true |- _ => apply negb_true_iff in H; rewrite H; clear H end.
  now rewrite Hcur.
Qed.

Lemma set_explanation_twice a b s :
  set_explanation a (set_explanation b s) = set_explanation a s.
Proof. reflexivity. Qed.
Lemma set_context_twice a b s : set_context a (set_context b s) = set_context a s.
Proof. reflexivity. Qed.
Lemma set_references_twice a b s :
  set_references a (set_references b s) = set_references a s.
Proof. reflexivity. Qed.

Lemma app_snoc_nonempty {A} (c : list A) (l : A) : (c ++ [l])%list <> [].
Proof. destruct c; discriminate. Qed.

Lemma explanation_lines ls : forall c secs,
  Forall fc_content_line ls ->
  fold_left parse_line ls (mkParseState secs (Some explanation_key) c false)
  = mkParseState
      (match ls with
       | [] => secs
       | _ => set_explanation (PyStr.join NL (c ++ ls)) secs
       end) (Some explanation_key) (c ++ ls) false.
Proof.
  induction ls as [|l rest IH]; intros c secs Hall.
  - simpl. now rewrite app_nil_r.
  - inversion Hall as [|? ? Hl Hrest]; subst. cbn [fold_left].
    rewrite (parse_content_line (mkParseState secs (Some explanation_key) c false)
               l explanation_key Hl eq_refl).
    unfold append_line, store_content. cbn [section_content refs_shared current_section sections].
    destruct (c ++ [l])%list as [|x xs] eqn:E; [now apply app_snoc_nonempty in E|].
    rewrite <- E. rewrite (IH _ _ Hrest). rewrite <- app_assoc. simpl.
    destruct rest; reflexivity.
Qed.

Lemma context_lines ls : forall c secs,
  Forall fc_content_line ls ->
  fold_left parse_line ls (mkParseState secs (Some context_key) c false)
  = mkParseState
      (match ls with
       | [] => secs
       | _ => set_context (PyStr.join NL (c ++ ls)) secs
       end) (Some context_key) (c ++ ls) false.
Proof.
  induction ls as [|l rest IH]; intros c secs Hall.
  - simpl. now rewrite app_nil_r.
  - inversion Hall as [|? ? Hl Hrest]; subst. cbn [fold_left].
    rewrite (parse_content_line (mkParseState secs (Some context_key) c false)
               l context_key Hl eq_refl).
    unfold append_line, store_content. cbn [section_content refs_shared current_section sections].
    destruct (c ++ [l])%list as [|x xs] eqn:E; [now apply app_snoc_nonempty in E|].
    rewrite <- E. rewrite (IH _ _ Hrest). rewrite <- app_assoc. simpl.
    destruct rest; reflexivity.
Qed.

Lemma references_lines ls : forall c secs shared,
  Forall fc_content_line ls ->
  fold_left parse_line ls (mkParseState secs (Some references_key) c shared)
  = mkParseState
      (match ls with
       | [] => secs
       | _ => set_references (c ++ ls) secs
       end) (Some references_key) (c ++ ls)
      (match ls with [] => shared | _ => true end).
Proof.
  induction ls as [|l rest IH]; intros c secs shared Hall.
  - simpl. now rewrite app_nil_r.
  - inversion Hall as [|? ? Hl Hrest]; subst. cbn [fold_left].
    rewrite (parse_content_line (mkParseState secs (Some references_key) c shared)
               l references_key Hl eq_refl).
    unfold append_line, store_content. cbn [section_content refs_shared current_section sections].
    destruct (c ++ [l])%list as [|x xs] eqn:E; [now apply app_snoc_nonempty in E|].
    rewrite <- E. rewrite (IH _ _ _ Hrest). rewrite <- app_assoc. simpl.
    destruct shared; destruct rest; reflexivity.
Qed.

Lemma verdict_line st v :
  v <> EmptyString -> inline_text "VERDICT:" v -> section_content st = [] ->
  parse_line st ("VERDICT: " ++ v)
  = mkParseState (set_verdict v (sections st)) (Some verdict_key) [] (refs_shared st).
Proof.
  intros Hne ((Hl & Hr) & _ & Habsent) Hcontent.
  set (line := ("VERDICT: " ++ v)%string).
  assert (Hline : line = ("VERDICT:" ++ (" " ++ v))%string) by reflexivity.
  assert (Hstrip : PyStr.strip line = line)
    by (apply (strip_headed "V" "ERDICT: " v); [reflexivity | exact Hne | exact Hr]).
  assert (Heqb : String.eqb line "" = false) by reflexivity.
  assert (Hsw : PyStr.startswith "VERDICT:" line = true)
    by (rewrite Hline; apply ContainsFacts.startswith_app).
  assert (Hrep : PyStr.strip (PyStr.replace "VERDICT:" "" line) = v).
  { rewrite Hline. rewrite (replace_header "V" "ERDICT:" (" " ++ v)).
    - unfold PyStr.strip. rewrite append_cons, append_nil_l. simpl. now rewrite Hl, Hr.
    - rewrite append_cons, append_nil_l. simpl. rewrite Habsent.
      destruct v; reflexivity. }
  clearbody line.
  unfold parse_line. rewrite Hstrip, Heqb. unfold dispatch. rewrite Hsw, Hrep.
  unfold enter_inline, store_content. simpl. rewrite Hcontent.
  destruct st; simpl in *. now subst.
Qed.

Lemma linefree_content l : fc_content_line l -> linefree l = true.
Proof. now intros (_ & _ & H & _). Qed.

(** X21. A response laid out as a verdict on its header line followed by
    the sections EXPLANATION, CONTEXT and REFERENCES as lines under their
    headers is read back exactly: the verdict, the lines of explanation
    and of context joined by line feeds, and the reference lines as a
    list. *)
Theorem fact_check_layout_read_back
    (v : string) (explanation_lines_ context_lines_ reference_lines_ : list string) :
  v <> EmptyString -> inline_text "VERDICT:" v ->
  Forall fc_content_line explanation_lines_ ->
  Forall fc_content_line context_lines_ ->
  Forall fc_content_line reference_lines_ ->
  parse_llm_response
    (fc_document v explanation_lines_ context_lines_ reference_lines_)
  = mkSections v (PyStr.join NL explanation_lines_) (PyStr.join NL context_lines_)
               reference_lines_ "" "".
Proof.
  intros Hne Hv He Hc Hr. unfold parse_llm_response, fc_document.
  rewrite split_join.
  2: discriminate.
  2: { destruct Hv as (_ & Hvfree & _).
       constructor; [rewrite linefree_app, Hvfree; reflexivity|].
       constructor; [reflexivity|].
       apply Forall_app. split; [eapply List.Forall_impl; [|exact He]; apply linefree_content|].
       constructor; [reflexivity|].
       apply Forall_app. split; [eapply List.Forall_impl; [|exact Hc]; apply linefree_content|].
       constructor; [reflexivity|].
       eapply List.Forall_impl; [|exact Hr]. apply linefree_content. }
  cbn [app fold_left].
  cbv zeta.
  rewrite (verdict_line (mkParseState (mkSections "" "" "" [] "" "") None [] false)
             v Hne Hv eq_refl).
  cbn [sections refs_shared].
  change (parse_line ?st "EXPLANATION:") with (enter_block explanation_key st).
  unfold enter_block at 1. cbn [sections].
  rewrite fold_left_app, (explanation_lines _ [] _ He). cbn [fold_left].
  change (parse_line ?st "CONTEXT:") with (enter_block context_key st).
  unfold enter_block at 1. cbn [sections].
  rewrite fold_left_app, (context_lines _ [] _ Hc). cbn [fold_left].
  change (parse_line ?st "REFERENCES:") with (enter_block references_key st).
  unfold enter_block at 1. cbn [sections].
  rewrite (references_lines _ [] _ _ Hr). cbn [sections app].
  destruct explanation_lines_, context_lines_, reference_lines_; reflexivity.
Qed.

End FactCheckerParse.

(** ** The research assistant's parser *)

Module ResearchParse.
Import Roles ResearchAssistant Layouts PyStrFacts LineFacts.

Lemma inline_line c h v :
  Ascii.eqb c " " = false -> inline_text (String c h) v ->
  PyStr.strip (PyStr.replace (String c h) "" (String c h ++ " " ++ v)) = v.
Proof.
  intros Hc ((Hl & Hr) & _ & Habsent).
  rewrite (replace_header c h (" " ++ v)).
  - unfold PyStr.strip. rewrite append_cons, append_nil_l. simpl. now rewrite Hl, Hr.
  - rewrite append_cons, append_nil_l.
    change (PyStr.contains (String c h) (String " " v))
      with (Ascii.eqb c " " && PyStr.startswith h v || PyStr.contains (String c h) v).
    now rewrite Hc, Habsent.
Qed.

Lemma summary_line secs cur s :
  inline_text "SUMMARY:" s ->
  parse_line (secs, cur) ("SUMMARY: " ++ s) = (set_summary s secs, Some summary_key).
Proof.
  intros Hs. unfold parse_line.
  change ("SUMMARY: " ++ s)%string with ("SUMMARY:" ++ " " ++ s)%string.
  rewrite ContainsFacts.startswith_app.
  now rewrite (inline_line "S" "UMMARY:" s eq_refl Hs).
Qed.

Lemma analysis_line secs cur a :
  inline_text "ANALYSIS:" a ->
  parse_line (secs, cur) ("ANALYSIS: " ++ a) = (set_analysis a secs, Some analysis_key).
Proof.
  intros Ha. unfold parse_line.
  replace (PyStr.startswith "SUMMARY:" ("ANALYSIS: " ++ a)) with false by reflexivity.
  change ("ANALYSIS: " ++ a)%string with ("ANALYSIS:" ++ " " ++ a)%string.
  rewrite ContainsFacts.startswith_app.
  now rewrite (inline_line "A" "NALYSIS:" a eq_refl Ha).
Qed.

Lemma headerfree_line secs cur l :
  ra_headerfree l = true ->
  parse_line (secs, cur) l
  = match PyStr.strip l, cur with
    | String _ _, Some key => (content_line l key secs, cur)
    | _, _ => (secs, cur)
    end.
Proof.
  unfold ra_headerfree, parse_line. intros H.
  apply andb_true_iff in H as [H H4]. apply andb_true_iff in H as [H H3].
  apply andb_true_iff in H as [H1 H2].
  apply negb_true_iff in H1, H2, H3, H4. now rewrite H1, H2, H3, H4.
Qed.

Lemma analysis_lines more : forall secs,
  Forall ra_analysis_line more ->
  fold_left parse_line more (secs, Some analysis_key)
  = (set_analysis (fold_left (fun acc l => acc ++ NL ++ l) more (analysis secs)) secs,
     Some analysis_key).
Proof.
  induction more as [|l rest IH]; intros secs Hall.
  - destruct secs; reflexivity.
  - apply Forall_cons in Hall as [(Hne & _ & Hfree) Hrest].
    cbn [fold_left]. rewrite (headerfree_line _ _ _ Hfree).
    destruct (PyStr.strip l) eqn:E; [congruence|].
    cbn [content_line]. rewrite (IH _ Hrest). destruct secs; reflexivity.
Qed.

Lemma fold_join sep rest : forall a,
  fold_left (fun acc l => acc ++ sep ++ l) rest a = PyStr.join sep (a :: rest).
Proof.
  induction rest as [|l rest IH]; intros a; [reflexivity|].
  cbn [fold_left]. rewrite IH.
  destruct rest as [|m rest]; [reflexivity|].
  change (PyStr.join sep ((a ++ sep ++ l) :: m :: rest))
    with ((a ++ sep ++ l) ++ sep ++ PyStr.join sep (m :: rest))%string.
  change (PyStr.join sep (a :: l :: m :: rest))
    with (a ++ sep ++ l ++ sep ++ PyStr.join sep (m :: rest))%string.
  now rewrite !append_assoc.
Qed.

Lemma bullet_strip k :
  bullet_text k -> PyStr.strip (bullet k) = bullet k.
Proof.
  intros (Hne & Hr & _). unfold bullet.
  change ("- " ++ k)%string with (String "-" " " ++ k)%string.
  now apply strip_headed.
Qed.

Lemma bullet_headerfree k : ra_headerfree (bullet k) = true.
Proof. reflexivity. Qed.

Lemma bullet_linefree k : bullet_text k -> linefree (bullet k) = true.
Proof. intros (_ & _ & H). exact H. Qed.

Lemma key_point_lines ks : forall secs,
  Forall bullet_text ks ->
  fold_left parse_line (List.map bullet ks) (secs, Some key_points_key)
  = (set_key_points (key_points secs ++ ks) secs, Some key_points_key).
Proof.
  induction ks as [|k rest IH]; intros secs Hall.
  - cbn. rewrite app_nil_r. destruct secs; reflexivity.
  - apply Forall_cons in Hall as [Hk Hrest].
    cbn [List.map fold_left]. rewrite (headerfree_line _ _ _ (bullet_headerfree k)).
    rewrite (bullet_strip k Hk).
    change (bullet k) with (String "-" (String " " k)).
    cbn [content_line].
    change (String "-" (String " " k)) with (bullet k). rewrite (bullet_strip k Hk).
    change (PyStr.startswith "- " (bullet k)) with true. cbv iota.
    change (after_bullet (bullet k)) with k.
    rewrite (IH _ Hrest). destruct secs; cbn. now rewrite <- app_assoc.
Qed.

Lemma source_lines ks : forall secs,
  Forall bullet_text ks ->
  fold_left parse_line (List.map bullet ks) (secs, Some sources_key)
  = (set_sources (sources secs ++ ks) secs, Some sources_key).
Proof.
  induction ks as [|k rest IH]; intros secs Hall.
  - cbn. rewrite app_nil_r. destruct secs; reflexivity.
  - apply Forall_cons in Hall as [Hk Hrest].
    cbn [List.map fold_left]. rewrite (headerfree_line _ _ _ (bullet_headerfree k)).
    rewrite (bullet_strip k Hk).
    change (bullet k) with (String "-" (String " " k)).
    cbn [content_line].
    change (String "-" (String " " k)) with (bullet k). rewrite (bullet_strip k Hk).
    change (PyStr.startswith "- " (bullet k)) with true. cbv iota.
    change (after_bullet (bullet k)) with k.
    rewrite (IH _ Hrest). destruct secs; cbn. now rewrite <- app_assoc.
Qed.

(** X22. A response laid out as the research assistant's prompt asks
    (summary and analysis on their header lines, further lines of
    analysis, then bulleted key points and bulleted sources under their
    headers) is read back exactly: the analysis is its first line and the
    further lines joined by line feeds, and the bullets lose their
    dash. *)
Theorem research_layout_read_back
    (s a : string) (more ks srcs : list string) :
  inline_text "SUMMARY:" s -> inline_text "ANALYSIS:" a ->
  Forall ra_analysis_line more ->
  Forall bullet_text ks -> Forall bullet_text srcs ->
  parse_llm_response (ra_document s a more ks srcs)
  = mkSections s (PyStr.join NL (a :: more)) ks srcs.
Proof.
  intros Hs Ha Hm Hk Hsrc. unfold parse_llm_response, ra_document.
  rewrite split_join.
  2: discriminate.
  2: { constructor.
       { destruct Hs as (_ & Hf & _). now rewrite linefree_app, Hf. }
       constructor.
       { destruct Ha as (_ & Hf & _). now rewrite linefree_app, Hf. }
       apply Forall_app. split.
       { eapply List.Forall_impl; [|exact Hm]. now intros l (_ & Hf & _). }
       constructor; [reflexivity|].
       apply Forall_app. split.
       { apply List.Forall_map. eapply List.Forall_impl; [|exact Hk].
         apply bullet_linefree. }
       constructor; [reflexivity|].
       apply List.Forall_map. eapply List.Forall_impl; [|exact Hsrc].
       apply bullet_linefree. }
  cbn [app fold_left].
  rewrite (summary_line _ _ s Hs), (analysis_line _ _ a Ha).
  rewrite fold_left_app, (analysis_lines _ _ Hm). cbn [fold_left].
  change (parse_line (?secs, ?cur) "KEY_POINTS:") with (secs, Some key_points_key).
  rewrite fold_left_app, (key_point_lines _ _ Hk). cbn [fold_left].
  change (parse_line (?secs, ?cur) "SOURCES:") with (secs, Some sources_key).
  rewrite (source_lines _ _ Hsrc). cbn. now rewrite fold_join.
Qed.

Lemma headerfree_lines lines : forall secs,
  Forall (fun l => ra_headerfree l = true) lines ->
  fold_left parse_line lines (secs, None) = (secs, None).
Proof.
  induction lines as [|l rest IH]; intros secs Hall; [reflexivity|].
  apply Forall_cons in Hall as [Hl Hrest].
  cbn [fold_left]. rewrite (headerfree_line _ _ _ Hl).
  destruct (PyStr.strip l); now apply IH.
Qed.

(** X23. A response none of whose lines starts with one of the four
    headers is parsed to the empty sections, and [format_response] then
    returns the empty string: the text of the response is dropped, the
    [<pre>] fallback is not taken. *)
Theorem research_format_response_headerless (response : string) :
  Forall (fun l => ra_headerfree l = true) (PyStr.split_on PyStr.nl response) ->
  parse_llm_response response = mkSections "" "" [] []
  /\ format_response (FactChecker.PyStr response) = "".
Proof.
  intros Hall.
  assert (Hparse : parse_llm_response response = mkSections "" "" [] []).
  { unfold parse_llm_response. now rewrite (headerfree_lines _ _ Hall). }
  split; [exact Hparse|].
  unfold format_response, format_response_try. cbn [splittable mbind].
  simpl. now rewrite Hparse.
Qed.

End ResearchParse.

(** ** Runs of the further properties on concrete inputs *)

Module MoreRuns.
Import SearchFacts Roles Layouts Samples.

(** Four sources: the third reason is given. *)
Lemma confidence_multiple_sources_reason_witness :
  exists c rs,
    calculate_confidence 2026 four_sources = Ok (c, rs)
    /\ In (multiple_sources_reason 4) rs.
Proof.
  eexists _, _. split; [reflexivity|].
  apply (ConfidenceFacts.confidence_multiple_sources_reason 2026 four_sources
           _ _ eq_refl).
  simpl. lia.
Defined.

(** Two raw results, the less relevant one first: the call ranks them. *)
Lemma search_results_ranked_witness :
  exists r m c rs,
    search seconds (answers [tea_result; coffee_result]) 2026 elements built_client
           "coffee" "fact check"
    = Ok (r, m, c, rs)
    /\ descending r.
Proof.
  eexists _, _, _, _. split; [reflexivity|].
  edestruct (SearchOutcome.search_results_ranked seconds
               (answers [tea_result; coffee_result]) 2026 elements built_client
               "coffee" "fact check")
    as (attempt & body & built & _ & _ & _ & _ & Hsorted & _);
    [reflexivity | reflexivity | exact Hsorted].
Defined.

(** One raw result: it is counted. *)
Lemma search_success_metrics_witness :
  exists r m c rs,
    search seconds (answers [coffee_result]) 2026 elements built_client
           "coffee" "fact check"
    = Ok (r, m, c, rs)
    /\ results_count m = List.length r.
Proof.
  eexists _, _, _, _. split; [reflexivity|].
  edestruct (SearchOutcome.search_success_metrics seconds (answers [coffee_result])
               2026 elements built_client "coffee" "fact check")
    as (Hcount & _); [reflexivity | reflexivity | exact Hcount].
Defined.

(** Two results from '.com' and '.org' domains, one not dated and one
    dated 2020. *)
Lemma search_high_quality_needs_reputable_witness :
  exists r m c rs,
    search seconds (answers [tea_result; coffee_result]) 2026 elements built_client
           "coffee" "analysis"
    = Ok (r, m, c, rs)
    /\ ~ In "High-quality sources found"%string rs.
Proof.
  eexists _, _, _, _. split; [reflexivity|].
  apply (SearchOutcome.search_high_quality_needs_reputable seconds
           (answers [tea_result; coffee_result]) 2026 elements built_client
           "coffee" "analysis" _ _ _ _ eq_refl).
  intros attempt body Hbody. injection Hbody as <-.
  constructor; [|constructor; [|constructor]]; split.
  - intros y Hy. discriminate Hy.
  - intros u d Hurl Hdomain. injection Hurl as <-.
    vm_compute in Hdomain. injection Hdomain as <-. split; discriminate.
  - intros y Hy. injection Hy as <-. lia.
  - intros u d Hurl Hdomain. injection Hurl as <-.
    vm_compute in Hdomain. injection Hdomain as <-. split; discriminate.
Defined.

(** A raw result without a title after a well-formed one. *)
Lemma search_malformed_result_witness :
  exists m,
    search seconds (answers [tea_result; untitled_result]) 2026 elements built_client
           "coffee" "fact check"
    = Ok ([], m, 0%R, ["No confidence assessment"%string])
    /\ error m <> None.
Proof.
  apply (SearchOutcome.search_malformed_result seconds
           (answers [tea_result; untitled_result]) 2026 elements built_client
           "coffee" "fact check" 0%nat (mkJsonBody [tea_result; untitled_result])).
  - simpl. lia.
  - intros i Hi. lia.
  - reflexivity.
  - apply Exists_cons_tl, Exists_cons_hd. left. reflexivity.
Defined.

(** Both attempts time out. *)
Lemma search_timeouts_exhausted_witness :
  exists m,
    search seconds (always (TimesOut "timed out")) 2026 elements built_client
           "coffee" "research"
    = Ok ([], m, 0%R, ["No confidence assessment"%string])
    /\ error m = Some "timed out"%string.
Proof.
  apply (SearchOutcome.search_timeouts_exhausted seconds
           (always (TimesOut "timed out")) 2026 elements built_client
           "coffee" "research" (fun _ => "timed out"%string)).
  - simpl. lia.
  - intros attempt _. reflexivity.
Defined.

(** Both attempts are answered 429. *)
Lemma search_rate_limited_throughout_witness :
  fst (_make_request (always (StatusError 429 "Too Many Requests")) built_client at_try)
  = Ok None
  /\ exists m,
       search seconds (always (StatusError 429 "Too Many Requests")) 2026 elements
              built_client "coffee" "news"
       = Ok ([], m, 0%R, ["No confidence assessment"%string])
       /\ error m = Some "'NoneType' object has no attribute 'get'"%string.
Proof.
  apply (SearchOutcome.search_rate_limited_throughout seconds
           (always (StatusError 429 "Too Many Requests")) 2026 elements built_client
           "coffee" "news").
  intros attempt _. eexists. reflexivity.
Defined.

(** A context with no modifier term. *)
Lemma enhance_query_prefix_witness :
  _enhance_query "coffee trade" "You write poems" = "coffee trade"%string.
Proof.
  apply (proj2 (enhance_query_prefix "You write poems")).
  intros key terms term Hkey Hterm.
  repeat (destruct Hkey as [Hkey|Hkey];
          [injection Hkey as <- <-;
           repeat (destruct Hterm as [<-|Hterm]; [reflexivity|]); destruct Hterm|]).
  destruct Hkey.
Defined.

(** Two results with different URLs. *)
Lemma evidence_points_lossless_witness :
  evidence_points
    [ mkSearchResult "Coffee" "http://a.example/x" "first" 0 1;
      mkSearchResult "Tea" "http://b.example/y" "second" 0 1 ]
  = [ evidence_point (mkSearchResult "Coffee" "http://a.example/x" "first" 0 1);
      evidence_point (mkSearchResult "Tea" "http://b.example/y" "second" 0 1) ].
Proof.
  apply (proj2 (evidence_points_lossless
                  [ mkSearchResult "Coffee" "http://a.example/x" "first" 0 1;
                    mkSearchResult "Tea" "http://b.example/y" "second" 0 1 ])).
  simpl. repeat constructor; simpl; intuition discriminate.
Defined.

(** A fact checker whose search times out twice and whose provider of
    completions answers. *)
Lemma process_query_after_failed_search_witness :
  exists m,
    error m = Some "timed out"%string
    /\ ProcessQuery.fact_checker_process_query seconds (always (TimesOut "timed out"))
         2026 elements unit answering "2026-01-01 00:00:00"
         (BaseRole.initialize FactCheckerRole.__init__ built_client handler) "coffee"
       = Ok (fact_checker_display "coffee" "VERDICT: TRUE" [], m)
    /\ ProcessQuery.research_assistant_process_query seconds
         (always (TimesOut "timed out")) 2026 elements unit answering
         "2026-01-01 00:00:00"
         (BaseRole.initialize FactCheckerRole.__init__ built_client handler) "coffee"
       = Ok (research_assistant_display "VERDICT: TRUE" [], m).
Proof.
  apply (ProcessQueryFacts.process_query_after_failed_search seconds
           (always (TimesOut "timed out")) 2026 elements unit answering
           "2026-01-01 00:00:00"
           (BaseRole.initialize FactCheckerRole.__init__ built_client handler)
           "coffee" built_client handler (TimeoutException "timed out")
           (mkCallState 1 [Request 0; Sleep 1; Request 1]
                        (mkSearchMetrics 0 false 0 None))
           completion "VERDICT: TRUE" []); reflexivity.
Defined.

(** A token count too large for a float: the division by 1000.0 raises,
    and so does [process_query]. *)
Example process_query_token_overflow :
  ProcessQuery.fact_checker_process_query seconds (always (TimesOut "timed out"))
    2026 elements unit
    (fun _ _ _ => Ok (Completion.mkChatCompletion ["VERDICT: TRUE"%string] (10 ^ 400)))
    "2026-01-01 00:00:00"
    (BaseRole.initialize FactCheckerRole.__init__ built_client handler) "coffee"
  = Raise (OverflowError "int too large to convert to float").
Proof. vm_compute. reflexivity. Qed.

(** A provider of completions that is down, and a role that was never
    initialised. *)
Lemma process_query_completion_failure_witness :
  ProcessQuery.research_assistant_process_query seconds (answers []) 2026 elements
    unit down "2026-01-01 00:00:00"
    (BaseRole.initialize ResearchAssistant.__init__ built_client handler) "coffee"
  = Raise (OpenAIError "Connection error.")
  /\ ProcessQuery.fact_checker_process_query seconds (answers []) 2026 elements
       unit down "2026-01-01 00:00:00" FactCheckerRole.__init__ "coffee"
     = Raise (AttributeError "'NoneType' object has no attribute 'search'").
Proof.
  split.
  - apply (proj1 (ProcessQueryFacts.process_query_completion_failure seconds
                    (answers []) 2026 elements unit down "2026-01-01 00:00:00"
                    (BaseRole.initialize ResearchAssistant.__init__ built_client handler)
                    "coffee" (OpenAIError "Connection error."))
                 built_client handler eq_refl eq_refl (fun _ => eq_refl)).
  - apply (proj1 (proj2 (ProcessQueryFacts.process_query_completion_failure seconds
                    (answers []) 2026 elements unit down "2026-01-01 00:00:00"
                    FactCheckerRole.__init__ "coffee" (OpenAIError "Connection error."))
                 eq_refl)).
Defined.

(** A fact check with one or two lines per section. *)
Lemma fact_check_layout_read_back_witness :
  FactChecker.parse_llm_response
    (fc_document "MOSTLY TRUE" ["Coffee is widely traded."; "Oil is traded more."]
                 ["Figures differ by year."] ["1. https://a.example.org/x"])
  = FactChecker.mkSections "MOSTLY TRUE"
      (PyStr.join NL ["Coffee is widely traded."; "Oil is traded more."])
      (PyStr.join NL ["Figures differ by year."])
      ["1. https://a.example.org/x"] "" "".
Proof.
  apply FactCheckerParse.fact_check_layout_read_back.
  - discriminate.
  - repeat split.
  - repeat constructor; discriminate.
  - repeat constructor; discriminate.
  - repeat constructor; discriminate.
Defined.

(** A research answer with a second line of analysis, indented. *)
Lemma research_layout_read_back_witness :
  ResearchAssistant.parse_llm_response
    (ra_document "Coffee is widely traded." "By value it ranks high."
                 ["  By volume it does not."] ["Value and volume differ"]
                 ["https://a.example.org/x"; "Trade yearbook"])
  = ResearchAssistant.mkSections "Coffee is widely traded."
      (PyStr.join NL ["By value it ranks high."; "  By volume it does not."])
      ["Value and volume differ"] ["https://a.example.org/x"; "Trade yearbook"].
Proof.
  apply ResearchParse.research_layout_read_back.
  - repeat split.
  - repeat split.
  - repeat constructor; discriminate.
  - repeat constructor; discriminate.
  - repeat constructor; discriminate.
Defined.

(** A response without any header. *)
Lemma research_format_response_headerless_witness :
  ResearchAssistant.parse_llm_response ("Coffee is widely traded." ++ NL ++ "- a point")
  = ResearchAssistant.mkSections "" "" [] []
  /\ ResearchAssistant.format_response
       (FactChecker.PyStr ("Coffee is widely traded." ++ NL ++ "- a point"))
     = ""%string.
Proof.
  apply ResearchParse.research_format_response_headerless.
  repeat constructor.
Defined.

End MoreRuns.
